(** * benwh: the status-query envelope protocol of the FranklinWH client

    A shallow embedding of [benwh.go] (package [benwh]: [NewConn], [Status])
    and of the polling loop of [examples/status.go] ([main]), together with
    the parts of the Go standard library these functions call
    ([hash/crc32], [strconv], [fmt], [unicode/utf8], [encoding/json],
    [bytes]).

    Conventions.
    - A Go [string] and a Go [[]byte] are both [bytes], a list of 8-bit
      characters.
    - Go integers are [Z]; where the source can wrap around ([uint32],
      [uint64], [int64]) the wrap-around is written out.
    - A call of a Go function with results [(value, error)] comes to an
      [outcome]: it returns, or it panics at run time.
    - Network traffic and the clock are inputs, collected in a [World]. *)

From Stdlib Require Import ZArith List Bool Ascii String Lia.
Import ListNotations.
Open Scope Z_scope.

(** ** Bytes and strings *)

Definition bytes := list ascii.

Definition code (c : ascii) : Z := Z.of_N (N_of_ascii c).
Definition chr (z : Z) : ascii := ascii_of_N (Z.to_N (z mod 256)).

(** The double quote and the backslash. *)
Definition dquote : ascii := "034"%char.
Definition bslash : ascii := "092"%char.

(** [str "abc"] is the Go literal with the same characters. *)
Definition str (s : string) : bytes := list_ascii_of_string s.

(** [jstr] is [str] for literals that hold double quotes: in the literal a
    single quote stands for a double quote, so that
    [jstr "{'opt':1}"] is the Go raw string with [opt] in double quotes. *)
Definition jstr (s : string) : bytes :=
  map (fun c => if Ascii.eqb c "'"%char then dquote else c) (str s).

Definition beqb (a b : bytes) : bool :=
  if list_eq_dec ascii_dec a b then true else false.

Definition in_range (lo hi : ascii) (c : ascii) : bool :=
  (code lo <=? code c) && (code c <=? code hi).

(** [lower] of strconv: [c | ('x' - 'X')]. *)
Definition lower (c : ascii) : ascii := chr (Z.lor (code c) 32).

(** ** hash/crc32 *)

Module crc32.

(** The reversed IEEE polynomial. *)
Definition IEEE : Z := 0xedb88320.

(** One turn of the inner loop of [simplePopulateTable]. *)
Definition shift1 (crc : Z) : Z :=
  if Z.testbit crc 0 then Z.lxor (Z.shiftr crc 1) IEEE else Z.shiftr crc 1.

(** [simpleMakeTable(IEEE)[i]]: eight turns starting from [i]. *)
Definition table (i : Z) : Z :=
  shift1 (shift1 (shift1 (shift1 (shift1 (shift1 (shift1 (shift1 i))))))).

Definition not32 (crc : Z) : Z := Z.lxor crc 0xFFFFFFFF.

(** [simpleUpdate]:
    [crc = ^crc; for v in p { crc = tab[byte(crc)^v] ^ (crc >> 8) }; ^crc]. *)
Definition update_byte (crc : Z) (v : ascii) : Z :=
  Z.lxor (table (Z.lxor (Z.land crc 0xFF) (code v))) (Z.shiftr crc 8).

Definition simpleUpdate (crc : Z) (p : bytes) : Z :=
  not32 (fold_left update_byte p (not32 crc)).

Definition ChecksumIEEE (data : bytes) : Z := simpleUpdate 0 data.

End crc32.

(** ** fmt and strconv: numbers *)

Definition upperhex : bytes := str "0123456789ABCDEF".
Definition lowerhex : bytes := str "0123456789abcdef".

Definition digit_of (alphabet : bytes) (d : Z) : ascii :=
  nth (Z.to_nat d) alphabet "0"%char.

(** The digits of [n >= 0] in [base], most significant first, no padding;
    [fuel] bounds the number of digits (64 is enough for a [uint64]). *)
Fixpoint digits_aux (fuel : nat) (alphabet : bytes) (base n : Z)
         (acc : bytes) : bytes :=
  match fuel with
  | O => acc
  | S fuel' =>
      let acc' := digit_of alphabet (n mod base) :: acc in
      if n <? base then acc' else digits_aux fuel' alphabet base (n / base) acc'
  end.

Definition digits (alphabet : bytes) (base n : Z) : bytes :=
  digits_aux 64 alphabet base n [].

(** The verb [%X] on an unsigned integer. *)
Definition fmt_X (n : Z) : bytes := digits upperhex 16 n.

(** The verb [%08X]: [%X] padded on the left with zeros to 8 characters. *)
Definition fmt_08X (n : Z) : bytes :=
  let d := fmt_X n in
  repeat "0"%char (8 - List.length d)%nat ++ d.

(** The verb [%d], also [strconv.AppendInt(_, n, 10)]. *)
Definition fmt_d (n : Z) : bytes :=
  if n <? 0 then "-"%char :: digits lowerhex 10 (- n)
  else digits lowerhex 10 n.

Module strconv.

Inductive NumError := ErrSyntax | ErrRange.

Definition maxUint64 : Z := 2 ^ 64 - 1.

(** The value of one character as a digit, [None] when it is none
    (the [switch] in the loop of [ParseUint], without the underscore case,
    which needs base 0). *)
Definition digit_val (c : ascii) : option Z :=
  if in_range "0" "9" c then Some (code c - code "0")
  else if in_range "a" "z" (lower c) then Some (code (lower c) - code "a" + 10)
  else None.

(** The loop of [ParseUint]: [n] is the value so far. *)
Fixpoint parse_loop (base cutoff maxVal : Z) (s : bytes) (n : Z)
  : Z * option NumError :=
  match s with
  | [] => (n, None)
  | c :: s' =>
      match digit_val c with
      | None => (0, Some ErrSyntax)
      | Some d =>
          if base <=? d then (0, Some ErrSyntax)
          else if cutoff <=? n then (maxVal, Some ErrRange)
          else
            let n := n * base in
            let n1 := (n + d) mod 2 ^ 64 in
            if (n1 <? n) || (maxVal <? n1) then (maxVal, Some ErrRange)
            else parse_loop base cutoff maxVal s' n1
      end
  end.

(** [ParseUint(s, base, bitSize)] for [2 <= base <= 36] and
    [0 < bitSize <= 64].  As in Go the value is returned next to the
    error: 0 with a syntax error, the largest value of the size with a
    range error. *)
Definition ParseUint (s : bytes) (base bitSize : Z) : Z * option NumError :=
  match s with
  | [] => (0, Some ErrSyntax)
  | _ =>
      let cutoff := maxUint64 / base + 1 in
      let maxVal := 2 ^ bitSize - 1 in
      parse_loop base cutoff maxVal s 0
  end.

End strconv.

Definition uint32 (n : Z) : Z := n mod 2 ^ 32.


(** ** unicode/utf8 *)

Module utf8.

Definition RuneError : Z := 0xFFFD.
Definition RuneSelf : Z := 0x80.
Definition MaxRune : Z := 0x10FFFF.

(** The table [first] with [acceptRanges]: what a first byte announces. *)
Inductive lead :=
| ASCII
| Invalid
| Lead (size : nat) (lo hi : Z).

Definition first (b : Z) : lead :=
  if b <? 0x80 then ASCII
  else if b <? 0xC2 then Invalid
  else if b <? 0xE0 then Lead 2 0x80 0xBF
  else if b =? 0xE0 then Lead 3 0xA0 0xBF
  else if b <? 0xED then Lead 3 0x80 0xBF
  else if b =? 0xED then Lead 3 0x80 0x9F
  else if b <? 0xF0 then Lead 3 0x80 0xBF
  else if b =? 0xF0 then Lead 4 0x90 0xBF
  else if b <? 0xF4 then Lead 4 0x80 0xBF
  else if b =? 0xF4 then Lead 4 0x80 0x8F
  else Invalid.

Definition cont (b : Z) : bool := (0x80 <=? b) && (b <=? 0xBF).
Definition low6 (b : Z) : Z := Z.land b 0x3F.

(** [DecodeRuneInString]: the rune at the head of [s] and its width;
    [(RuneError, 1)] for an encoding that is not valid, [(RuneError, 0)]
    for the empty string. *)
Definition DecodeRune (s : bytes) : Z * nat :=
  match map code s with
  | [] => (RuneError, 0%nat)
  | s0 :: t =>
      match first s0 with
      | ASCII => (s0, 1%nat)
      | Invalid => (RuneError, 1%nat)
      | Lead sz lo hi =>
          match t with
          | [] => (RuneError, 1%nat)
          | s1 :: t1 =>
              if (List.length t <? sz - 1)%nat then (RuneError, 1%nat)
              else if (s1 <? lo) || (hi <? s1) then (RuneError, 1%nat)
              else if (sz <=? 2)%nat then
                (Z.lor (Z.shiftl (Z.land s0 0x1F) 6) (low6 s1), 2%nat)
              else
                match t1 with
                | [] => (RuneError, 1%nat)
                | s2 :: t2 =>
                    if negb (cont s2) then (RuneError, 1%nat)
                    else if (sz <=? 3)%nat then
                      (Z.lor (Z.shiftl (Z.land s0 0x0F) 12)
                         (Z.lor (Z.shiftl (low6 s1) 6) (low6 s2)), 3%nat)
                    else
                      match t2 with
                      | [] => (RuneError, 1%nat)
                      | s3 :: _ =>
                          if negb (cont s3) then (RuneError, 1%nat)
                          else
                            (Z.lor (Z.shiftl (Z.land s0 0x07) 18)
                               (Z.lor (Z.shiftl (low6 s1) 12)
                                  (Z.lor (Z.shiftl (low6 s2) 6) (low6 s3))),
                             4%nat)
                      end
                end
          end
      end
  end.

Definition surrogate (r : Z) : bool := (0xD800 <=? r) && (r <=? 0xDFFF).

Definition ValidRune (r : Z) : bool :=
  (0 <=? r) && (r <=? MaxRune) && negb (surrogate r).

Definition encode3 (r : Z) : bytes :=
  [chr (Z.lor 0xE0 (Z.shiftr r 12));
   chr (Z.lor 0x80 (low6 (Z.shiftr r 6)));
   chr (Z.lor 0x80 (low6 r))].

(** [AppendRune(nil, r)]. *)
Definition AppendRune (r : Z) : bytes :=
  if (0 <=? r) && (r <=? 0x7F) then [chr r]
  else if (0 <=? r) && (r <=? 0x7FF) then
    [chr (Z.lor 0xC0 (Z.shiftr r 6)); chr (Z.lor 0x80 (low6 r))]
  else if negb (ValidRune r) then encode3 RuneError
  else if r <=? 0xFFFF then encode3 r
  else
    [chr (Z.lor 0xF0 (Z.shiftr r 18));
     chr (Z.lor 0x80 (low6 (Z.shiftr r 12)));
     chr (Z.lor 0x80 (low6 (Z.shiftr r 6)));
     chr (Z.lor 0x80 (low6 r))].

End utf8.

(** ** strconv.Quote, the verb [%q] on a string *)

Section Quote.

(** [strconv.IsPrint] decides runes above U+00FF with the tables
    [isPrint16], [isNotPrint16], [isPrint32] and [isNotPrint32] of the Go
    release; they are taken as a parameter. *)
Variable isPrintTables : Z -> bool.

Definition IsPrint (r : Z) : bool :=
  if r <=? 0xFF then
    if (0x20 <=? r) && (r <=? 0x7E) then true
    else if (0xA1 <=? r) && (r <=? 0xFF) then negb (r =? 0xAD)
    else false
  else isPrintTables r.

Definition hex2 (b : Z) : bytes :=
  [digit_of lowerhex (Z.shiftr b 4); digit_of lowerhex (Z.land b 0xF)].

Definition hexN (n : nat) (r : Z) : bytes :=
  map (fun i => digit_of lowerhex (Z.land (Z.shiftr r (4 * Z.of_nat i)) 0xF))
      (rev (seq 0 n)).

(** [appendEscapedRune] with the double quote as [quote] and with
    [ASCIIonly] and [graphicOnly] false. *)
Definition appendEscapedRune (r : Z) : bytes :=
  if (r =? code dquote) || (r =? code bslash) then [bslash; chr r]
  else if IsPrint r then utf8.AppendRune r
  else if r =? 7 then str "\a"
  else if r =? 8 then str "\b"
  else if r =? 12 then str "\f"
  else if r =? 10 then str "\n"
  else if r =? 13 then str "\r"
  else if r =? 9 then str "\t"
  else if r =? 11 then str "\v"
  else if (r <? 32) || (r =? 0x7F) then str "\x" ++ hex2 r
  else if negb (utf8.ValidRune r) then str "\u" ++ hexN 4 0xFFFD
  else if r <? 0x10000 then str "\u" ++ hexN 4 r
  else str "\U" ++ hexN 8 r.

(** The loop of [appendQuotedWith]; [skip] counts the bytes of the rune
    in progress that are still to be passed over. *)
Fixpoint quote_loop (skip : nat) (s : bytes) : bytes :=
  match s with
  | [] => []
  | c :: s' =>
      match skip with
      | S k => quote_loop k s'
      | O =>
          let (r, width) :=
            if utf8.RuneSelf <=? code c then utf8.DecodeRune s
            else (code c, 1%nat) in
          (if (width =? 1)%nat && (r =? utf8.RuneError)
           then str "\x" ++ hex2 (code c)
           else appendEscapedRune r)
          ++ quote_loop (width - 1) s'
      end
  end.

Definition Quote (s : bytes) : bytes :=
  dquote :: quote_loop 0 s ++ [dquote].

End Quote.

Definition isDigit (c : ascii) : bool := in_range "0" "9" c.

(** The longest run of digits at the head of [s], and the rest. *)
Fixpoint span_digits (s : bytes) : bytes * bytes :=
  match s with
  | c :: s' =>
      if isDigit c then let (d, r) := span_digits s' in (c :: d, r) else ([], s)
  | [] => ([], [])
  end.

(** ** strconv: what encoding/json asks of it *)

Module numlit.

(** [strconv.ParseInt(s, 10, 64)]: the value, or [None] for a syntax or
    range error. *)
Definition ParseInt (s : bytes) : option Z :=
  match s with
  | [] => None
  | c :: s' =>
      let neg := Ascii.eqb c "-" in
      let s1 := if Ascii.eqb c "+" || neg then s' else s in
      match strconv.ParseUint s1 10 64 with
      | (_, Some strconv.ErrSyntax) => None
      | (un, _) =>
          let cutoff := 2 ^ 63 in
          if negb neg && (cutoff <=? un) then None
          else if neg && (cutoff <? un) then None
          else Some (if neg then - un else un)
      end
  end.

Definition digits_value (ds : bytes) : Z :=
  fold_left (fun n c => 10 * n + (code c - code "0")) ds 0.

(** The digits of a JSON number literal without the point, and the power
    of ten that scales them: the literal is [digits * 10 ^ exp10]. *)
Definition decimal (lit : bytes) : bytes * Z :=
  let body := match lit with
              | c :: r => if Ascii.eqb c "-" then r else lit
              | [] => lit
              end in
  let (i, r1) := span_digits body in
  let (f, r2) := match r1 with
                 | c :: r => if Ascii.eqb c "." then span_digits r else ([], r1)
                 | [] => ([], r1)
                 end in
  let e := match r2 with
           | _ :: g :: r =>
               if Ascii.eqb g "-" then - digits_value r
               else if Ascii.eqb g "+" then digits_value r
               else digits_value (g :: r)
           | _ => 0
           end in
  (i ++ f, e - Z.of_nat (List.length f)).

Fixpoint drop_zeros (ds : bytes) : bytes :=
  match ds with
  | c :: ds' => if Ascii.eqb c "0" then drop_zeros ds' else ds
  | [] => []
  end.

(** [strconv.ParseFloat(lit, 64)] reports a range error when the literal
    is at least half a unit in the last place above the largest
    [float64], that is, at least [2^1024 - 2^970].  With [n] significant
    digits [m] and the scale [e] the literal lies between [10 ^ (n + e - 1)]
    and [10 ^ (n + e)], which settles all but the literals near [10 ^ 308]
    without computing the power. *)
Definition float64_overflows (lit : bytes) : bool :=
  let (ds, e) := decimal lit in
  let m := digits_value ds in
  let n := Z.of_nat (List.length (drop_zeros ds)) in
  if m =? 0 then false
  else if 310 <? n + e then true
  else if n + e <? 300 then false
  else if 0 <=? e then 2 ^ 1024 - 2 ^ 970 <=? m * 10 ^ e
  else (2 ^ 1024 - 2 ^ 970) * 10 ^ (- e) <=? m.

End numlit.

(** ** Go values seen through reflection *)

Module reflect.

(** The types of the fields that encoding/json fills in this package.
    A struct field is its Go name, its [json] tag and its type.  [Int] is
    the 64-bit [int]. *)
#[local] Unset Elimination Schemes.
Inductive Kind :=
| Int
| String
| Bool
| Float64
| Slice (elem : Kind)
| Struct (fields : list (bytes * bytes * Kind)).

(** A [float64] is held as the decimal literal it was read from
    ([strconv.ParseFloat] rounds to the nearest one).  A struct value
    lists its fields by Go name, in declaration order. *)
Inductive Value :=
| VInt (n : Z)
| VString (s : bytes)
| VBool (b : bool)
| VFloat (lit : bytes)
| VNil
| VSlice (xs : list Value)
| VStruct (fields : list (bytes * Value)).
#[local] Set Elimination Schemes.

Definition fld (name tag : string) (k : Kind) : bytes * bytes * Kind :=
  (str name, str tag, k).

(** The zero value of a type. *)
Fixpoint zero (k : Kind) : Value :=
  match k with
  | Int => VInt 0
  | String => VString []
  | Bool => VBool false
  | Float64 => VFloat (str "0")
  | Slice _ => VNil
  | Struct fields =>
      VStruct (map (fun f => (fst (fst f), zero (snd f))) fields)
  end.

(** Field selection [v.name]. *)
Fixpoint lookup (name : bytes) (fs : list (bytes * Value)) : option Value :=
  match fs with
  | [] => None
  | (n, v) :: fs' => if beqb n name then Some v else lookup name fs'
  end.

Definition get (v : Value) (name : string) : Value :=
  match v with
  | VStruct fs => match lookup (str name) fs with Some x => x | None => VNil end
  | _ => VNil
  end.

Definition get_int (v : Value) (name : string) : Z :=
  match get v name with VInt n => n | _ => 0 end.

Definition get_string (v : Value) (name : string) : bytes :=
  match get v name with VString s => s | _ => [] end.

Definition get_bool (v : Value) (name : string) : bool :=
  match get v name with VBool b => b | _ => false end.

Fixpoint set (name : bytes) (x : Value) (fs : list (bytes * Value))
  : list (bytes * Value) :=
  match fs with
  | [] => []
  | (n, v) :: fs' =>
      if beqb n name then (n, x) :: fs' else (n, v) :: set name x fs'
  end.

End reflect.

(** ** encoding/json: reading *)

Module json.

(** A parsed JSON text.  A number keeps its literal; a string and an
    object key are held unquoted. *)
#[local] Unset Elimination Schemes.
Inductive t :=
| Null
| Bool (b : bool)
| Number (lit : bytes)
| String (s : bytes)
| Array (xs : list t)
| Object (members : list (bytes * t)).
#[local] Set Elimination Schemes.

Inductive Error :=
| SyntaxError
| UnmarshalTypeError (value : bytes).

Definition isSpace (c : ascii) : bool :=
  Ascii.eqb c " " || Ascii.eqb c "009" || Ascii.eqb c "013" || Ascii.eqb c "010".

Fixpoint skip_ws (s : bytes) : bytes :=
  match s with
  | c :: s' => if isSpace c then skip_ws s' else s
  | [] => []
  end.

Definition hexval (c : ascii) : option Z :=
  if isDigit c then Some (code c - code "0")
  else if in_range "a" "f" c then Some (code c - code "a" + 10)
  else if in_range "A" "F" c then Some (code c - code "A" + 10)
  else None.

(** [getu4] on the four characters after a backslash and a [u]. *)
Definition u4 (a b c d : ascii) : option Z :=
  match hexval a, hexval b, hexval c, hexval d with
  | Some a, Some b, Some c, Some d => Some (((a * 16 + b) * 16 + c) * 16 + d)
  | _, _, _, _ => None
  end.

(** [utf16.DecodeRune]. *)
Definition utf16_DecodeRune (r1 r2 : Z) : Z :=
  if (0xD800 <=? r1) && (r1 <? 0xDC00) && (0xDC00 <=? r2) && (r2 <? 0xE000)
  then Z.lor (Z.shiftl (r1 - 0xD800) 10) (r2 - 0xDC00) + 0x10000
  else utf8.RuneError.

Definition cons_to {A} (p : bytes) (r : option (bytes * A)) : option (bytes * A) :=
  match r with
  | Some (d, rest) => Some (p ++ d, rest)
  | None => None
  end.

(** The inside of a string literal, after the opening quote: the scanner's
    [stateInString] and [unquoteBytes] in one pass.  Returns the unquoted
    string and what follows the closing quote.  [skip] counts the bytes of
    a multi-byte rune still to be passed over. *)
Fixpoint string_body (skip : nat) (s : bytes) : option (bytes * bytes) :=
  match s with
  | [] => None
  | c :: s' =>
      match skip with
      | S k => string_body k s'
      | O =>
          if Ascii.eqb c dquote then Some ([], s')
          else if Ascii.eqb c bslash then
            match s' with
            | [] => None
            | e :: s2 =>
                if Ascii.eqb e dquote || Ascii.eqb e bslash || Ascii.eqb e "/"
                then cons_to [e] (string_body 0 s2)
                else if Ascii.eqb e "b" then cons_to [chr 8] (string_body 0 s2)
                else if Ascii.eqb e "f" then cons_to [chr 12] (string_body 0 s2)
                else if Ascii.eqb e "n" then cons_to [chr 10] (string_body 0 s2)
                else if Ascii.eqb e "r" then cons_to [chr 13] (string_body 0 s2)
                else if Ascii.eqb e "t" then cons_to [chr 9] (string_body 0 s2)
                else if Ascii.eqb e "u" then
                  match s2 with
                  | h1 :: h2 :: h3 :: h4 :: s6 =>
                      match u4 h1 h2 h3 h4 with
                      | None => None
                      | Some rr =>
                          if utf8.surrogate rr then
                            match s6 with
                            | b1 :: b2 :: g1 :: g2 :: g3 :: g4 :: s12 =>
                                match (if Ascii.eqb b1 bslash && Ascii.eqb b2 "u"
                                       then u4 g1 g2 g3 g4 else None) with
                                | Some rr1 =>
                                    let dec := utf16_DecodeRune rr rr1 in
                                    if dec =? utf8.RuneError
                                    then cons_to (utf8.AppendRune utf8.RuneError)
                                                 (string_body 0 s6)
                                    else cons_to (utf8.AppendRune dec)
                                                 (string_body 0 s12)
                                | None =>
                                    cons_to (utf8.AppendRune utf8.RuneError)
                                            (string_body 0 s6)
                                end
                            | _ => cons_to (utf8.AppendRune utf8.RuneError)
                                           (string_body 0 s6)
                            end
                          else cons_to (utf8.AppendRune rr) (string_body 0 s6)
                      end
                  | _ => None
                  end
                else None
            end
          else if code c <? 0x20 then None
          else if code c <? utf8.RuneSelf then cons_to [c] (string_body 0 s')
          else
            let (rr, size) := utf8.DecodeRune s in
            cons_to (utf8.AppendRune rr) (string_body (size - 1) s')
      end
  end.

(** One or more digits. *)
Definition digits1 (s : bytes) : option (bytes * bytes) :=
  match span_digits s with
  | ([], _) => None
  | p => Some p
  end.

(** A number literal at the head of [s]: an optional minus, then a zero
    or a non-zero digit with more digits, then optionally a point with one
    or more digits, then optionally [e] or [E], a sign and one or more
    digits. *)
Definition number (s : bytes) : option (bytes * bytes) :=
  let (sign, s1) :=
    match s with
    | c :: s' => if Ascii.eqb c "-" then ([c], s') else ([], s)
    | [] => ([], s)
    end in
  let int_part :=
    match s1 with
    | c :: s' =>
        if Ascii.eqb c "0" then Some ([c], s')
        else if in_range "1" "9" c then
          let (d, r) := span_digits s' in Some (c :: d, r)
        else None
    | [] => None
    end in
  match int_part with
  | None => None
  | Some (i, s2) =>
      let frac :=
        match s2 with
        | c :: s' =>
            if Ascii.eqb c "." then cons_to [c] (digits1 s') else Some ([], s2)
        | [] => Some ([], s2)
        end in
      match frac with
      | None => None
      | Some (f, s3) =>
          let exp :=
            match s3 with
            | c :: s' =>
                if Ascii.eqb c "e" || Ascii.eqb c "E" then
                  match s' with
                  | g :: s'' =>
                      if Ascii.eqb g "+" || Ascii.eqb g "-"
                      then cons_to [c; g] (digits1 s'')
                      else cons_to [c] (digits1 s')
                  | [] => None
                  end
                else Some ([], s3)
            | [] => Some ([], s3)
            end in
          match exp with
          | None => None
          | Some (e, s4) => Some (sign ++ i ++ f ++ e, s4)
          end
      end
  end.

(** [strip p s] is what follows the prefix [p] of [s]. *)
Fixpoint strip (p s : bytes) : option bytes :=
  match p, s with
  | [], _ => Some s
  | a :: p', b :: s' => if Ascii.eqb a b then strip p' s' else None
  | _ :: _, [] => None
  end.

Definition maxNestingDepth : Z := 10000.

(** One value at the head of [s] (no leading space), and what follows it.
    [depth] is the number of arrays and objects open around it. *)
Fixpoint value (fuel : nat) (depth : Z) (s : bytes) {struct fuel}
  : option (t * bytes) :=
  match fuel with
  | O => None
  | S fuel =>
      match s with
      | [] => None
      | c :: s' =>
          if Ascii.eqb c "{" then
            if maxNestingDepth <? depth + 1 then None
            else
              match skip_ws s' with
              | [] => None
              | c1 :: r1 =>
                  if Ascii.eqb c1 "}" then Some (Object [], r1)
                  else
                    match members fuel (depth + 1) (c1 :: r1) with
                    | Some (ms, r) => Some (Object ms, r)
                    | None => None
                    end
              end
          else if Ascii.eqb c "[" then
            if maxNestingDepth <? depth + 1 then None
            else
              match skip_ws s' with
              | [] => None
              | c1 :: r1 =>
                  if Ascii.eqb c1 "]" then Some (Array [], r1)
                  else
                    match elements fuel (depth + 1) (c1 :: r1) with
                    | Some (xs, r) => Some (Array xs, r)
                    | None => None
                    end
              end
          else if Ascii.eqb c dquote then
            match string_body 0 s' with
            | Some (d, r) => Some (String d, r)
            | None => None
            end
          else if Ascii.eqb c "t" then
            option_map (pair (Bool true)) (strip (str "rue") s')
          else if Ascii.eqb c "f" then
            option_map (pair (Bool false)) (strip (str "alse") s')
          else if Ascii.eqb c "n" then
            option_map (pair Null) (strip (str "ull") s')
          else
            match number s with
            | Some (lit, r) => Some (Number lit, r)
            | None => None
            end
      end
  end

(** The elements of an array from the first one to the closing bracket. *)
with elements (fuel : nat) (depth : Z) (s : bytes) {struct fuel}
  : option (list t * bytes) :=
  match fuel with
  | O => None
  | S fuel =>
      match value fuel depth s with
      | None => None
      | Some (x, r) =>
          match skip_ws r with
          | c :: r' =>
              if Ascii.eqb c "]" then Some ([x], r')
              else if Ascii.eqb c "," then
                match elements fuel depth (skip_ws r') with
                | Some (xs, r2) => Some (x :: xs, r2)
                | None => None
                end
              else None
          | [] => None
          end
      end
  end

(** The members of an object from the first key to the closing brace. *)
with members (fuel : nat) (depth : Z) (s : bytes) {struct fuel}
  : option (list (bytes * t) * bytes) :=
  match fuel with
  | O => None
  | S fuel =>
      match s with
      | q :: s' =>
          if Ascii.eqb q dquote then
            match string_body 0 s' with
            | None => None
            | Some (key, r) =>
                match skip_ws r with
                | c :: r1 =>
                    if Ascii.eqb c ":" then
                      match value fuel depth (skip_ws r1) with
                      | None => None
                      | Some (x, r2) =>
                          match skip_ws r2 with
                          | c2 :: r3 =>
                              if Ascii.eqb c2 "}" then Some ([(key, x)], r3)
                              else if Ascii.eqb c2 "," then
                                match members fuel depth (skip_ws r3) with
                                | Some (ms, r4) => Some ((key, x) :: ms, r4)
                                | None => None
                                end
                              else None
                          | [] => None
                          end
                      end
                    else None
                | [] => None
                end
            end
          else None
      | [] => None
      end
  end.

(** Every recursive call follows at least one character read or is the
    one step from an array or object to its first item, so twice the
    length of the text is fuel enough. *)
Definition fuel_for (data : bytes) : nat := (2 * List.length data + 2)%nat.

(** [checkValid] and the scan of [Unmarshal] together: the one value of a
    text that is valid JSON, with space allowed around it. *)
Definition parse (data : bytes) : option t :=
  match value (fuel_for data) 0 (skip_ws data) with
  | Some (x, r) => match skip_ws r with [] => Some x | _ => None end
  | None => None
  end.

(** *** Filling a Go value *)

(** [foldName], as far as it decides equality with a name made of ASCII
    characters: ASCII letters go to upper case, and the only other runes
    whose fold orbit holds an ASCII letter are U+017F (to [S]) and U+212A
    (to [K]). *)
Fixpoint foldName (s : bytes) : bytes :=
  match s with
  | [] => []
  | c :: s' =>
      if in_range "a" "z" c then chr (code c - 32) :: foldName s'
      else
        match s' with
        | c1 :: s1 =>
            if (code c =? 0xC5) && (code c1 =? 0xBF)
            then "S"%char :: foldName s1
            else
              match s1 with
              | c2 :: s2 =>
                  if (code c =? 0xE2) && (code c1 =? 0x84) && (code c2 =? 0xAA)
                  then "K"%char :: foldName s2
                  else c :: foldName s'
              | [] => c :: foldName s'
              end
        | [] => [c]
        end
  end.

Definition field := (bytes * bytes * reflect.Kind)%type.

Definition find_by (p : bytes -> bool) (fields : list field) : option field :=
  find (fun f : field => p (snd (fst f))) fields.

(** The field an object key names: [byExactName], then [byFoldedName]. *)
Definition find_field (fields : list field) (key : bytes) : option field :=
  match find_by (beqb key) fields with
  | Some f => Some f
  | None => find_by (fun tag => beqb (foldName tag) (foldName key)) fields
  end.

(** [saveError] keeps the first error. *)
Definition first_error (e1 e2 : option Error) : option Error :=
  match e1 with Some _ => e1 | None => e2 end.

Definition mismatch (what : string) (old : reflect.Value)
  : reflect.Value * option Error :=
  (old, Some (UnmarshalTypeError (str what))).

(** [d.value] into a value of type [k] that holds [old]: a literal is
    stored by [literalStore], an array by [d.array], an object by
    [d.object].  A value of the wrong type leaves [old] in place, records
    an [UnmarshalTypeError] and decoding goes on. *)
Fixpoint store (j : t) (k : reflect.Kind) (old : reflect.Value) {struct j}
  : reflect.Value * option Error :=
  match j with
  | Null =>
      match k with
      | reflect.Slice _ => (reflect.VNil, None)
      | _ => (old, None)
      end
  | Bool b =>
      match k with
      | reflect.Bool => (reflect.VBool b, None)
      | _ => mismatch "bool" old
      end
  | String s =>
      match k with
      | reflect.String => (reflect.VString s, None)
      | _ => mismatch "string" old
      end
  | Number lit =>
      match k with
      | reflect.Int =>
          match numlit.ParseInt lit with
          | Some n => (reflect.VInt n, None)
          | None => (old, Some (UnmarshalTypeError (str "number " ++ lit)))
          end
      | reflect.Float64 =>
          if numlit.float64_overflows lit
          then (old, Some (UnmarshalTypeError (str "number " ++ lit)))
          else (reflect.VFloat lit, None)
      | _ => mismatch "number" old
      end
  | Array xs =>
      match k with
      | reflect.Slice ek =>
          let fix elems (xs : list t) (olds : list reflect.Value)
            : list reflect.Value * option Error :=
            match xs with
            | [] => ([], None)
            | x :: xs' =>
                let (v, e) := store x ek (hd (reflect.zero ek) olds) in
                let (vs, e') := elems xs' (tl olds) in
                (v :: vs, first_error e e')
            end in
          let (vs, e) :=
            elems xs (match old with reflect.VSlice os => os | _ => [] end) in
          (reflect.VSlice vs, e)
      | _ => mismatch "array" old
      end
  | Object ms =>
      match k with
      | reflect.Struct fields =>
          let fix fill (ms : list (bytes * t))
                  (cur : list (bytes * reflect.Value)) (err : option Error)
            : list (bytes * reflect.Value) * option Error :=
            match ms with
            | [] => (cur, err)
            | (key, x) :: ms' =>
                match find_field fields key with
                | Some (name, _, fk) =>
                    let old_f :=
                      match reflect.lookup name cur with
                      | Some v => v
                      | None => reflect.zero fk
                      end in
                    let (v, e) := store x fk old_f in
                    fill ms' (reflect.set name v cur) (first_error err e)
                | None => fill ms' cur err
                end
            end in
          let (fs, e) :=
            fill ms (match old with reflect.VStruct fs => fs | _ => [] end) None in
          (reflect.VStruct fs, e)
      | _ => mismatch "object" old
      end
  end.

(** [Unmarshal(data, &v)] for [v] of type [k] holding [old]: the value of
    [v] afterwards and the error returned.  A text that is not valid JSON
    leaves [v] as it was. *)
Definition Unmarshal (data : bytes) (k : reflect.Kind) (old : reflect.Value)
  : reflect.Value * option Error :=
  match parse data with
  | None => (old, Some SyntaxError)
  | Some j => store j k old
  end.

(** *** Writing *)

(** [htmlSafeSet]: the ASCII characters written as they are. *)
Definition htmlSafe (c : ascii) : bool :=
  (0x20 <=? code c) && (code c <? 0x80)
  && negb (Ascii.eqb c dquote || Ascii.eqb c bslash
           || Ascii.eqb c "&" || Ascii.eqb c "<" || Ascii.eqb c ">").

Definition escape_ascii (c : ascii) : bytes :=
  if Ascii.eqb c bslash || Ascii.eqb c dquote then [bslash; c]
  else if code c =? 8 then str "\b"
  else if code c =? 12 then str "\f"
  else if code c =? 10 then str "\n"
  else if code c =? 13 then str "\r"
  else if code c =? 9 then str "\t"
  else str "\u00" ++ hex2 (code c).

(** The loop of [appendString] with [escapeHTML] set, as [Marshal] sets
    it.  [skip] counts the bytes of the rune in progress still to be
    passed over; they are copied when [keep] is set. *)
Fixpoint string_loop (keep : bool) (skip : nat) (s : bytes) : bytes :=
  match s with
  | [] => []
  | c :: s' =>
      match skip with
      | S k => (if keep then [c] else []) ++ string_loop keep k s'
      | O =>
          if code c <? utf8.RuneSelf then
            (if htmlSafe c then [c] else escape_ascii c)
            ++ string_loop true 0 s'
          else
            let (r, size) := utf8.DecodeRune s in
            if (r =? utf8.RuneError) && (size =? 1)%nat
            then (bslash :: str "ufffd") ++ string_loop true 0 s'
            else if (r =? 0x2028) || (r =? 0x2029)
            then str "\u202" ++ [digit_of lowerhex (Z.land r 0xF)]
                 ++ string_loop false (size - 1) s'
            else c :: string_loop true (size - 1) s'
      end
  end.

Definition appendString (s : bytes) : bytes :=
  dquote :: string_loop true 0 s ++ [dquote].

Definition join (sep : bytes) (parts : list bytes) : bytes :=
  match parts with
  | [] => []
  | p :: ps => p ++ flat_map (fun q => sep ++ q) ps
  end.

(** [Marshal(v)] for [v] of type [k].  A struct is written field by field
    in declaration order under the [json] tags; none of the types of this
    package makes the encoder fail.  A [float64] is written as the literal
    that holds it (Go writes its shortest decimal form; the one struct the
    package marshals has no float). *)
Fixpoint Marshal (v : reflect.Value) (k : reflect.Kind) {struct v} : bytes :=
  match v with
  | reflect.VInt n => fmt_d n
  | reflect.VString s => appendString s
  | reflect.VBool b => if b then str "true" else str "false"
  | reflect.VFloat lit => lit
  | reflect.VNil => str "null"
  | reflect.VSlice xs =>
      let ek := match k with reflect.Slice ek => ek | _ => k end in
      str "[" ++ join (str ",") (map (fun x => Marshal x ek) xs) ++ str "]"
  | reflect.VStruct fs =>
      let fix pairs (fs : list (bytes * reflect.Value)) (fields : list field)
        : list bytes :=
        match fs, fields with
        | (_, x) :: fs', (_, tag, fk) :: fields' =>
            (appendString tag ++ str ":" ++ Marshal x fk) :: pairs fs' fields'
        | _, _ => []
        end in
      str "{"
      ++ join (str ",")
           (pairs fs (match k with reflect.Struct fields => fields | _ => [] end))
      ++ str "}"
  end.

End json.

(** ** bytes *)

Definition bytes_HasPrefix (s prefix : bytes) : bool :=
  match json.strip prefix s with Some _ => true | None => false end.

(** The loop of [bytes.Replace] for a non-empty [old]: [n] replacements are
    still allowed, [skip] bytes of a replaced [old] are still to be passed
    over. *)
Fixpoint Replace_loop (old new : bytes) (n skip : nat) (s : bytes) : bytes :=
  match s with
  | [] => []
  | c :: s' =>
      match skip with
      | S k => Replace_loop old new n k s'
      | O =>
          match n with
          | O => s
          | S n' =>
              if bytes_HasPrefix s old
              then new ++ Replace_loop old new n' (List.length old - 1) s'
              else c :: Replace_loop old new n 0 s'
          end
      end
  end.

(** [bytes.Replace(s, old, new, n)] for a non-empty [old]: the first [n]
    occurrences of [old], none overlapping, replaced by [new]; all of them
    when [n < 0]. *)
Definition bytes_Replace (s old new : bytes) (n : Z) : bytes :=
  Replace_loop old new (if n <? 0 then List.length s else Z.to_nat n) 0 s.

(** ** Package benwh: types *)

Module types.
Import reflect.

(** [LoginResult] holds the user details for an authenticated user. *)
Definition LoginResult : Kind :=
  Struct
    [ fld "UserID" "userId" Int;
      fld "Email" "email" String;
      fld "Token" "token" String;
      fld "Version" "version" String;
      fld "PasswordUpdateFlag" "passwordUpdateFlag" Int;
      fld "UserTypes" "userTypes" (Slice Int);
      fld "CurrentType" "currentType" Int;
      fld "SurveyFlag" "surveyFlag" Int;
      fld "ServiceVoltageFlag" "serviceVoltageFlag" Int;
      fld "NinetyDaysPwdUpdate" "ninetyDaysPwdUpdate" Int ].

(** [LoginResponse] is what an attempt to obtain a login token returns. *)
Definition LoginResponse : Kind :=
  Struct
    [ fld "Code" "code" Int;
      fld "Message" "message" String;
      fld "Result" "result" LoginResult;
      fld "Total" "total" Int;
      fld "Success" "success" Bool ].

(** [MQTTRequest] is the structure used to make MQTT requests of the service; [Len] and [CRC] are for the marshaled form of the [dataArea] request. *)
Definition MQTTRequest : Kind :=
  Struct
    [ fld "Lang" "lang" String;
      fld "CmdType" "cmdType" Int;
      fld "EquipNo" "equipNo" String;
      fld "Type" "type" Int;
      fld "TimeStamp" "timeStamp" Int;
      fld "Snno" "snno" Int;
      fld "Len" "len" Int;
      fld "CRC" "crc" String;
      fld "DataArea" "dataArea" String ].

(** [MQTTResult] is the returned [Result] data after making a [MQTTRequest]. *)
Definition MQTTResult : Kind :=
  Struct
    [ fld "CmdType" "cmdType" Int;
      fld "EquipNo" "equipNo" String;
      fld "Type" "type" Int;
      fld "TimeStamp" "timeStamp" Int;
      fld "Snno" "snno" Int;
      fld "Len" "len" Int;
      fld "CRC" "crc" String;
      fld "DataArea" "dataArea" String ].

(** [MQTTResponse] is the response to a [MQTTRequest] sent to the server. *)
Definition MQTTResponse : Kind :=
  Struct
    [ fld "Code" "code" Int;
      fld "Message" "message" String;
      fld "Result" "result" MQTTResult;
      fld "Total" "total" Int;
      fld "Success" "success" Bool ].

(** [DataStatus] is the unmarshaled [dataArea] value from a successful status request. *)
Definition DataStatus : Kind :=
  Struct
    [ fld "ReportType" "report_type" Int;
      fld "Mode" "mode" Int;
      fld "RunStatus" "run_status" Int;
      fld "SlaverStat" "slaver_stat" Int;
      fld "ElecnetState" "elecnet_state" Int;
      fld "FhpSn" "fhpSn" (Slice String);
      fld "InfiStatus" "infi_status" (Slice Int);
      fld "PeStat" "pe_stat" (Slice Int);
      fld "BmsWork" "bms_work" (Slice Int);
      fld "BmsHeatState" "bms_heat_state" (Slice Int);
      fld "PUti" "p_uti" Float64;
      fld "PSun" "p_sun" Float64;
      fld "PGen" "p_gen" Float64;
      fld "PFhp" "p_fhp" Float64;
      fld "PLoad" "p_load" Float64;
      fld "KwhUtiIn" "kwh_uti_in" Float64;
      fld "KwhUtiOut" "kwh_uti_out" Float64;
      fld "KwhSun" "kwh_sun" Float64;
      fld "KwhGen" "kwh_gen" Float64;
      fld "KwhFhpDi" "kwh_fhp_di" Float64;
      fld "KwhFhpChg" "kwh_fhp_chg" Float64;
      fld "KwhLoad" "kwh_load" Float64;
      fld "SolarSupply" "solarSupply" Float64;
      fld "Soc" "soc" Float64;
      fld "FhpSoc" "fhpSoc" (Slice Float64);
      fld "FhpPower" "fhpPower" (Slice Float64);
      fld "TAmb" "t_amb" Float64;
      fld "MainSw" "main_sw" (Slice Int);
      fld "ProLoad" "pro_load" (Slice Int);
      fld "Do" "do" (Slice Int);
      fld "Di" "di" (Slice Int);
      fld "Signal" "signal" Int;
      fld "WifiSignal" "wifiSignal" Int;
      fld "ConnType" "connType" Int;
      fld "GenStat" "genStat" Int;
      fld "KwhSolarLoad" "kwhSolarLoad" Float64;
      fld "KwhGridLoad" "kwhGridLoad" Float64;
      fld "KwhFhpLoad" "kwhFhpLoad" Float64;
      fld "KwhGenLoad" "kwhGenLoad" Float64;
      fld "RemoteSolarEn" "remoteSolarEn" Int;
      fld "SolarPower" "solarPower" Int;
      fld "RemoteSolar1Power" "remoteSolar1Power" Int;
      fld "RemoteSolar2Power" "remoteSolar2Power" Int;
      fld "DSPNEMPVPower" "DSPNEMPVPower" Int;
      fld "BFPVApboxRelay" "BFPVApboxRelay" Int;
      fld "BatOutGrid" "batOutGrid" Int;
      fld "SoOutGrid" "soOutGrid" Int;
      fld "GridChBat" "gridChBat" Int;
      fld "GenChBat" "genChBat" Int;
      fld "SinHTemp" "sinHTemp" Int;
      fld "SinLTemp" "sinLTemp" Int;
      fld "Name" "name" String;
      fld "Electricity_type" "electricity_type" Int;
      fld "GridPhaseConSet" "gridPhaseConSet" Int ].

End types.

(** ** Package benwh: connections and the status query *)

Module benwh.

(** An error handed back by the standard library. *)
Inductive lib_error :=
| Transport (msg : bytes)                 (* from net/http or io *)
| JSON (e : json.Error)                   (* from encoding/json *)
| Strconv (e : strconv.NumError)          (* from strconv *).

(** An [error] value.  [ErrRetryLater] is the package variable, [Lib] an
    error of the standard library returned as it is, and the others are
    named after the text that [fmt.Errorf] gives them in [Status]; their
    [cause] is the [err2] printed by the verb [%v], [None] for [nil]. *)
Inductive error :=
| ErrRetryLater                           (* "retry later" *)
| Lib (e : lib_error)
| QueryPreparationFailed (cause : option lib_error)
                                          (* "query preparation failed: %v" *)
| QueryFailed (cause : lib_error)         (* "query failed: %v" *)
| FailedToReadBody (cause : lib_error)    (* "failed to read body: %v" *)
| MqttResponseDecodeError (cause : option lib_error)
                                          (* "mqtt response decode error: %v" *)
| UnexpectedMqttCode (code : Z)           (* "unexpected mqtt code = %d" *)
| InvalidCRCNotHex (got : bytes) (cause : option lib_error)
                          (* "invalid CRC return got=%q which is not hex" *)
| InvalidCRC (got want : Z)   (* "invalid CRC return got=%X, want=%X" *)
| StatusReportDecodeError (cause : option lib_error)
                                          (* "status report decode error: %v" *).

Inductive panic :=
| IndexOutOfRange (index len : Z)
| NilDereference.

(** What a call of a function with results [(x *T, err error)] comes to:
    it returns, [None] standing for [nil], or it panics. *)
Inductive outcome (T : Type) :=
| Return (x : option T) (err : option error)
| Panics (p : panic).
Arguments Return {T} x err.
Arguments Panics {T} p.

(** [Config] holds client authentication and access information. *)
Record Config := {
  Email : bytes;
  Device : list bytes;
  Password : bytes
}.

(** [Conn] holds an open connection to the service.  The [client] field is
    the handle of the HTTP client; what the client does is in the [World]. *)
Record Conn := {
  config : Config;
  token : bytes;
  client : unit
}.

(** An [http.Request] as far as [Status] sets it. *)
Record Request := {
  Method : bytes;
  URL : bytes;
  Header : list (bytes * bytes);
  Body : bytes
}.

(** [Header.Add]; the keys are kept as the source writes them. *)
Definition Header_Add (r : Request) (key value : bytes) : Request :=
  {| Method := Method r; URL := URL r;
     Header := Header r ++ [(key, value)];
     Body := Body r |}.

(** One HTTP exchange followed by [io.ReadAll] of the body. *)
Inductive exchange :=
| DoFails (e : lib_error)
| ReadFails (e : lib_error)
| Responds (d : bytes).

(** What a call finds outside the program: the package variable [URLBase],
    the clock, and the server behind the HTTP client. *)
Record World := {
  URLBase : bytes;
  time_Now_Unix : Z;
  client_Do : Request -> exchange;
  client_PostForm : bytes -> list (bytes * bytes) -> exchange
}.

(** [url.Values.Set]. *)
Fixpoint Values_Set (v : list (bytes * bytes)) (key value : bytes)
  : list (bytes * bytes) :=
  match v with
  | [] => [(key, value)]
  | (k, x) :: v' =>
      if beqb k key then (k, value) :: v' else (k, x) :: Values_Set v' key value
  end.

Definition fv (name : string) (v : reflect.Value) : bytes * reflect.Value :=
  (str name, v).

Section Benwh.

(** The constant [userAgent] is declared in a file of the package that is
    not at hand. *)
Variable userAgent : bytes.

(** The tables of [strconv.IsPrint] for runes above U+00FF. *)
Variable isPrintTables : Z -> bool.

(** Whether [url.Parse] accepts a URL; [http.NewRequest] fails exactly
    when it does not (the method is the constant [POST]). *)
Variable url_Parse_ok : bytes -> bool.

Definition http_NewRequest (method url body : bytes)
  : option Request * option lib_error :=
  if url_Parse_ok url
  then (Some {| Method := method; URL := url; Header := []; Body := body |}, None)
  else (None, Some (Transport (str "parse " ++ url))).

(** [NewConn] creates an authenticated connection to the FranklinWH
    service. *)
Definition NewConn (conf : Config) (w : World) : outcome Conn :=
  let c := tt in
  let v := [] in
  let v := Values_Set v (str "account") (Email conf) in
  let v := Values_Set v (str "password") (Password conf) in
  let v := Values_Set v (str "lang") (str "EN_US") in
  let v := Values_Set v (str "type") (str "1") in
  let v := Values_Set v (str "user-agent") userAgent in
  match client_PostForm w
          (URLBase w ++ str "hes-gateway/terminal/initialize/appUserOrInstallerLogin")
          v with
  | DoFails err => Return None (Some (Lib err))
  | ReadFails err => Return None (Some (Lib err))
  | Responds d =>
      let (resp, err) :=
        json.Unmarshal d types.LoginResponse (reflect.zero types.LoginResponse) in
      match err with
      | Some e => Return None (Some (Lib (JSON e)))
      | None =>
          Return (Some {| config := conf;
                          token := reflect.get_string (reflect.get resp "Result") "Token";
                          client := c |})
                 None
      end
  end.

(** The request of [Status]. *)
Definition req : bytes := jstr "{'opt':1,'refreshData':1}".

(** The struct literal [send] of [Status] for the device [equipNo] at the
    time [now]. *)
Definition send_of (equipNo : bytes) (now : Z) : reflect.Value :=
  let checksum := crc32.ChecksumIEEE req in
  reflect.VStruct
    [ fv "Lang" (reflect.VString (str "EN_US"));
      fv "CmdType" (reflect.VInt 203);
      fv "EquipNo" (reflect.VString equipNo);
      fv "Type" (reflect.VInt 0);
      fv "TimeStamp" (reflect.VInt now);
      fv "Snno" (reflect.VInt 1);
      fv "Len" (reflect.VInt (Z.of_nat (List.length req)));
      fv "CRC" (reflect.VString (fmt_08X checksum));
      fv "DataArea" (reflect.VString (str ":data-area:")) ].

(** The body that [Status] posts: [send] marshaled, then the first
    quoted placeholder replaced by [req]. *)
Definition body_of (equipNo : bytes) (now : Z) : bytes :=
  let j := json.Marshal (send_of equipNo now) types.MQTTRequest in
  bytes_Replace j (jstr "':data-area:'") req 1.

(** [Status], from the response body [d] on (from [var mresp
    MQTTResponse] to the end).

    The result [err] of [Status] is [nil] until a branch sets it and
    returns.  Three tests in this part read [err] where the call just made
    has put its error in [err2]; [err] below is that [nil], so that the
    tests stand as the source writes them. *)
Definition Status_validate (d : bytes) : outcome reflect.Value :=
  let err : option error := None in
  let (mresp, err2) :=
    json.Unmarshal d types.MQTTResponse (reflect.zero types.MQTTResponse) in
  match err with
  | Some _ => Return None (Some (MqttResponseDecodeError (option_map JSON err2)))
  | None =>
      let Code := reflect.get_int mresp "Code" in
      let Result := reflect.get mresp "Result" in
      if Code =? 102 then Return None (Some ErrRetryLater)
      else if negb (Code =? 200) then Return None (Some (UnexpectedMqttCode Code))
      else
        let DataArea := reflect.get_string Result "DataArea" in
        let CRC := reflect.get_string Result "CRC" in
        let checksum := crc32.ChecksumIEEE (Quote isPrintTables DataArea) in
        let (got, err2) := strconv.ParseUint CRC 16 32 in
        match err with
        | Some _ =>
            Return None (Some (InvalidCRCNotHex CRC (option_map Strconv err2)))
        | None =>
            if negb (uint32 got =? checksum)
            then Return None (Some (InvalidCRC got checksum))
            else
              let (resp, err2) :=
                json.Unmarshal DataArea types.DataStatus
                               (reflect.zero types.DataStatus) in
              match err with
              | Some _ =>
                  Return (Some resp)
                         (Some (StatusReportDecodeError (option_map JSON err2)))
              | None => Return (Some resp) None
              end
        end
  end.

(** [Status] returns the system status.

    [json.Marshal] cannot fail on [send], so the branch "preparation
    failed" is left out.  The test after [http.NewRequest] reads [err],
    which is [nil], where the error is in [err2]: when the request could
    not be made, [fReq] is [nil] and [fReq.Header.Add] panics. *)
Definition Status (conn : Conn) (w : World) : outcome reflect.Value :=
  let err : option error := None in
  match nth_error (Device (config conn)) 0 with
  | None =>
      Panics (IndexOutOfRange 0 (Z.of_nat (List.length (Device (config conn)))))
  | Some equipNo =>
      let j := body_of equipNo (time_Now_Unix w) in
      let (fReq, err2) :=
        http_NewRequest (str "POST")
                        (URLBase w ++ str "hes-gateway/terminal/sendMqtt") j in
      match err with
      | Some _ => Return None (Some (QueryPreparationFailed err2))
      | None =>
          match fReq with
          | None => Panics NilDereference
          | Some fReq =>
              let fReq := Header_Add fReq (str "loginToken") (token conn) in
              let fReq :=
                Header_Add fReq (str "Content-Type") (str "application/json") in
              let fReq := Header_Add fReq (str "user-agent") userAgent in
              match client_Do w fReq with
              | DoFails err2 => Return None (Some (QueryFailed err2))
              | ReadFails err2 => Return None (Some (FailedToReadBody err2))
              | Responds d => Status_validate d
              end
          end
      end
  end.

End Benwh.

End benwh.
Import benwh.

(** ** Program status: the polling loop of [main] *)

Module status.

(** A [time.Duration] is an [int64] count of nanoseconds. *)
Definition Second : Z := 1000000000.

(** [int64] (and the 64-bit [int]) arithmetic wraps around. *)
Definition wrap64 (n : Z) : Z := (n + 2 ^ 63) mod 2 ^ 64 - 2 ^ 63.

(** The flags the loop reads. *)
Record Flags := {
  debug : bool;
  poll : Z;
  delay : Z
}.

(** The variables of the loop. *)
Record Vars := {
  samples : Z;
  backoff : Z;
  first : bool
}.

(** The state in which [main] enters the loop. *)
Definition init : Vars :=
  {| samples := 0; backoff := 5 * Second; first := true |}.

(** What the loop does that can be seen from outside. *)
Inductive event :=
| LogNoData (waiting : Z)        (* "no data received (waiting %v): %v" *)
| LogResp (resp : option reflect.Value)            (* "resp %#v" *)
| LogHeader
| LogSample (resp : reflect.Value)
| Sleep (d : Z)
| LogFatal (err : error)         (* "failed to obtain status: %v" *).

(** How one turn of the loop ends. *)
Inductive next :=
| Again (v : Vars)               (* the next turn, after the post statement *)
| Break                          (* the loop is left, [main] returns *)
| Exit                           (* [log.Fatalf] ends the process *)
| Crash (p : panic).

(** One turn of the loop, given what [conn.Status()] comes to.  Without
    [debug] the header of a first turn is printed before the fields of
    [resp] are read for the sample line: a nil [resp] panics there, after
    the header. *)
Definition turn (f : Flags) (v : Vars) (call : outcome reflect.Value)
  : list event * next :=
  match call with
  | Panics p => ([], Crash p)
  | Return resp err =>
      match err with
      | Some ErrRetryLater =>
          let backoff := wrap64 (backoff v * 2) in
          ([LogNoData backoff; Sleep backoff],
           Again {| samples := samples v; backoff := backoff; first := false |})
      | Some e => ([LogFatal e], Exit)
      | None =>
          let backoff := 5 * Second in
          let header := if first v then [LogHeader] else [] in
          let shown :=
            if debug f then Some [LogResp resp]
            else
              match resp with
              | None => None
              | Some r => Some (header ++ [LogSample r])
              end in
          match shown with
          | None => (header, Crash NilDereference)
          | Some out =>
              if delay f =? 0 then (out, Break)
              else
                let samples :=
                  if 0 <=? samples v then wrap64 (samples v + 1) else samples v in
                if samples =? poll f then (out, Break)
                else
                  (out ++ [Sleep (delay f)],
                   Again {| samples := samples; backoff := backoff;
                            first := false |})
          end
      end
  end.

(** The loop run on the outcomes of the successive calls of
    [conn.Status()]: what it did, and where it stands when the loop has
    ended or the outcomes are used up. *)
Fixpoint loop (f : Flags) (v : Vars) (calls : list (outcome reflect.Value))
  : list event * next :=
  match calls with
  | [] => ([], Again v)
  | call :: calls' =>
      match turn f v call with
      | (out, Again v') =>
          let (out', n) := loop f v' calls' in (out ++ out', n)
      | r => r
      end
  end.

(** The waits of [time.Sleep] among the events, in order. *)
Fixpoint sleeps (evs : list event) : list Z :=
  match evs with
  | [] => []
  | Sleep d :: evs' => d :: sleeps evs'
  | _ :: evs' => sleeps evs'
  end.

(** The waits that follow a retryable outcome: those announced by the
    line "no data received". *)
Fixpoint retry_waits (evs : list event) : list Z :=
  match evs with
  | [] => []
  | LogNoData _ :: Sleep d :: evs' => d :: retry_waits evs'
  | _ :: evs' => retry_waits evs'
  end.

End status.

(** ** Notions used by the statements *)

(** What [mresp] holds after [json.Unmarshal(d, &mresp)], and the error of
    that call. *)
Definition envelope (d : bytes) : reflect.Value :=
  fst (json.Unmarshal d types.MQTTResponse (reflect.zero types.MQTTResponse)).

Definition envelope_error (d : bytes) : option json.Error :=
  snd (json.Unmarshal d types.MQTTResponse (reflect.zero types.MQTTResponse)).

(** What [resp] holds after [json.Unmarshal([]byte(DataArea), resp)] on a
    fresh [DataStatus], and the error of that call. *)
Definition telemetry (DataArea : bytes) : reflect.Value :=
  fst (json.Unmarshal DataArea types.DataStatus (reflect.zero types.DataStatus)).

Definition telemetry_error (DataArea : bytes) : option json.Error :=
  snd (json.Unmarshal DataArea types.DataStatus (reflect.zero types.DataStatus)).

(** The fields of an envelope that the validation reads. *)
Definition Code_of (mresp : reflect.Value) : Z := reflect.get_int mresp "Code".
Definition CRC_of (mresp : reflect.Value) : bytes :=
  reflect.get_string (reflect.get mresp "Result") "CRC".
Definition DataArea_of (mresp : reflect.Value) : bytes :=
  reflect.get_string (reflect.get mresp "Result") "DataArea".

(** The number a string of hexadecimal digits of either case writes, when
    it is not empty and the number fits 32 bits. *)
Definition hex_digit (c : ascii) : option Z :=
  if in_range "0" "9" c then Some (code c - 48)
  else if in_range "a" "f" c then Some (code c - 87)
  else if in_range "A" "F" c then Some (code c - 55)
  else None.

Fixpoint hex_number (s : bytes) (acc : Z) : option Z :=
  match s with
  | [] => Some acc
  | c :: s' =>
      match hex_digit c with
      | Some d => hex_number s' (16 * acc + d)
      | None => None
      end
  end.

Definition hex_value (s : bytes) : option Z :=
  match s with
  | [] => None
  | _ =>
      match hex_number s 0 with
      | Some n => if n <? 2 ^ 32 then Some n else None
      | None => None
      end
  end.

Definition ToUpper (s : bytes) : bytes :=
  map (fun c => if in_range "a" "z" c then chr (code c - 32) else c) s.

Definition ToLower (s : bytes) : bytes :=
  map (fun c => if in_range "A" "Z" c then chr (code c + 32) else c) s.

(** The members of the object that a JSON text holds, each value as the
    bytes that write it (what decoding into a [map[string]json.RawMessage]
    gives). *)
Fixpoint raw_members_loop (fuel : nat) (s : bytes) : option (list (bytes * bytes)) :=
  match fuel with
  | O => None
  | S fuel =>
      match s with
      | q :: s1 =>
          if Ascii.eqb q dquote then
            match json.string_body 0 s1 with
            | None => None
            | Some (key, r) =>
                match json.skip_ws r with
                | c :: r1 =>
                    if Ascii.eqb c ":" then
                      let v := json.skip_ws r1 in
                      match json.value (json.fuel_for v) 1 v with
                      | None => None
                      | Some (_, r2) =>
                          let raw := firstn (List.length v - List.length r2) v in
                          match json.skip_ws r2 with
                          | c2 :: r3 =>
                              if Ascii.eqb c2 "}" then
                                match json.skip_ws r3 with
                                | [] => Some [(key, raw)]
                                | _ => None
                                end
                              else if Ascii.eqb c2 "," then
                                option_map (cons (key, raw))
                                  (raw_members_loop fuel (json.skip_ws r3))
                              else None
                          | [] => None
                          end
                      end
                    else None
                | [] => None
                end
            end
          else None
      | [] => None
      end
  end.

Definition raw_members (data : bytes) : option (list (bytes * bytes)) :=
  match json.skip_ws data with
  | c :: s =>
      if Ascii.eqb c "{" then
        match json.skip_ws s with
        | c1 :: r1 =>
            if Ascii.eqb c1 "}"
            then match json.skip_ws r1 with [] => Some [] | _ => None end
            else raw_members_loop (List.length data) (c1 :: r1)
        | [] => None
        end
      else None
  | [] => None
  end.

(** The bytes in the slot [key] of a JSON object: those of the last member
    of that name, as encoding/json lets the last one win. *)
Definition raw_slot (data : bytes) (key : string) : option bytes :=
  match raw_members data with
  | None => None
  | Some ms =>
      option_map snd (find (fun m => beqb (fst m) (str key)) (rev ms))
  end.

(** The quoted placeholder that [Status] replaces. *)
Definition placeholder : bytes := jstr "':data-area:'".

(** A character of a decimal number: a digit or the minus sign. *)
Definition numeric (c : ascii) : bool := isDigit c || Ascii.eqb c "-".


Module notions.
Section Statements.

Variable userAgent : bytes.
Variable isPrintTables : Z -> bool.
Variable url_Parse_ok : bytes -> bool.

(** The request that [Status] hands to the HTTP client. *)
Definition request (conn : Conn) (equipNo : bytes) (w : World) : Request :=
  {| Method := str "POST";
     URL := URLBase w ++ str "hes-gateway/terminal/sendMqtt";
     Header := [ (str "loginToken", token conn);
                 (str "Content-Type", str "application/json");
                 (str "user-agent", userAgent) ];
     Body := body_of equipNo (time_Now_Unix w) |}.

(** [Status] gets as far as the response body, and the body is [d]. *)
Definition receives (conn : Conn) (w : World) (d : bytes) : Prop :=
  exists equipNo,
    nth_error (Device (config conn)) 0 = Some equipNo
    /\ url_Parse_ok (URL (request conn equipNo w)) = true
    /\ client_Do w (request conn equipNo w) = Responds d.

(** Checksum verification and payload decoding, as [Status] carries them
    out on an envelope of code 200. *)
Definition verified (mresp : reflect.Value) : outcome reflect.Value :=
  let want := crc32.ChecksumIEEE (Quote isPrintTables (DataArea_of mresp)) in
  let got := fst (strconv.ParseUint (CRC_of mresp) 16 32) in
  if uint32 got =? want
  then Return (Some (telemetry (DataArea_of mresp))) None
  else Return None (Some (InvalidCRC got want)).

End Statements.
End notions.

(** What [resp] holds after [json.Unmarshal(d, &resp)] in [NewConn], and the
    error of that call. *)
Definition login (d : bytes) : reflect.Value :=
  fst (json.Unmarshal d types.LoginResponse (reflect.zero types.LoginResponse)).

Definition login_error (d : bytes) : option json.Error :=
  snd (json.Unmarshal d types.LoginResponse (reflect.zero types.LoginResponse)).

Definition Token_of (resp : reflect.Value) : bytes :=
  reflect.get_string (reflect.get resp "Result") "Token".

(** The URL and the form that [NewConn] posts. *)
Definition login_url (w : World) : bytes :=
  URLBase w ++ str "hes-gateway/terminal/initialize/appUserOrInstallerLogin".

Definition login_form (userAgent : bytes) (conf : Config) : list (bytes * bytes) :=
  [ (str "account", Email conf);
    (str "password", Password conf);
    (str "lang", str "EN_US");
    (str "type", str "1");
    (str "user-agent", userAgent) ].

(** The waits of consecutive retries that start from the backoff [b]. *)
Fixpoint waits (b : Z) (k : nat) : list Z :=
  match k with
  | O => []
  | S k' => let b' := status.wrap64 (b * 2) in b' :: waits b' k'
  end.

(** ** Sample data *)

Module sample.

(** Stand-ins for the parameters: a user agent, tables that hold no rune
    printable (the samples are ASCII, where they are not consulted), and a
    [url.Parse] that accepts. *)
Definition userAgent : bytes := str "benwh".
Definition isPrintTables (r : Z) : bool := false.
Definition url_Parse_ok (u : bytes) : bool := true.

Definition conf (devices : list bytes) : Config :=
  {| Email := str "owner@example.com";
     Device := devices;
     Password := str "5f4dcc3b5aa765d61d8327deb882cf99" |}.

Definition conn (devices : list bytes) : Conn :=
  {| config := conf devices; token := str "TOKEN"; client := tt |}.

Definition device : bytes := str "10060006A02F24150042".

(** A world whose server answers every request with the body [d]. *)
Definition server (d : bytes) : World :=
  {| URLBase := str "https://energy.franklinwh.com/";
     time_Now_Unix := 1731886671;
     client_Do := fun _ => Responds d;
     client_PostForm := fun _ _ => Responds d |}.

Definition NewConn := NewConn userAgent.
Definition Status := Status userAgent isPrintTables url_Parse_ok.

(** A retryable outcome and a successful one of [conn.Status()]. *)
Definition retry : outcome reflect.Value := Return None (Some ErrRetryLater).
Definition success : outcome reflect.Value :=
  Return (Some (reflect.zero types.DataStatus)) None.

(** Polling without end, one minute apart. *)
Definition polling : status.Flags :=
  {| status.debug := false; status.poll := 0; status.delay := 60 * status.Second |}.

End sample.

(** ** Sample responses *)

Module bodies.

(** A status answer of code 200 whose payload [x] is no JSON and whose
    declared checksum is the CRC-32 of the quoted payload. *)
Definition payload_not_json : bytes :=
  jstr "{'code':200,'message':'ok','result':{'crc':'F60EF986','dataArea':'x'},'total':0,'success':true}".

(** Answers of code 200 whose declared checksum is no hexadecimal number. *)
Definition crc_not_hex : bytes :=
  jstr "{'code':200,'result':{'crc':'zz','dataArea':'x'}}".

(** The quoted payload of this one has the CRC-32 zero. *)
Definition crc_not_hex_accepted : bytes :=
  jstr "{'code':200,'result':{'crc':'zz','dataArea':'{\'name\':\'ofCbhb\'}'}}".

(** A declared checksum of more than 32 bits; the quoted payload has the
    CRC-32 [0xFFFFFFFF]. *)
Definition crc_too_wide_accepted : bytes :=
  jstr "{'code':200,'result':{'crc':'123456789','dataArea':'{\'name\':\'EiUcXr\'}'}}".

(** A body that is no JSON at all. *)
Definition not_json : bytes := str "<html>502 Bad Gateway</html>".

(** A body that is JSON but does not fit [MQTTResponse]: [message] is a
    number. *)
Definition wrong_shape : bytes :=
  jstr "{'code':200,'message':5,'result':{'crc':'3C2A7947','dataArea':'{}'}}".

(** Code 102 with a declared checksum that does not fit the payload. *)
Definition retry_later : bytes :=
  jstr "{'code':102,'message':'timeout','result':{'crc':'00000000','dataArea':'x'}}".

(** A good answer, the checksum in lower case. *)
Definition good : bytes :=
  jstr "{'code':200,'result':{'crc':'74a3991f','dataArea':'{\'p_uti\':0.855,\'soc\':99.474}'}}".




(** Login answers without a token. *)
Definition login_empty : bytes := jstr "{}".
Definition login_refused : bytes :=
  jstr "{'code':401,'message':'wrong password','result':null,'total':0,'success':false}".
Definition login_good : bytes :=
  jstr "{'code':200,'result':{'userId':7,'email':'owner@example.com','token':'APP_ACCOUNT:7:abc','userTypes':[1]},'success':true}".

End bodies.

(** ** More notions *)

(** The events of the polling loop that show a sample. *)
Definition shows_sample (e : status.event) : bool :=
  match e with
  | status.LogSample _ | status.LogResp _ => true
  | _ => false
  end.

(** An outcome of [conn.Status()] that the loop takes as a sample, and one
    that it retries. *)
Definition is_sample (call : outcome reflect.Value) : bool :=
  match call with
  | Return (Some _) None => true
  | _ => false
  end.

Definition is_retry (call : outcome reflect.Value) : bool :=
  match call with
  | Return _ (Some ErrRetryLater) => true
  | _ => false
  end.

(** The eight digits of [%08X] written out: digit [i] from the right is
    [n / 16 ^ i mod 16]. *)
Definition hex8 (n : Z) : bytes :=
  map (fun i => digit_of upperhex (n / 16 ^ i mod 16)) [7; 6; 5; 4; 3; 2; 1; 0].

(** How many of the events show a sample. *)
Definition samples_shown (evs : list status.event) : nat :=
  List.length (filter shows_sample evs).

(** How many of the outcomes are samples. *)
Definition samples_among (calls : list (outcome reflect.Value)) : nat :=
  List.length (filter is_sample calls).

(** ** strings and bufio, as [createConfig] uses them *)

Module strings.

(** [Split(s, sep)] for a separator of one byte: the pieces of [s] between
    the separators, all of them; an [s] without separator, the empty one
    too, is the one piece. *)
Fixpoint Split (s : bytes) (sep : ascii) : list bytes :=
  match s with
  | [] => [[]]
  | c :: s' =>
      if Ascii.eqb c sep then [] :: Split s' sep
      else
        match Split s' sep with
        | piece :: pieces => (c :: piece) :: pieces
        | [] => [[c]]
        end
  end.

(** Membership in an [asciiSet]. *)
Definition contains (cutset : bytes) (c : ascii) : bool :=
  existsb (Ascii.eqb c) cutset.

Fixpoint trimLeftASCII (s cutset : bytes) : bytes :=
  match s with
  | c :: s' => if contains cutset c then trimLeftASCII s' cutset else s
  | [] => []
  end.

Definition trimRightASCII (s cutset : bytes) : bytes :=
  rev (trimLeftASCII (rev s) cutset).

(** [Trim(s, cutset)] for a cutset of several ASCII characters: [s]
    without the characters of the cutset at its two ends. *)
Definition Trim (s cutset : bytes) : bytes :=
  trimLeftASCII (trimRightASCII s cutset) cutset.

(** [Join(elems, sep)]: the pieces with the separator between them. *)
Definition Join (elems : list bytes) (sep : bytes) : bytes :=
  match elems with
  | [] => []
  | e :: es => e ++ flat_map (fun x => sep ++ x) es
  end.

End strings.

Module bufio.

(** A [Reader] on a stream: the bytes that will still arrive and the error
    that ends them ([io.EOF] at the end of a file). *)
Record Reader := {
  pending : bytes;
  closing : lib_error
}.

(** The bytes up to the first [delim] and with it, and what follows. *)
Fixpoint until (delim : ascii) (s : bytes) : option (bytes * bytes) :=
  match s with
  | [] => None
  | c :: s' =>
      if Ascii.eqb c delim then Some ([c], s')
      else
        match until delim s' with
        | Some (line, rest) => Some (c :: line, rest)
        | None => None
        end
  end.

(** [ReadString(delim)]: the bytes up to the delimiter and with it; when
    the stream ends first, what was read and the error. *)
Definition ReadString (r : Reader) (delim : ascii)
  : bytes * option lib_error * Reader :=
  match until delim (pending r) with
  | Some (line, rest) =>
      (line, None, {| pending := rest; closing := closing r |})
  | None =>
      (pending r, Some (closing r), {| pending := []; closing := closing r |})
  end.

End bufio.

(** ** crypto/md5 and encoding/hex *)

Module md5.

Definition u32 (n : Z) : Z := n mod 2 ^ 32.

(** [bits.RotateLeft32]. *)
Definition RotateLeft32 (x s : Z) : Z :=
  u32 (Z.lor (Z.shiftl x s) (Z.shiftr x (32 - s))).

(** The sine table and the shifts of the four rounds. *)
Definition sines : list Z :=
  [ 0xd76aa478; 0xe8c7b756; 0x242070db; 0xc1bdceee;
    0xf57c0faf; 0x4787c62a; 0xa8304613; 0xfd469501;
    0x698098d8; 0x8b44f7af; 0xffff5bb1; 0x895cd7be;
    0x6b901122; 0xfd987193; 0xa679438e; 0x49b40821;
    0xf61e2562; 0xc040b340; 0x265e5a51; 0xe9b6c7aa;
    0xd62f105d; 0x02441453; 0xd8a1e681; 0xe7d3fbc8;
    0x21e1cde6; 0xc33707d6; 0xf4d50d87; 0x455a14ed;
    0xa9e3e905; 0xfcefa3f8; 0x676f02d9; 0x8d2a4c8a;
    0xfffa3942; 0x8771f681; 0x6d9d6122; 0xfde5380c;
    0xa4beea44; 0x4bdecfa9; 0xf6bb4b60; 0xbebfbc70;
    0x289b7ec6; 0xeaa127fa; 0xd4ef3085; 0x04881d05;
    0xd9d4d039; 0xe6db99e5; 0x1fa27cf8; 0xc4ac5665;
    0xf4292244; 0x432aff97; 0xab9423a7; 0xfc93a039;
    0x655b59c3; 0x8f0ccc92; 0xffeff47d; 0x85845dd1;
    0x6fa87e4f; 0xfe2ce6e0; 0xa3014314; 0x4e0811a1;
    0xf7537e82; 0xbd3af235; 0x2ad7d2bb; 0xeb86d391 ].

Definition shifts : list Z :=
  [ 7; 12; 17; 22; 7; 12; 17; 22; 7; 12; 17; 22; 7; 12; 17; 22;
    5; 9; 14; 20; 5; 9; 14; 20; 5; 9; 14; 20; 5; 9; 14; 20;
    4; 11; 16; 23; 4; 11; 16; 23; 4; 11; 16; 23; 4; 11; 16; 23;
    6; 10; 15; 21; 6; 10; 15; 21; 6; 10; 15; 21; 6; 10; 15; 21 ].

(** The little-endian 32-bit words of a block. *)
Fixpoint words (p : bytes) : list Z :=
  match p with
  | b0 :: b1 :: b2 :: b3 :: p' =>
      (code b0 + 256 * code b1 + 65536 * code b2 + 16777216 * code b3)
      :: words p'
  | _ => []
  end.

(** The bytes of a word, least significant first. *)
Definition le (size : nat) (n : Z) : bytes :=
  map (fun i => chr (n / 256 ^ Z.of_nat i)) (seq 0 size).

Definition state := (Z * Z * Z * Z)%type.

(** Step [i] of the 64 on the words [M] of a block. *)
Definition step (M : list Z) (st : state) (i : nat) : state :=
  let '(a, b, c, d) := st in
  let not32 x := Z.lxor x 0xffffffff in
  let '(f, g) :=
    if (i <? 16)%nat
    then (Z.lor (Z.land b c) (Z.land (not32 b) d), i)
    else if (i <? 32)%nat
    then (Z.lor (Z.land d b) (Z.land (not32 d) c), ((5 * i + 1) mod 16)%nat)
    else if (i <? 48)%nat
    then (Z.lxor (Z.lxor b c) d, ((3 * i + 5) mod 16)%nat)
    else (Z.lxor c (Z.lor b (not32 d)), ((7 * i) mod 16)%nat) in
  let f := u32 (f + a + nth i sines 0 + nth g M 0) in
  (d, u32 (b + RotateLeft32 f (nth i shifts 0)), b, c).

(** [block] on one block of 64 bytes. *)
Definition block (st : state) (p : bytes) : state :=
  let '(a0, b0, c0, d0) := st in
  let '(a, b, c, d) := fold_left (step (words p)) (seq 0 64) st in
  (u32 (a0 + a), u32 (b0 + b), u32 (c0 + c), u32 (d0 + d)).

Fixpoint blocks (n : nat) (st : state) (p : bytes) : state :=
  match n with
  | O => st
  | S n' => blocks n' (block st (firstn 64 p)) (skipn 64 p)
  end.

Definition init : state := (0x67452301, 0xefcdab89, 0x98badcfe, 0x10325476).

(** What [checkSum] appends: the byte [0x80], zeros up to 56 bytes modulo
    64, and the length of the message in bits as 8 bytes. *)
Definition padding (len : nat) : bytes :=
  chr 0x80 :: repeat (chr 0) ((119 - len mod 64) mod 64)
  ++ le 8 ((8 * Z.of_nat len) mod 2 ^ 64).

(** [Sum(data)]: the MD5 checksum of the data, 16 bytes. *)
Definition Sum (data : bytes) : bytes :=
  let msg := data ++ padding (List.length data) in
  let '(a, b, c, d) := blocks (List.length msg / 64) init msg in
  le 4 a ++ le 4 b ++ le 4 c ++ le 4 d.

End md5.

Module hex.

(** [EncodeToString]: two characters of [0123456789abcdef] for a byte. *)
Definition EncodeToString (src : bytes) : bytes :=
  flat_map (fun v => [digit_of lowerhex (code v / 16);
                      digit_of lowerhex (code v mod 16)]) src.

End hex.

(** ** Program status: the configuration and the way to the loop *)

Module program.

(** [benwh.Config] as encoding/json sees it.  No field has a tag, so each
    is known under its Go name, which stands here where the tag does. *)
Definition ConfigType : reflect.Kind :=
  reflect.Struct
    [ reflect.fld "Email" "Email" reflect.String;
      reflect.fld "Device" "Device" (reflect.Slice reflect.String);
      reflect.fld "Password" "Password" reflect.String ].

(** A [Config] as a value of that type, and back.  A list without
    devices is the nil slice, as in the zero [Config]. *)
Definition value_of (conf : Config) : reflect.Value :=
  reflect.VStruct
    [ fv "Email" (reflect.VString (Email conf));
      fv "Device"
         match Device conf with
         | [] => reflect.VNil
         | ds => reflect.VSlice (map reflect.VString ds)
         end;
      fv "Password" (reflect.VString (Password conf)) ].

Definition Config_of (v : reflect.Value) : Config :=
  {| Email := reflect.get_string v "Email";
     Device :=
       match reflect.get v "Device" with
       | reflect.VSlice xs =>
           map (fun x => match x with reflect.VString s => s | _ => [] end) xs
       | _ => []
       end;
     Password := reflect.get_string v "Password" |}.

(** The flags of the program; [loop_flags] are those the loop reads. *)
Record Args := {
  email : bytes;
  devices : bytes;
  config : bytes;
  newLogin : bool;
  loop_flags : status.Flags
}.

(** What the program finds on the machine it runs on: the standard input,
    what [term.ReadPassword] reads from the terminal, and the files. *)
Record Host := {
  stdin : bufio.Reader;
  term_ReadPassword : bytes * option lib_error;
  os_ReadFile : bytes -> bytes * option lib_error;
  os_WriteFile : bytes -> bytes -> Z -> option lib_error
}.

(** What the program does to the machine before the loop. *)
Inductive effect :=
| Print (s : bytes)
| WriteFile (name data : bytes) (perm : Z).

(** The errors of [createConfig], named after their texts. *)
Inductive config_error :=
| FailedToReadUsername (cause : lib_error)   (* "failed to read username: %v" *)
| FailedToReadSiteDevice (cause : lib_error) (* "failed to read site device: %v" *)
| FailedToReadPassword (cause : lib_error)   (* "failed to read password: %v" *).

(** The cutset of the two calls of [strings.Trim]: space, newline and
    carriage return. *)
Definition cutset : bytes := [" "%char; "010"%char; "013"%char].

Definition newline : ascii := "010"%char.

(** [createConfig] reads information for the device config: what it
    prints, and its results [conf] and [err]. *)
Definition createConfig (a : Args) (h : Host)
  : list effect * (Config * option config_error) :=
  let conf_Email := email a in
  let conf_Device := strings.Split (devices a) ","%char in
  let r := stdin h in
  let '(out1, conf_Email, r, err) :=
    if beqb (email a) [] then
      let '(line, err, r) := bufio.ReadString r newline in
      match err with
      | Some e =>
          ([Print (str "Email: ")], line, r, Some (FailedToReadUsername e))
      | None =>
          ([Print (str "Email: ")], strings.Trim line cutset, r, None)
      end
    else ([], conf_Email, r, None) in
  match err with
  | Some e =>
      (out1,
       ({| Email := conf_Email; Device := conf_Device; Password := [] |},
        Some e))
  | None =>
      let '(out2, conf_Device, err) :=
        if match conf_Device with
           | [] => true
           | first :: _ => beqb first []
           end
        then
          let '(dev, err2, _) := bufio.ReadString r newline in
          match err2 with
          | Some e =>
              ([Print (str "Side Device ID: ")], [],
               Some (FailedToReadSiteDevice e))
          | None =>
              ([Print (str "Side Device ID: ")],
               [] ++ [strings.Trim dev cutset], None)
          end
        else ([], conf_Device, None) in
      match err with
      | Some e =>
          (out1 ++ out2,
           ({| Email := conf_Email; Device := conf_Device; Password := [] |},
            Some e))
      | None =>
          let out3 := [Print (str "Password: ")] in
          let (pass, err2) := term_ReadPassword h in
          match err2 with
          | Some e =>
              (out1 ++ out2 ++ out3,
               ({| Email := conf_Email; Device := conf_Device;
                   Password := [] |},
                Some (FailedToReadPassword e)))
          | None =>
              let h := md5.Sum pass in
              (out1 ++ out2 ++ out3,
               ({| Email := conf_Email; Device := conf_Device;
                   Password := hex.EncodeToString h |},
                None))
          end
      end
  end.

(** The ways [main] ends in [log.Fatalf] before the loop. *)
Inductive fatal :=
| ConfigCreationFailed (e : config_error)   (* "config creation failed: %v" *)
| UnableToRead (name : bytes) (e : lib_error)
                                     (* "unable to read --config=%q: %v" *)
| UnableToDecode (name : bytes) (e : json.Error)
                                     (* "unable to decode --config=%q: %v" *)
| UnableToAuthenticate (e : error)
                             (* "unable to authenticate a connection: %v" *)
| FailedToWrite (name : bytes) (e : lib_error)
                                     (* "failed to write --config=%q: %v" *).

(** Where [main] stands when the loop is to begin. *)
Inductive started :=
| Fatal (f : fatal)
| Crashed (p : panic)
| Polls (conf : Config) (conn : option Conn).

(** How [main] ends, or stands when the worlds given are used up. *)
Inductive ending :=
| Fatalf (f : fatal)
| Panicked (p : panic)
| Looped (n : status.next).

Section Program.

Variable userAgent : bytes.
Variable isPrintTables : Z -> bool.
Variable url_Parse_ok : bytes -> bool.

(** [main] up to the loop, in the world [w]: the configuration is made
    or read, the connection opened, and the configuration written when it
    was made.  [json.Marshal] cannot fail on a [Config], so the branch
    "unable to marshal" is left out. *)
Definition setup (a : Args) (h : Host) (w : World) : list effect * started :=
  let '(out, conf, failed) :=
    if newLogin a then
      let '(out, (conf, err)) := createConfig a h in
      (out, conf, option_map ConfigCreationFailed err)
    else
      let zero := Config_of (reflect.zero ConfigType) in
      let (d, err) := os_ReadFile h (config a) in
      match err with
      | Some e => ([], zero, Some (UnableToRead (config a) e))
      | None =>
          let (v, err) :=
            json.Unmarshal d ConfigType (reflect.zero ConfigType) in
          ([], Config_of v, option_map (UnableToDecode (config a)) err)
      end in
  match failed with
  | Some f => (out, Fatal f)
  | None =>
      match NewConn userAgent conf w with
      | Panics p => (out, Crashed p)
      | Return _ (Some e) => (out, Fatal (UnableToAuthenticate e))
      | Return conn None =>
          if newLogin a then
            let d := json.Marshal (value_of conf) ConfigType in
            let out := out ++ [WriteFile (config a) d 384 (* 0600 *)] in
            match os_WriteFile h (config a) d 384 with
            | Some e => (out, Fatal (FailedToWrite (config a) e))
            | None => (out, Polls conf conn)
            end
          else (out, Polls conf conn)
      end
  end.

(** A call of [conn.Status()] in [main]. *)
Definition call (conn : option Conn) (w : World) : outcome reflect.Value :=
  match conn with
  | Some c => Status userAgent isPrintTables url_Parse_ok c w
  | None => Panics NilDereference
  end.

(** [main]: the setup in the world [w], then the loop, whose calls of
    [Status] find the worlds [ws] one after the other. *)
Definition main (a : Args) (h : Host) (w : World) (ws : list World)
  : list effect * list status.event * ending :=
  match setup a h w with
  | (out, Fatal f) => (out, [], Fatalf f)
  | (out, Crashed p) => (out, [], Panicked p)
  | (out, Polls _ conn) =>
      let (evs, n) :=
        status.loop (loop_flags a) status.init (map (call conn) ws) in
      (out, evs, Looped n)
  end.

End Program.

End program.

(** The questions that [createConfig] puts to the standard input: one for
    the account when the [email] flag is empty, one for the device when
    the [devices] flag is empty or begins with a comma. *)
Definition questions (a : program.Args) : nat :=
  (if beqb (program.email a) [] then 1 else 0)
  + (match program.devices a with
     | [] => 1
     | c :: _ => if Ascii.eqb c ","%char then 1 else 0
     end).

(** The lines that the standard input holds: its newlines. *)
Definition lines (r : bufio.Reader) : nat :=
  count_occ ascii_dec (bufio.pending r) program.newline.

(** A character of ASCII. *)
Definition ascii7 (c : ascii) : bool := code c <? utf8.RuneSelf.

(** A configuration whose account and devices are written in ASCII. *)
Definition ascii_config (conf : Config) : Prop :=
  forallb ascii7 (Email conf) = true
  /\ Forall (fun d => forallb ascii7 d = true) (Device conf)
  /\ forallb ascii7 (Password conf) = true.

(** What [json.Marshal] writes for a device list. *)
Definition devices_json (ds : list bytes) : bytes :=
  match ds with
  | [] => str "null"
  | _ => "["%char :: json.join (str ",") (map json.appendString ds) ++ ["]"%char]
  end.

(** The JSON value that a device list is read from. *)
Definition devices_parsed (ds : list bytes) : json.t :=
  match ds with
  | [] => json.Null
  | _ => json.Array (map json.String ds)
  end.

(** A decimal literal as [%d] writes it: an optional minus sign, then a
    zero alone or a digit from 1 to 9 with more digits. *)
Definition decimal_literal (t : bytes) : Prop :=
  exists sign d ds,
    t = sign ++ d :: ds
    /\ (sign = [] \/ sign = ["-"%char])
    /\ ((d = "0"%char /\ ds = [])
        \/ (in_range "1" "9" d = true /\ forallb isDigit ds = true)).

(** ** Sample runs of the program *)

Module run.

(** The end of the standard input. *)
Definition EOF : lib_error := Transport (str "EOF").

(** A standard input on which the lines are typed, each ended by a
    newline. *)
Definition typed (lines : list bytes) : bufio.Reader :=
  {| bufio.pending := flat_map (fun l => l ++ [program.newline]) lines;
     bufio.closing := EOF |}.

(** A machine on which these lines and this password are typed, whose
    every file reads as [file] and takes what is written to it. *)
Definition host (lines : list bytes) (password file : bytes) : program.Host :=
  {| program.stdin := typed lines;
     program.term_ReadPassword := (password, None);
     program.os_ReadFile := fun _ => (file, None);
     program.os_WriteFile := fun _ _ _ => None |}.

(** The flags by default, with [-newlogin] and without. *)
Definition flags : status.Flags :=
  {| status.debug := false; status.poll := 1; status.delay := 0 |}.

Definition newlogin (email devices : bytes) : program.Args :=
  {| program.email := email; program.devices := devices;
     program.config := str "./benwh.config"; program.newLogin := true;
     program.loop_flags := flags |}.

Definition saved : program.Args :=
  {| program.email := []; program.devices := [];
     program.config := str "./benwh.config"; program.newLogin := false;
     program.loop_flags := flags |}.

(** The owner answers the two questions and types the password. *)
Definition owner : program.Host :=
  host [str "  owner@example.com "; str "10060006A02F24150042"]
       (str "password") [].

(** The connection that the sample login gives. *)
Definition conn : Conn :=
  {| config := sample.conf [sample.device];
     token := str "APP_ACCOUNT:7:abc";
     client := tt |}.

(** A configuration file that names no device. *)
Definition no_device : bytes :=
  jstr "{'Email':'owner@example.com','Password':'5f4dcc3b5aa765d61d8327deb882cf99'}".

(** Two samples asked for, a second apart. *)
Definition twice : status.Flags :=
  {| status.debug := false; status.poll := 2; status.delay := status.Second |}.

End run.

(** * Properties *)

(** Splits a conjunction into its parts, and nothing else. *)
Ltac splits := repeat match goal with |- _ /\ _ => split end.

(** ** The hexadecimal reading of [strconv.ParseUint] *)

Lemma digit_val_hex (c : ascii) (d : Z) :
  hex_digit c = Some d -> strconv.digit_val c = Some d /\ 0 <= d < 16.
Proof.
  destruct c as [b0 b1 b2 b3 b4 b5 b6 b7].
  destruct b0, b1, b2, b3, b4, b5, b6, b7; intros H; vm_compute in H;
    try discriminate H; injection H as <-;
    (split; [vm_compute; reflexivity | lia]).
Qed.

Lemma hex_number_ge (s : bytes) :
  forall acc v, 0 <= acc -> hex_number s acc = Some v -> acc <= v.
Proof.
  induction s as [|c s IH]; intros acc v Hacc H; cbn [hex_number] in H.
  - injection H as <-. lia.
  - destruct (hex_digit c) as [d|] eqn:Hd; [|discriminate].
    apply digit_val_hex in Hd as [_ Hr].
    apply IH in H; lia.
Qed.

Lemma parse_loop_hex (s : bytes) :
  forall acc v,
    0 <= acc -> hex_number s acc = Some v -> v < 2 ^ 32 ->
    strconv.parse_loop 16 (strconv.maxUint64 / 16 + 1) (2 ^ 32 - 1) s acc = (v, None).
Proof.
  induction s as [|c s IH]; intros acc v Hacc H Hv; cbn [hex_number] in H.
  - injection H as <-. reflexivity.
  - destruct (hex_digit c) as [d|] eqn:Hd; [|discriminate].
    apply digit_val_hex in Hd as [Hd Hr].
    assert (Hge : 16 * acc + d <= v)
      by (apply (hex_number_ge s); [lia | exact H]).
    cbn [strconv.parse_loop]. rewrite Hd.
    replace (16 <=? d) with false by (symmetry; apply Z.leb_gt; lia).
    change (strconv.maxUint64 / 16 + 1) with (2 ^ 60) in *.
    change (2 ^ 32) with 4294967296 in *.
    change (2 ^ 60) with 1152921504606846976 in *.
    replace (1152921504606846976 <=? acc) with false
      by (symmetry; apply Z.leb_gt; lia).
    cbv zeta.
    rewrite (Z.mod_small (acc * 16 + d)) by (change (2 ^ 64) with 18446744073709551616; lia).
    replace (acc * 16 + d <? acc * 16) with false by (symmetry; apply Z.ltb_ge; lia).
    replace (4294967296 - 1 <? acc * 16 + d) with false
      by (symmetry; apply Z.ltb_ge; lia).
    cbn [orb].
    apply IH; [lia | | lia].
    now replace (acc * 16 + d) with (16 * acc + d) by lia.
Qed.

(** A well-formed declared checksum is read as the number it writes. *)
Lemma ParseUint_hex_value (s : bytes) (v : Z) :
  hex_value s = Some v -> strconv.ParseUint s 16 32 = (v, None).
Proof.
  unfold hex_value, strconv.ParseUint.
  destruct s as [|c s]; [discriminate|].
  destruct (hex_number (c :: s) 0) as [n|] eqn:Hn; [|discriminate].
  destruct (n <? 2 ^ 32) eqn:Hlt; [|discriminate].
  intros H; injection H as <-.
  apply Z.ltb_lt in Hlt.
  now apply parse_loop_hex.
Qed.

Lemma parse_loop_range (s : bytes) :
  forall n, 0 <= n <= 2 ^ 32 - 1 ->
    0 <= fst (strconv.parse_loop 16 (strconv.maxUint64 / 16 + 1) (2 ^ 32 - 1) s n)
      <= 2 ^ 32 - 1.
Proof.
  induction s as [|c s IH]; intros n Hn; cbn [strconv.parse_loop].
  - exact Hn.
  - destruct (strconv.digit_val c) as [d|]; [|cbn; lia].
    destruct (16 <=? d); [cbn; lia|].
    destruct (_ <=? n); [cbn; lia|].
    cbv zeta.
    destruct (_ || _) eqn:Hchk; [cbn; lia|].
    apply orb_false_iff in Hchk as [_ Hmax].
    apply Z.ltb_ge in Hmax.
    apply IH. split; [|exact Hmax].
    apply Z.mod_pos_bound. reflexivity.
Qed.

(** What [ParseUint(s, 16, 32)] returns fits a [uint32], also next to an
    error. *)
Lemma ParseUint_range (s : bytes) :
  0 <= fst (strconv.ParseUint s 16 32) < 2 ^ 32.
Proof.
  unfold strconv.ParseUint. destruct s as [|c s]; [cbn; lia|].
  pose proof (parse_loop_range (c :: s) 0 ltac:(lia)). lia.
Qed.

Lemma digit_val_upper (c : ascii) :
  strconv.digit_val (if in_range "a" "z" c then chr (code c - 32) else c)
  = strconv.digit_val c.
Proof.
  destruct c as [b0 b1 b2 b3 b4 b5 b6 b7].
  destruct b0, b1, b2, b3, b4, b5, b6, b7; vm_compute; reflexivity.
Qed.

Lemma digit_val_lower (c : ascii) :
  strconv.digit_val (if in_range "A" "Z" c then chr (code c + 32) else c)
  = strconv.digit_val c.
Proof.
  destruct c as [b0 b1 b2 b3 b4 b5 b6 b7].
  destruct b0, b1, b2, b3, b4, b5, b6, b7; vm_compute; reflexivity.
Qed.

Lemma parse_loop_map (f : ascii -> ascii) (base cutoff maxVal : Z) :
  (forall c, strconv.digit_val (f c) = strconv.digit_val c) ->
  forall s n,
    strconv.parse_loop base cutoff maxVal (map f s) n
    = strconv.parse_loop base cutoff maxVal s n.
Proof.
  intros Hf. induction s as [|c s IH]; intros n; cbn [map strconv.parse_loop].
  - reflexivity.
  - rewrite Hf. destruct (strconv.digit_val c); [|reflexivity].
    destruct (base <=? z); [reflexivity|].
    destruct (cutoff <=? n); [reflexivity|].
    cbv zeta. destruct (_ || _); [reflexivity|]. apply IH.
Qed.

(** [ParseUint] does not tell the letter case of the digits. *)
Lemma ParseUint_case (s : bytes) (base bitSize : Z) :
  strconv.ParseUint (ToUpper s) base bitSize = strconv.ParseUint s base bitSize
  /\ strconv.ParseUint (ToLower s) base bitSize = strconv.ParseUint s base bitSize.
Proof.
  unfold strconv.ParseUint, ToUpper, ToLower.
  destruct s as [|c s]; [split; reflexivity|].
  split.
  - rewrite (parse_loop_map _ _ _ _ digit_val_upper). reflexivity.
  - rewrite (parse_loop_map _ _ _ _ digit_val_lower). reflexivity.
Qed.

(** ** The splice, where it works *)

(** The marshaled envelope: the constant fields around the device
    identifier and the time stamp. *)
Lemma Marshal_send (equipNo : bytes) (now : Z) :
  json.Marshal (send_of equipNo now) types.MQTTRequest
  = (jstr "{'lang':'EN_US','cmdType':203,'equipNo':"
     ++ json.appendString equipNo
     ++ jstr ",'type':0,'timeStamp':" ++ fmt_d now
     ++ jstr ",'snno':1,'len':25,'crc':'6FC3A6BF','dataArea':':data-area:'")
    ++ jstr "}".
Proof.
  unfold send_of, types.MQTTRequest, reflect.fld, fv.
  cbn [json.Marshal map].
  generalize (json.appendString equipNo) (fmt_d now). intros E T.
  vm_compute. reflexivity.
Qed.

(** A string of characters that [appendString] copies is written between
    two quotes as it is. *)
Lemma string_loop_plain (s : bytes) :
  forallb json.htmlSafe s = true -> json.string_loop true 0 s = s.
Proof.
  induction s as [|c s IH]; [reflexivity|].
  cbn [forallb]. intros H. apply andb_prop in H as [Hc Hs].
  cbn [json.string_loop].
  assert (Hlt : (code c <? utf8.RuneSelf) = true).
  { unfold json.htmlSafe in Hc.
    apply andb_prop in Hc as [Hc _]. apply andb_prop in Hc as [_ Hc]. exact Hc. }
  rewrite Hlt, Hc, (IH Hs). reflexivity.
Qed.

Lemma htmlSafe_not_quote (c : ascii) :
  json.htmlSafe c = true -> Ascii.eqb c dquote = false.
Proof.
  unfold json.htmlSafe. intros H. apply andb_prop in H as [_ H].
  apply negb_true_iff in H. now apply orb_false_iff in H as [H _];
    repeat (apply orb_false_iff in H as [H _]).
Qed.

Lemma Replace_step (new s : bytes) (c : ascii) :
  bytes_HasPrefix (c :: s) placeholder = false ->
  Replace_loop placeholder new 1 0 (c :: s)
  = c :: Replace_loop placeholder new 1 0 s.
Proof. intros H. cbn [Replace_loop]. now rewrite H. Qed.

Lemma HasPrefix_not_quote (c : ascii) (s : bytes) :
  Ascii.eqb c dquote = false -> bytes_HasPrefix (c :: s) placeholder = false.
Proof.
  intros E. unfold bytes_HasPrefix.
  change placeholder with (dquote :: str ":data-area:" ++ [dquote]).
  cbn [json.strip]. now rewrite Ascii.eqb_sym, E.
Qed.

(** The search of [bytes.Replace] passes over bytes that are no quote. *)
Lemma Replace_skip (new s rest : bytes) :
  forallb (fun c => negb (Ascii.eqb c dquote)) s = true ->
  Replace_loop placeholder new 1 0 (s ++ rest)
  = s ++ Replace_loop placeholder new 1 0 rest.
Proof.
  induction s as [|c s IH]; [reflexivity|].
  cbn [forallb app]. intros H. apply andb_prop in H as [Hc Hs].
  apply negb_true_iff in Hc.
  rewrite Replace_step by now apply HasPrefix_not_quote.
  now rewrite (IH Hs).
Qed.

(** A quote followed by a string without quotes and a quote is the
    placeholder only if the string is [:data-area:]. *)
Lemma strip_quoted (p s rest : bytes) :
  forallb (fun c => negb (Ascii.eqb c dquote)) s = true ->
  forallb (fun c => negb (Ascii.eqb c dquote)) p = true ->
  s <> p ->
  json.strip (p ++ [dquote]) (s ++ dquote :: rest) = None.
Proof.
  revert s. induction p as [|a p IH]; intros s Hs Hp Hne.
  - destruct s as [|c s]; [contradiction|].
    cbn [app json.strip]. cbn [forallb] in Hs. apply andb_prop in Hs as [Hc _].
    apply negb_true_iff in Hc. now rewrite Ascii.eqb_sym, Hc.
  - cbn [forallb] in Hp. apply andb_prop in Hp as [Ha Hp].
    destruct s as [|c s].
    + cbn [app json.strip]. apply negb_true_iff in Ha. now rewrite Ha.
    + cbn [app json.strip]. cbn [forallb] in Hs. apply andb_prop in Hs as [_ Hs].
      destruct (Ascii.eqb a c) eqn:E; [|reflexivity].
      apply Ascii.eqb_eq in E. subst c.
      apply IH; [exact Hs | exact Hp | congruence].
Qed.

(** The characters of a decimal number. *)
Lemma numeric_chars (c : ascii) :
  numeric c = true ->
  Ascii.eqb c dquote = false /\ Ascii.eqb "d" c = false.
Proof.
  destruct c as [b0 b1 b2 b3 b4 b5 b6 b7].
  destruct b0, b1, b2, b3, b4, b5, b6, b7; intros H; vm_compute in H;
    try discriminate H; split; reflexivity.
Qed.

Lemma digit_of_numeric (d : Z) :
  0 <= d < 10 -> numeric (digit_of lowerhex d) = true.
Proof.
  intros H.
  assert (E : d = 0 \/ d = 1 \/ d = 2 \/ d = 3 \/ d = 4 \/ d = 5 \/ d = 6
              \/ d = 7 \/ d = 8 \/ d = 9) by lia.
  repeat (destruct E as [->|E]; [reflexivity|]). now subst d.
Qed.

Lemma digits_aux_numeric (fuel : nat) :
  forall n acc,
    forallb numeric acc = true ->
    forallb numeric (digits_aux fuel lowerhex 10 n acc) = true.
Proof.
  induction fuel as [|fuel IH]; intros n acc Hacc; cbn [digits_aux]; [exact Hacc|].
  assert (H : forallb numeric (digit_of lowerhex (n mod 10) :: acc) = true).
  { cbn [forallb]. rewrite digit_of_numeric, Hacc; [reflexivity|].
    apply Z.mod_pos_bound. reflexivity. }
  destruct (n <? 10); [exact H | now apply IH].
Qed.

(** [%d] writes digits and at most a minus sign. *)
Lemma fmt_d_numeric (n : Z) : forallb numeric (fmt_d n) = true.
Proof.
  unfold fmt_d, digits. destruct (n <? 0).
  - cbn [forallb]. now rewrite digits_aux_numeric.
  - now apply digits_aux_numeric.
Qed.

Lemma numeric_no_quote (t : bytes) :
  forallb numeric t = true ->
  forallb (fun c => negb (Ascii.eqb c dquote)) t = true.
Proof.
  induction t as [|c t IH]; [reflexivity|].
  cbn [forallb]. intros H. apply andb_prop in H as [Hc Ht].
  now rewrite (proj1 (numeric_chars _ Hc)), (IH Ht).
Qed.

(** The quote that closes the key [timeStamp] does not open the
    placeholder: a number or a comma follows the colon. *)
Lemma HasPrefix_before_number (t rest : bytes) :
  forallb numeric t = true ->
  bytes_HasPrefix (dquote :: ":"%char :: t ++ ","%char :: rest) placeholder
  = false.
Proof.
  intros Ht. unfold bytes_HasPrefix.
  change placeholder with (dquote :: ":"%char :: "d"%char :: str "ata-area:" ++ [dquote]).
  cbn [json.strip]. rewrite !Ascii.eqb_refl.
  destruct t as [|c t]; [reflexivity|].
  cbn [forallb] in Ht. apply andb_prop in Ht as [Hc _].
  cbn [app json.strip]. now rewrite (proj2 (numeric_chars _ Hc)).
Qed.

(** For a device identifier of characters that JSON writes as they are,
    other than [:data-area:] itself, and for every time stamp, the body is
    the marshaled envelope with the request in the slot [dataArea]. *)
Lemma body_of_plain (equipNo : bytes) (now : Z) :
  forallb json.htmlSafe equipNo = true ->
  equipNo <> str ":data-area:" ->
  body_of equipNo now
  = jstr "{'lang':'EN_US','cmdType':203,'equipNo':'" ++ equipNo
    ++ jstr "','type':0,'timeStamp':" ++ fmt_d now
    ++ jstr ",'snno':1,'len':25,'crc':'6FC3A6BF','dataArea':" ++ req ++ jstr "}".
Proof.
  intros Hplain Hne.
  assert (Hq : forallb (fun c => negb (Ascii.eqb c dquote)) equipNo = true).
  { clear Hne. induction equipNo as [|c s IH]; [reflexivity|].
    cbn [forallb] in *. apply andb_prop in Hplain as [Hc Hs].
    now rewrite (htmlSafe_not_quote _ Hc), (IH Hs). }
  unfold body_of. rewrite Marshal_send.
  unfold json.appendString. rewrite (string_loop_plain _ Hplain).
  pose proof (fmt_d_numeric now) as HT. revert HT.
  generalize (fmt_d now). intros T HT.
  unfold bytes_Replace. change (if 1 <? 0 then _ else Z.to_nat 1) with 1%nat.
  change (jstr "':data-area:'") with placeholder.
  set (A := jstr "{'lang':'EN_US','cmdType':203,'equipNo':").
  set (B := jstr ",'type':0,'timeStamp").
  set (C := jstr "'snno':1,'len':25,'crc':'6FC3A6BF','dataArea':").
  transitivity
    (Replace_loop placeholder req 1 0
       (A ++ dquote :: equipNo ++ dquote :: B
          ++ dquote :: ":"%char :: T ++ ","%char :: C ++ placeholder ++ jstr "}")).
  { f_equal. subst A B C.
    repeat (progress (rewrite <- ?app_assoc; cbn [app])).
    vm_compute. reflexivity. }
  assert (HA : forall R, Replace_loop placeholder req 1 0 (A ++ dquote :: R)
                         = A ++ Replace_loop placeholder req 1 0 (dquote :: R))
    by (intros R; vm_compute; reflexivity).
  assert (HB : forall R,
             Replace_loop placeholder req 1 0 (dquote :: B ++ dquote :: ":"%char :: R)
             = dquote :: B ++ Replace_loop placeholder req 1 0 (dquote :: ":"%char :: R))
    by (intros R; vm_compute; reflexivity).
  assert (HC : Replace_loop placeholder req 1 0
                 (","%char :: C ++ placeholder ++ jstr "}")
               = ","%char :: C ++ req ++ jstr "}")
    by (vm_compute; reflexivity).
  rewrite HA.
  rewrite Replace_step.
  2:{ unfold bytes_HasPrefix.
      change placeholder with (dquote :: str ":data-area:" ++ [dquote]).
      cbn [json.strip]. rewrite Ascii.eqb_refl.
      rewrite (strip_quoted (str ":data-area:") equipNo); [reflexivity| exact Hq | reflexivity | exact Hne]. }
  rewrite (Replace_skip req equipNo _ Hq).
  rewrite HB.
  rewrite Replace_step by now apply HasPrefix_before_number.
  rewrite Replace_step by now apply HasPrefix_not_quote.
  rewrite (Replace_skip req T _ (numeric_no_quote _ HT)).
  rewrite HC.
  subst A B C.
  repeat (progress (rewrite <- ?app_assoc; cbn [app])).
  vm_compute. reflexivity.
Qed.

(** ** The quoted rendering as a JSON string literal *)






(** ** The status query *)

Section Theorems.

Variable userAgent : bytes.
Variable isPrintTables : Z -> bool.
Variable url_Parse_ok : bytes -> bool.

Local Abbreviation Status := (benwh.Status userAgent isPrintTables url_Parse_ok).
Local Abbreviation Status_validate := (benwh.Status_validate isPrintTables).
Local Abbreviation receives := (notions.receives userAgent url_Parse_ok).
Local Abbreviation verified := (notions.verified isPrintTables).

(** The validation is a dispatch on the code of the envelope, whatever
    [json.Unmarshal] said of the body. *)
Lemma Status_validate_dispatch (d : bytes) :
  Status_validate d =
    if Code_of (envelope d) =? 102 then Return None (Some ErrRetryLater)
    else if negb (Code_of (envelope d) =? 200)
         then Return None (Some (UnexpectedMqttCode (Code_of (envelope d))))
         else verified (envelope d).
Proof.
  unfold benwh.Status_validate, envelope, notions.verified, telemetry,
    Code_of, CRC_of, DataArea_of.
  destruct (json.Unmarshal d types.MQTTResponse _) as [mresp e1].
  cbn [fst snd].
  destruct (reflect.get_int mresp "Code" =? 102); [reflexivity|].
  destruct (reflect.get_int mresp "Code" =? 200); [|reflexivity].
  cbn [negb].
  destruct (strconv.ParseUint _ 16 32) as [got e2].
  cbn [fst snd].
  destruct (uint32 got =? _); [|reflexivity].
  cbn [negb].
  destruct (json.Unmarshal _ types.DataStatus _) as [resp e3].
  reflexivity.
Qed.

(** With a device, a URL that parses and a server that answers, [Status]
    is the validation of the answer. *)
Lemma Status_receives (conn : Conn) (w : World) (d : bytes) :
  receives conn w d -> Status conn w = Status_validate d.
Proof.
  intros (equipNo & Hdev & Hurl & Hdo).
  unfold benwh.Status. rewrite Hdev.
  unfold http_NewRequest.
  unfold notions.request in Hurl. cbn [URL] in Hurl. rewrite Hurl.
  unfold Header_Add. cbn [Method URL Header Body app].
  unfold notions.request in Hdo. rewrite Hdo. reflexivity.
Qed.


Lemma verified_match (mresp : reflect.Value) :
  let want := crc32.ChecksumIEEE (Quote isPrintTables (DataArea_of mresp)) in
  let got := fst (strconv.ParseUint (CRC_of mresp) 16 32) in
  got = want ->
  verified mresp = Return (Some (telemetry (DataArea_of mresp))) None.
Proof.
  intros want got He. unfold notions.verified. fold want got.
  unfold uint32. rewrite Z.mod_small by apply ParseUint_range.
  rewrite He, Z.eqb_refl. reflexivity.
Qed.

(** C4: for every decoded response envelope, [Status] dispatches on the
    status code: 102 gives [ErrRetryLater] whatever the payload and its
    checksum are, 200 goes on to the checksum verification and the
    decoding of the payload, and any other code gives the error that
    carries the code. *)
Theorem C4_status_code_dispatch (conn : Conn) (w : World) (d : bytes) :
  receives conn w d ->
  (Code_of (envelope d) = 102 ->
   Status conn w = Return None (Some ErrRetryLater))
  /\ (Code_of (envelope d) = 200 ->
      Status conn w = verified (envelope d))
  /\ (Code_of (envelope d) <> 102 -> Code_of (envelope d) <> 200 ->
      Status conn w
      = Return None (Some (UnexpectedMqttCode (Code_of (envelope d))))).
Proof.
  intros Hrecv.
  rewrite (Status_receives _ _ _ Hrecv), Status_validate_dispatch.
  repeat split.
  - intros ->. reflexivity.
  - intros ->. reflexivity.
  - intros H102 H200.
    apply Z.eqb_neq in H102, H200. now rewrite H102, H200.
Qed.


(** The validation never panics. *)
Lemma Status_validate_returns (d : bytes) :
  exists x err, Status_validate d = Return x err.
Proof.
  rewrite Status_validate_dispatch. unfold notions.verified.
  destruct (_ =? 102); [eauto|].
  destruct (negb _); [eauto|].
  destruct (uint32 _ =? _); eauto.
Qed.

(** C10: [Status] indexes the device list at 0 with no guard: with an
    empty list it panics (index out of range), also on a connection that
    [NewConn] made from a configuration without devices; with a list that
    is not empty the access is in bounds, the device in the request is the
    first of the list, and [Status] does not panic on an index. *)
Theorem C10_device_index_unguarded (conn : Conn) (w : World) :
  (Device (config conn) = [] ->
   Status conn w = Panics (IndexOutOfRange 0 0))
  /\ (forall conf w0,
        Device conf = [] ->
        NewConn userAgent conf w0 = Return (Some conn) None ->
        Status conn w = Panics (IndexOutOfRange 0 0))
  /\ (forall equipNo rest,
        Device (config conn) = equipNo :: rest ->
        (forall i n, Status conn w <> Panics (IndexOutOfRange i n))
        /\ (url_Parse_ok (URL (notions.request userAgent conn equipNo w)) = true ->
            Status conn w
            = match client_Do w (notions.request userAgent conn equipNo w) with
              | DoFails e => Return None (Some (QueryFailed e))
              | ReadFails e => Return None (Some (FailedToReadBody e))
              | Responds d => Status_validate d
              end)).
Proof.
  split; [|split].
  - intros Hnil. unfold benwh.Status. rewrite Hnil. reflexivity.
  - intros conf w0 Hnil Hnew.
    assert (Hc : config conn = conf).
    { unfold NewConn in Hnew.
      destruct (client_PostForm w0 _ _); try discriminate Hnew.
      destruct (json.Unmarshal _ _ _) as [resp [e|]]; [discriminate Hnew|].
      injection Hnew as <-. reflexivity. }
    unfold benwh.Status. rewrite Hc, Hnil. reflexivity.
  - intros equipNo rest Hdev.
    unfold benwh.Status. rewrite Hdev. cbn [nth_error].
    unfold http_NewRequest, notions.request. cbn [URL].
    destruct (url_Parse_ok _).
    + unfold Header_Add. cbn [Method URL Header Body app].
      split; [|reflexivity].
      intros i n. destruct (client_Do w _); try discriminate.
      destruct (Status_validate_returns d) as (x & err & ->). discriminate.
    + split; [discriminate | discriminate].
Qed.

(** C5: the envelope that [Status] builds has [Len] equal to the byte
    length of the inner payload (25) and [CRC] equal to the IEEE CRC-32 of
    the inner payload written with [%08X], eight upper-case hexadecimal
    digits; both are computed before the splice and stand in the body that
    is sent. *)
Theorem C5_outbound_len_and_crc (equipNo : bytes) (now : Z) :
  let send := send_of equipNo now in
  req = jstr "{'opt':1,'refreshData':1}"
  /\ reflect.get_int send "Len" = Z.of_nat (List.length req)
  /\ reflect.get_int send "Len" = 25
  /\ reflect.get_string send "CRC" = fmt_08X (crc32.ChecksumIEEE req)
  /\ reflect.get_string send "CRC" = str "6FC3A6BF"
  /\ List.length (reflect.get_string send "CRC") = 8%nat
  /\ Forall (fun c => In c upperhex) (reflect.get_string send "CRC")
  /\ strconv.ParseUint (reflect.get_string send "CRC") 16 32
     = (crc32.ChecksumIEEE req, None)
  /\ json.Marshal send types.MQTTRequest
     = (jstr "{'lang':'EN_US','cmdType':203,'equipNo':"
        ++ json.appendString equipNo
        ++ jstr ",'type':0,'timeStamp':" ++ fmt_d now
        ++ jstr ",'snno':1,'len':25,'crc':'6FC3A6BF','dataArea':':data-area:'")
       ++ jstr "}".
Proof.
  cbv zeta. splits.
  1-6, 8: vm_compute; reflexivity.
  - vm_compute. repeat (apply Forall_cons; [auto 20|]). apply Forall_nil.
  - apply Marshal_send.
Qed.

End Theorems.

(** ** The polling loop *)

Lemma loop_retries (f : status.Flags) (k : nat) :
  forall v,
    status.sleeps (fst (status.loop f v (repeat sample.retry k)))
    = waits (status.backoff v) k.
Proof.
  induction k as [|k IH]; intros v; [reflexivity|].
  cbn [repeat status.loop waits].
  unfold sample.retry at 1. cbn [status.turn].
  specialize (IH {| status.samples := status.samples v;
                    status.backoff := status.wrap64 (status.backoff v * 2);
                    status.first := false |}).
  destruct (status.loop f _ (repeat sample.retry k)) as [out n].
  cbn [fst app status.sleeps] in *. now rewrite IH.
Qed.

Lemma wrap64_mul (a m : Z) :
  status.wrap64 (status.wrap64 a * m) = status.wrap64 (a * m).
Proof.
  unfold status.wrap64.
  pose proof (Z.div_mod (a + 2 ^ 63) (2 ^ 64) ltac:(discriminate)) as Hdm.
  replace (((a + 2 ^ 63) mod 2 ^ 64 - 2 ^ 63) * m + 2 ^ 63)
    with (a * m + 2 ^ 63 + (- m * ((a + 2 ^ 63) / 2 ^ 64)) * 2 ^ 64) by lia.
  now rewrite Z.mod_add by discriminate.
Qed.

(** The wait of the retry number [i] (from 0) of a run is the backoff times
    [2 ^ (i + 1)] as an [int64]: no ceiling is put on it, and it wraps
    around. *)
Lemma waits_nth (k : nat) :
  forall b i, (i < k)%nat ->
    nth i (waits b k) 0 = status.wrap64 (b * 2 ^ (Z.of_nat i + 1)).
Proof.
  induction k as [|k IH]; intros b i Hi; [lia|].
  cbn [waits]. destruct i as [|i]; cbn [nth].
  - reflexivity.
  - rewrite IH by lia. rewrite wrap64_mul. f_equal.
    rewrite Nat2Z.inj_succ, (Z.add_succ_l (Z.of_nat i) 1).
    rewrite (Z.pow_succ_r 2 (Z.of_nat i + 1)) by lia. lia.
Qed.

(** C1, as the code has it: the backoff is doubled before the sleep, so
    from the base backoff of 5 seconds three consecutive [ErrRetryLater]
    outcomes sleep 10, 20 and 40 seconds in that order; a successful call
    after which the loop goes on puts the backoff back to 5 seconds, so
    that the wait of the next [ErrRetryLater] is 10 seconds. *)
Theorem C1_backoff_doubles_before_sleep (f : status.Flags) :
  status.sleeps
    (fst (status.loop f status.init [sample.retry; sample.retry; sample.retry]))
  = [10 * status.Second; 20 * status.Second; 40 * status.Second]
  /\ forall v resp out v',
       status.turn f v (Return resp None) = (out, status.Again v') ->
       status.backoff v' = 5 * status.Second
       /\ status.sleeps (fst (status.turn f v' sample.retry))
          = [10 * status.Second].
Proof.
  split; [vm_compute; reflexivity|].
  intros v resp out v' H.
  assert (Hb : status.backoff v' = 5 * status.Second).
  { cbn [status.turn] in H.
    destruct (if status.debug f then _ else _) as [shown|]; [|discriminate H].
    destruct (status.delay f =? 0); [discriminate H|].
    destruct (_ =? status.poll f); [discriminate H|].
    injection H as _ <-. reflexivity. }
  split; [exact Hb|].
  unfold sample.retry. cbn [status.turn fst status.sleeps]. rewrite Hb.
  vm_compute. reflexivity.
Qed.

(** C1 as the claim has it fails: three retries from the start do not
    sleep 5, 10 and 20 seconds, and the retry after a success does not
    sleep 5 seconds. *)
Lemma C1_counterexample :
  status.sleeps
    (fst (status.loop sample.polling status.init
            [sample.retry; sample.retry; sample.retry]))
  <> [5 * status.Second; 10 * status.Second; 20 * status.Second]
  /\ status.retry_waits
       (fst (status.loop sample.polling status.init
               [sample.retry; sample.success; sample.retry]))
     <> [5 * status.Second; 5 * status.Second]
  /\ status.retry_waits
       (fst (status.loop sample.polling status.init
               [sample.retry; sample.success; sample.retry]))
     = [10 * status.Second; 10 * status.Second].
Proof.
  vm_compute. splits; try discriminate; reflexivity.
Qed.

(** An instance of C1: the first sample of an endless polling, then a retry. *)
Lemma C1_witness :
  status.turn sample.polling status.init sample.success
  = ([status.LogHeader; status.LogSample (reflect.zero types.DataStatus);
      status.Sleep (60 * status.Second)],
     status.Again {| status.samples := 1; status.backoff := 5 * status.Second;
                     status.first := false |})
  /\ status.sleeps
       (fst (status.turn sample.polling
               {| status.samples := 1; status.backoff := 5 * status.Second;
                  status.first := false |} sample.retry))
     = [10 * status.Second].
Proof.
  assert (H : status.turn sample.polling status.init sample.success
              = ([status.LogHeader; status.LogSample (reflect.zero types.DataStatus);
                  status.Sleep (60 * status.Second)],
                 status.Again {| status.samples := 1;
                                 status.backoff := 5 * status.Second;
                                 status.first := false |}))
    by (vm_compute; reflexivity).
  split; [exact H|].
  exact (proj2 (proj2 (C1_backoff_doubles_before_sleep sample.polling) _ _ _ _ H)).
Defined.

(** ** Errors that [Status] looks for in the wrong variable *)

Section Unreachable.

Variable userAgent : bytes.
Variable isPrintTables : Z -> bool.
Variable url_Parse_ok : bytes -> bool.

(** Whatever the world, [Status] returns none of the three errors "mqtt
    response decode error", "invalid CRC ... which is not hex" and "status
    report decode error", nor "query preparation failed". *)
Lemma Status_never_reports (conn : Conn) (w : World) :
  forall x err,
    benwh.Status userAgent isPrintTables url_Parse_ok conn w = Return x (Some err) ->
    match err with
    | MqttResponseDecodeError _ | InvalidCRCNotHex _ _
    | StatusReportDecodeError _ | QueryPreparationFailed _ => False
    | _ => True
    end.
Proof.
  intros x err. unfold benwh.Status.
  destruct (nth_error _ 0); [|discriminate].
  unfold http_NewRequest. destruct (url_Parse_ok _); [|discriminate].
  destruct (client_Do w _).
  - intros H; injection H as _ <-. exact I.
  - intros H; injection H as _ <-. exact I.
  - rewrite Status_validate_dispatch. unfold notions.verified.
    destruct (_ =? 102); [intros H; injection H as _ <-; exact I|].
    destruct (negb _); [intros H; injection H as _ <-; exact I|].
    destruct (uint32 _ =? _); [discriminate|].
    intros H; injection H as _ <-; exact I.
Qed.

(** An envelope of code 200 whose declared checksum agrees is answered
    with a record and no error, whether the payload decodes or not. *)
Lemma Status_ignores_payload_error (conn : Conn) (w : World) (d : bytes) :
  notions.receives userAgent url_Parse_ok conn w d ->
  Code_of (envelope d) = 200 ->
  fst (strconv.ParseUint (CRC_of (envelope d)) 16 32)
  = crc32.ChecksumIEEE (Quote isPrintTables (DataArea_of (envelope d))) ->
  benwh.Status userAgent isPrintTables url_Parse_ok conn w
  = Return (Some (telemetry (DataArea_of (envelope d)))) None.
Proof.
  intros Hrecv H200 Hcrc.
  rewrite (Status_receives _ _ _ _ _ _ Hrecv), Status_validate_dispatch, H200.
  now apply verified_match.
Qed.

End Unreachable.

(** C2: on the envelope [bodies.payload_not_json] (code 200, matching
    checksum, payload [x]) the payload is no JSON, and [Status] returns the
    zero record with a nil error where the claim has a decode error. *)
Theorem C2_payload_error_dropped :
  Code_of (envelope bodies.payload_not_json) = 200
  /\ DataArea_of (envelope bodies.payload_not_json) = str "x"
  /\ hex_value (CRC_of (envelope bodies.payload_not_json))
     = Some (crc32.ChecksumIEEE (Quote sample.isPrintTables (str "x")))
  /\ telemetry_error (str "x") = Some json.SyntaxError
  /\ sample.Status (sample.conn [sample.device]) (sample.server bodies.payload_not_json)
     = Return (Some (reflect.zero types.DataStatus)) None.
Proof.
  vm_compute. splits; reflexivity.
Qed.

(** C7: a declared checksum that is no hexadecimal number is read as 0, and
    one of more than 32 bits as [0xFFFFFFFF]; [Status] then reports a
    mismatch against that number, or accepts the payload when its checksum
    is that number, and never reports that the checksum is malformed. *)
Theorem C7_malformed_checksum_read_as_number :
  hex_value (str "zz") = None
  /\ strconv.ParseUint (str "zz") 16 32 = (0, Some strconv.ErrSyntax)
  /\ sample.Status (sample.conn [sample.device]) (sample.server bodies.crc_not_hex)
     = Return None (Some (InvalidCRC 0 0xF60EF986))
  /\ sample.Status (sample.conn [sample.device])
                   (sample.server bodies.crc_not_hex_accepted)
     = Return (Some (telemetry (jstr "{'name':'ofCbhb'}"))) None
  /\ reflect.get_string (telemetry (jstr "{'name':'ofCbhb'}")) "Name" = str "ofCbhb"
  /\ hex_value (str "123456789") = None
  /\ strconv.ParseUint (str "123456789") 16 32 = (0xFFFFFFFF, Some strconv.ErrRange)
  /\ sample.Status (sample.conn [sample.device])
                   (sample.server bodies.crc_too_wide_accepted)
     = Return (Some (telemetry (jstr "{'name':'EiUcXr'}"))) None.
Proof.
  vm_compute. splits; reflexivity.
Qed.

(** C8: a body that is no JSON leaves the envelope zero and [Status]
    reports the code 0 as unexpected; a body that is JSON of the wrong shape
    is used as far as it was decoded, here up to a record and a nil error.
    The error of the decoding is reported in neither case. *)
Theorem C8_envelope_error_dropped :
  envelope_error bodies.not_json = Some json.SyntaxError
  /\ sample.Status (sample.conn [sample.device]) (sample.server bodies.not_json)
     = Return None (Some (UnexpectedMqttCode 0))
  /\ envelope_error bodies.wrong_shape
     = Some (json.UnmarshalTypeError (str "number"))
  /\ sample.Status (sample.conn [sample.device]) (sample.server bodies.wrong_shape)
     = Return (Some (reflect.zero types.DataStatus)) None.
Proof.
  vm_compute. splits; reflexivity.
Qed.

(** ** The splice *)

(** With an everyday device identifier the slot [dataArea] of the body holds
    the bytes of the request. *)
Example splice_sample :
  raw_slot (body_of sample.device 1731886671) "dataArea" = Some req
  /\ raw_slot (body_of sample.device 1731886671) "equipNo"
     = Some (jstr "'10060006A02F24150042'").
Proof. vm_compute. split; reflexivity. Qed.

(** C6: [bytes.Replace] takes the first quoted placeholder of the marshaled
    envelope.  For the device identifier [:data-area:] that is the slot
    [equipNo]: the request lands there and the slot [dataArea] keeps the
    placeholder.  For an identifier that ends in a double quote and
    [:data-area:] the body is no JSON any more.  (For the identifiers of
    [body_of_plain] the request is in the slot [dataArea].) *)
Theorem C6_splice_takes_first_placeholder :
  raw_slot (body_of (str ":data-area:") 1731886671) "dataArea"
  = Some (jstr "':data-area:'")
  /\ raw_slot (body_of (str ":data-area:") 1731886671) "dataArea" <> Some req
  /\ raw_slot (body_of (str ":data-area:") 1731886671) "equipNo" = Some req
  /\ body_of (str ":data-area:") 1731886671
     = jstr "{'lang':'EN_US','cmdType':203,'equipNo':{'opt':1,'refreshData':1},'type':0,'timeStamp':1731886671,'snno':1,'len':25,'crc':'6FC3A6BF','dataArea':':data-area:'}"
  /\ json.parse (body_of (jstr "x':data-area:") 1731886671) = None.
Proof.
  vm_compute. splits; try reflexivity. discriminate.
Qed.

(** ** NewConn *)

(** What [NewConn] returns: the error of the POST, of reading the body or
    of decoding the body as a [LoginResponse]; otherwise a connection that
    holds the configuration and the token of the decoded response, which
    it does not inspect. *)
Lemma NewConn_errors_and_token (userAgent : bytes) (conf : Config) (w : World) :
  (forall e,
     client_PostForm w (login_url w) (login_form userAgent conf) = DoFails e ->
     NewConn userAgent conf w = Return None (Some (Lib e)))
  /\ (forall e,
        client_PostForm w (login_url w) (login_form userAgent conf) = ReadFails e ->
        NewConn userAgent conf w = Return None (Some (Lib e)))
  /\ (forall d,
        client_PostForm w (login_url w) (login_form userAgent conf) = Responds d ->
        (forall e, login_error d = Some e ->
                   NewConn userAgent conf w = Return None (Some (Lib (JSON e))))
        /\ (login_error d = None ->
            NewConn userAgent conf w
            = Return (Some {| config := conf;
                              token := Token_of (login d);
                              client := tt |}) None)).
Proof.
  unfold NewConn, login_error, login, Token_of, login_url.
  change (Values_Set (Values_Set (Values_Set (Values_Set (Values_Set []
            (str "account") (Email conf)) (str "password") (Password conf))
            (str "lang") (str "EN_US")) (str "type") (str "1"))
            (str "user-agent") userAgent)
    with (login_form userAgent conf).
  split; [|split].
  - intros e ->. reflexivity.
  - intros e ->. reflexivity.
  - intros d ->.
    destruct (json.Unmarshal d _ _) as [resp err]. cbn [fst snd].
    split.
    + intros e ->. reflexivity.
    + intros ->. reflexivity.
Qed.

(** C9: [NewConn] makes no check of the token, where its comment promises
    an authenticated connection and the README says that the file is saved
    only if a token could be obtained.  To the answer of a server that
    refuses the login (code 401, no result, success false), and to the
    empty object, it returns a connection with the empty token and no
    error; so it does for every answer that decodes and carries no token.
    [main] with [-newlogin] then writes the configuration file and goes on
    to poll with the empty token. *)
Theorem C9_login_without_token_accepted :
  login_error bodies.login_refused = None
  /\ Token_of (login bodies.login_refused) = []
  /\ reflect.get_int (login bodies.login_refused) "Code" = 401
  /\ reflect.get_bool (login bodies.login_refused) "Success" = false
  /\ sample.NewConn (sample.conf [sample.device])
       (sample.server bodies.login_refused)
     = Return (Some {| config := sample.conf [sample.device];
                       token := [];
                       client := tt |}) None
  /\ sample.NewConn (sample.conf [sample.device])
       (sample.server bodies.login_empty)
     = Return (Some {| config := sample.conf [sample.device];
                       token := [];
                       client := tt |}) None
  /\ (forall userAgent conf w d,
        client_PostForm w (login_url w) (login_form userAgent conf) = Responds d ->
        login_error d = None ->
        Token_of (login d) = [] ->
        NewConn userAgent conf w
        = Return (Some {| config := conf; token := []; client := tt |}) None)
  /\ program.setup sample.userAgent (run.newlogin [] []) run.owner
       (sample.server bodies.login_refused)
     = ([ program.Print (str "Email: ");
          program.Print (str "Side Device ID: ");
          program.Print (str "Password: ");
          program.WriteFile (str "./benwh.config")
            (json.Marshal (program.value_of (sample.conf [sample.device]))
                          program.ConfigType) 384 ],
        program.Polls (sample.conf [sample.device])
          (Some {| config := sample.conf [sample.device];
                   token := [];
                   client := tt |})).
Proof.
  splits.
  1-6, 8: vm_compute; reflexivity.
  intros userAgent conf w d Hd He Ht.
  rewrite <- Ht.
  now apply (proj2 (proj2 (proj2 (NewConn_errors_and_token userAgent conf w)) d Hd)).
Qed.

(** A login answer that carries a token. *)
Lemma NewConn_sample_login :
  client_PostForm (sample.server bodies.login_good)
    (login_url (sample.server bodies.login_good))
    (login_form sample.userAgent (sample.conf [sample.device]))
  = Responds bodies.login_good
  /\ login_error bodies.login_good = None
  /\ NewConn sample.userAgent (sample.conf [sample.device])
       (sample.server bodies.login_good)
     = Return (Some {| config := sample.conf [sample.device];
                       token := Token_of (login bodies.login_good);
                       client := tt |}) None.
Proof.
  split; [reflexivity|]. split; [vm_compute; reflexivity|].
  apply (NewConn_errors_and_token sample.userAgent (sample.conf [sample.device])
           (sample.server bodies.login_good)).
  - reflexivity.
  - vm_compute; reflexivity.
Qed.

(** ** Instances *)

(** The sample connection receives what the sample server answers. *)
Lemma sample_receives (d : bytes) :
  notions.receives sample.userAgent sample.url_Parse_ok
    (sample.conn [sample.device]) (sample.server d) d.
Proof.
  exists sample.device. repeat split.
Defined.

(** An instance of C4: code 102 over a checksum that does not fit. *)
Lemma C4_witness :
  notions.receives sample.userAgent sample.url_Parse_ok
    (sample.conn [sample.device]) (sample.server bodies.retry_later)
    bodies.retry_later
  /\ Code_of (envelope bodies.retry_later) = 102
  /\ sample.Status (sample.conn [sample.device]) (sample.server bodies.retry_later)
     = Return None (Some ErrRetryLater).
Proof.
  split; [apply sample_receives|]. split; [vm_compute; reflexivity|].
  apply (C4_status_code_dispatch sample.userAgent sample.isPrintTables
           sample.url_Parse_ok (sample.conn [sample.device])
           (sample.server bodies.retry_later) bodies.retry_later).
  - apply sample_receives.
  - vm_compute; reflexivity.
Defined.



(** An instance of C10: no device, and one device. *)
Lemma C10_witness :
  Device (config (sample.conn [])) = []
  /\ sample.Status (sample.conn []) (sample.server bodies.good)
     = Panics (IndexOutOfRange 0 0)
  /\ Device (config (sample.conn [sample.device])) = [sample.device]
  /\ sample.Status (sample.conn [sample.device]) (sample.server bodies.good)
     <> Panics (IndexOutOfRange 0 0).
Proof.
  split; [reflexivity|].
  split.
  - apply (C10_device_index_unguarded sample.userAgent sample.isPrintTables
             sample.url_Parse_ok (sample.conn []) (sample.server bodies.good)).
    reflexivity.
  - split; [reflexivity|].
    apply (proj2 (proj2 (C10_device_index_unguarded sample.userAgent
             sample.isPrintTables sample.url_Parse_ok
             (sample.conn [sample.device]) (sample.server bodies.good)))
             sample.device []).
    reflexivity.
Defined.

(** The good answer, end to end. *)
Example status_good :
  sample.Status (sample.conn [sample.device]) (sample.server bodies.good)
  = Return (Some (telemetry (jstr "{'p_uti':0.855,'soc':99.474}"))) None
  /\ reflect.get (telemetry (jstr "{'p_uti':0.855,'soc':99.474}")) "PUti"
     = reflect.VFloat (str "0.855")
  /\ reflect.get (telemetry (jstr "{'p_uti':0.855,'soc':99.474}")) "Soc"
     = reflect.VFloat (str "99.474").
Proof. vm_compute. splits; reflexivity. Qed.

(** * Further properties *)

(** ** The checksum codec *)

Lemma lxor_range (n a b : Z) :
  0 <= n -> 0 <= a < 2 ^ n -> 0 <= b < 2 ^ n -> 0 <= Z.lxor a b < 2 ^ n.
Proof.
  intros Hn Ha Hb.
  assert (H0 : 0 <= Z.lxor a b) by (apply Z.lxor_nonneg; lia).
  split; [exact H0|].
  destruct (Z.eq_dec (Z.lxor a b) 0) as [->|Hne]; [apply Z.pow_pos_nonneg; lia|].
  assert (Hpos : 0 < n).
  { destruct (Z.eq_dec n 0) as [->|]; [|lia].
    change (2 ^ 0) with 1 in *.
    assert (a = 0) by lia. assert (b = 0) by lia. subst. now elim Hne. }
  apply Z.log2_lt_pow2; [lia|].
  eapply Z.le_lt_trans; [apply Z.log2_lxor; lia|].
  apply Z.max_lub_lt.
  - destruct (Z.eq_dec a 0) as [->|]; [cbn; lia|]. apply Z.log2_lt_pow2; lia.
  - destruct (Z.eq_dec b 0) as [->|]; [cbn; lia|]. apply Z.log2_lt_pow2; lia.
Qed.

Lemma shiftr_range (a k : Z) :
  0 <= k -> 0 <= a < 2 ^ 32 -> 0 <= Z.shiftr a k < 2 ^ 32.
Proof.
  intros Hk Ha. rewrite Z.shiftr_div_pow2 by exact Hk.
  assert (0 < 2 ^ k) by (apply Z.pow_pos_nonneg; lia).
  split; [apply Z.div_pos; lia|].
  apply Z.le_lt_trans with a; [|lia].
  apply Z.div_le_upper_bound; nia.
Qed.

Lemma shift1_range (crc : Z) :
  0 <= crc < 2 ^ 32 -> 0 <= crc32.shift1 crc < 2 ^ 32.
Proof.
  intros H. unfold crc32.shift1.
  pose proof (shiftr_range crc 1 ltac:(lia) H).
  destruct (Z.testbit crc 0); [|assumption].
  apply (lxor_range 32); [lia | assumption | unfold crc32.IEEE; lia].
Qed.

Lemma update_byte_range (crc : Z) (v : ascii) :
  0 <= crc < 2 ^ 32 -> 0 <= crc32.update_byte crc v < 2 ^ 32.
Proof.
  intros H. unfold crc32.update_byte.
  assert (Hc : 0 <= code v < 256).
  { unfold code. pose proof (N_ascii_bounded v). lia. }
  assert (Hl : 0 <= Z.land crc 255 < 2 ^ 32).
  { change 255 with (Z.ones 8). rewrite Z.land_ones by lia.
    pose proof (Z.mod_pos_bound crc (2 ^ 8) ltac:(lia)). lia. }
  assert (Hi : 0 <= Z.lxor (Z.land crc 255) (code v) < 2 ^ 32)
    by (apply (lxor_range 32); lia).
  apply (lxor_range 32); [lia | | apply shiftr_range; lia].
  unfold crc32.table. repeat apply shift1_range. exact Hi.
Qed.

(** The CRC-32 of any bytes is a 32-bit number. *)
Lemma ChecksumIEEE_range (data : bytes) :
  0 <= crc32.ChecksumIEEE data < 2 ^ 32.
Proof.
  unfold crc32.ChecksumIEEE, crc32.simpleUpdate, crc32.not32.
  assert (H : forall p crc, 0 <= crc < 2 ^ 32 ->
                0 <= fold_left crc32.update_byte p crc < 2 ^ 32).
  { induction p as [|v p IH]; intros crc Hc; [exact Hc|].
    cbn [fold_left]. apply IH, update_byte_range, Hc. }
  apply (lxor_range 32); [lia | | lia].
  apply H. apply (lxor_range 32); lia.
Qed.

Lemma digits_aux_S (fuel : nat) (alphabet : bytes) (base n : Z) (acc : bytes) :
  digits_aux (S fuel) alphabet base n acc
  = if n <? base then digit_of alphabet (n mod base) :: acc
    else digits_aux fuel alphabet base (n / base)
           (digit_of alphabet (n mod base) :: acc).
Proof. reflexivity. Qed.

(** [%X] of a 32-bit number, padded to eight places, is its eight
    hexadecimal digits. *)
Lemma fmt_08X_hex8 (n : Z) : 0 <= n < 2 ^ 32 -> fmt_08X n = hex8 n.
Proof.
  intros Hn. unfold fmt_08X, fmt_X, digits, hex8. cbn [map].
  change (16 ^ 0) with 1. change (16 ^ 1) with 16. change (16 ^ 2) with (16 * 16).
  change (16 ^ 3) with (16 * 16 * 16). change (16 ^ 4) with (16 * 16 * 16 * 16).
  change (16 ^ 5) with (16 * 16 * 16 * 16 * 16).
  change (16 ^ 6) with (16 * 16 * 16 * 16 * 16 * 16).
  change (16 ^ 7) with (16 * 16 * 16 * 16 * 16 * 16 * 16).
  rewrite <- !Z.div_div by lia. rewrite Z.div_1_r.
  change (2 ^ 32) with 4294967296 in Hn.
  do 8 (rewrite digits_aux_S;
        match goal with
        | |- context [if ?q <? 16 then _ else _] =>
            let E := fresh "E" in
            destruct (q <? 16) eqn:E;
            [ apply Z.ltb_lt in E;
              rewrite ?(Z.div_small q 16)
                by (Z.to_euclidean_division_equations; lia);
              rewrite ?Z.div_0_l by lia; rewrite ?Zmod_0_l; reflexivity
            | apply Z.ltb_ge in E ]
        end).
  exfalso. Z.to_euclidean_division_equations. lia.
Qed.

Lemma hex_digit_of (d : Z) :
  0 <= d < 16 -> hex_digit (digit_of upperhex d) = Some d.
Proof.
  intros H.
  assert (E : d = 0 \/ d = 1 \/ d = 2 \/ d = 3 \/ d = 4 \/ d = 5 \/ d = 6
              \/ d = 7 \/ d = 8 \/ d = 9 \/ d = 10 \/ d = 11 \/ d = 12
              \/ d = 13 \/ d = 14 \/ d = 15) by lia.
  repeat (destruct E as [->|E]; [reflexivity|]). now subst d.
Qed.

Lemma hex_value_hex8 (n : Z) : 0 <= n < 2 ^ 32 -> hex_value (hex8 n) = Some n.
Proof.
  intros Hn. unfold hex8, hex_value. cbn [map hex_number].
  rewrite !hex_digit_of by (apply Z.mod_pos_bound; lia).
  change (2 ^ 32) with 4294967296 in *.
  match goal with
  | |- (if ?m <? _ then _ else _) = _ => replace m with n
  end.
  - destruct (n <? 4294967296) eqn:E; [reflexivity|].
    apply Z.ltb_ge in E. lia.
  - change (16 ^ 0) with 1. change (16 ^ 1) with 16. change (16 ^ 2) with 256.
    change (16 ^ 3) with 4096. change (16 ^ 4) with 65536.
    change (16 ^ 5) with 1048576. change (16 ^ 6) with 16777216.
    change (16 ^ 7) with 268435456.
    Z.to_euclidean_division_equations. lia.
Qed.

Lemma ParseUint_fmt_08X (n : Z) :
  0 <= n < 2 ^ 32 -> strconv.ParseUint (fmt_08X n) 16 32 = (n, None).
Proof.
  intros Hn. apply ParseUint_hex_value.
  rewrite fmt_08X_hex8 by exact Hn. now apply hex_value_hex8.
Qed.

Lemma hex8_length (n : Z) : List.length (hex8 n) = 8%nat.
Proof. reflexivity. Qed.

(** ** The status query, case by case *)

Section StatusCases.

Variable userAgent : bytes.
Variable isPrintTables : Z -> bool.
Variable url_Parse_ok : bytes -> bool.

Local Abbreviation Status := (benwh.Status userAgent isPrintTables url_Parse_ok).
Local Abbreviation Status_validate := (benwh.Status_validate isPrintTables).
Local Abbreviation receives := (notions.receives userAgent url_Parse_ok).
Local Abbreviation request := (notions.request userAgent).

(** The four ways the validation of a response body ends. *)
Lemma Status_validate_cases (d : bytes) :
  (Code_of (envelope d) = 102
   /\ Status_validate d = Return None (Some ErrRetryLater))
  \/ (Code_of (envelope d) <> 102 /\ Code_of (envelope d) <> 200
      /\ Status_validate d
         = Return None (Some (UnexpectedMqttCode (Code_of (envelope d)))))
  \/ (Code_of (envelope d) = 200
      /\ exists got want,
           Status_validate d = Return None (Some (InvalidCRC got want)))
  \/ (Code_of (envelope d) = 200
      /\ Status_validate d
         = Return (Some (telemetry (DataArea_of (envelope d)))) None).
Proof.
  rewrite Status_validate_dispatch. unfold notions.verified.
  destruct (Code_of (envelope d) =? 102) eqn:E1.
  { left. apply Z.eqb_eq in E1. now split. }
  apply Z.eqb_neq in E1.
  destruct (Code_of (envelope d) =? 200) eqn:E2; cbn [negb].
  2: { right; left. apply Z.eqb_neq in E2. now splits. }
  apply Z.eqb_eq in E2.
  destruct (uint32 _ =? _).
  - right; right; right. now split.
  - right; right; left. split; [exact E2|]. eauto.
Qed.

(** The five ways a call of [Status] ends. *)
Lemma Status_cases (conn : Conn) (w : World) :
  (Device (config conn) = []
   /\ Status conn w = Panics (IndexOutOfRange 0 0))
  \/ (exists equipNo,
        nth_error (Device (config conn)) 0 = Some equipNo
        /\ url_Parse_ok (URL (request conn equipNo w)) = false
        /\ Status conn w = Panics NilDereference)
  \/ (exists equipNo e,
        nth_error (Device (config conn)) 0 = Some equipNo
        /\ url_Parse_ok (URL (request conn equipNo w)) = true
        /\ client_Do w (request conn equipNo w) = DoFails e
        /\ Status conn w = Return None (Some (QueryFailed e)))
  \/ (exists equipNo e,
        nth_error (Device (config conn)) 0 = Some equipNo
        /\ url_Parse_ok (URL (request conn equipNo w)) = true
        /\ client_Do w (request conn equipNo w) = ReadFails e
        /\ Status conn w = Return None (Some (FailedToReadBody e)))
  \/ (exists d, receives conn w d /\ Status conn w = Status_validate d).
Proof.
  unfold benwh.Status, notions.receives.
  destruct (Device (config conn)) as [|equipNo rest] eqn:Hdev.
  { left. now split. }
  right. cbn [nth_error].
  unfold http_NewRequest, notions.request. cbn [URL].
  destruct (url_Parse_ok _) eqn:Hurl.
  2: { left. exists equipNo. now splits. }
  right. unfold Header_Add. cbn [Method URL Header Body app].
  destruct (client_Do w _) as [e|e|d] eqn:Hdo.
  - left. exists equipNo, e. now splits.
  - right; left. exists equipNo, e. now splits.
  - right; right. exists d. split; [|reflexivity].
    exists equipNo. now splits.
Qed.

(** X1: [Status] hands back a record exactly when it hands back no error: a
    record with a nil error, or no record with an error. *)
Theorem Status_record_iff_no_error (conn : Conn) (w : World)
    (x : option reflect.Value) (err : option error) :
  Status conn w = Return x err ->
  (exists r, x = Some r /\ err = None) \/ (x = None /\ exists e, err = Some e).
Proof.
  intros H.
  destruct (Status_cases conn w)
    as [[_ E]|[(q & _ & _ & E)|[(q & e & _ & _ & _ & E)|[(q & e & _ & _ & _ & E)
        |(d & _ & E)]]]]; rewrite E in H; try discriminate H.
  - injection H as <- <-. right. eauto.
  - injection H as <- <-. right. eauto.
  - destruct (Status_validate_cases d)
      as [[_ V]|[(_ & _ & V)|[(_ & got & want & V)|[_ V]]]];
      rewrite V in H; injection H as <- <-; eauto.
Qed.

(** X2: The retryable error comes from one place: a response body that was
    read and whose code is 102.  A failure of the exchange, another code
    or a checksum that does not fit is never [ErrRetryLater]. *)
Theorem Status_retry_iff_code_102 (conn : Conn) (w : World) :
  (exists x, Status conn w = Return x (Some ErrRetryLater))
  <-> exists d, receives conn w d /\ Code_of (envelope d) = 102.
Proof.
  split.
  - intros (x & H).
    destruct (Status_cases conn w)
      as [[_ E]|[(q & _ & _ & E)|[(q & e & _ & _ & _ & E)|[(q & e & _ & _ & _ & E)
          |(d & Hr & E)]]]]; rewrite E in H; try discriminate H.
    exists d. split; [exact Hr|].
    destruct (Status_validate_cases d)
      as [[C _]|[(_ & _ & V)|[(_ & got & want & V)|[_ V]]]];
      [exact C| | |]; rewrite V in H; discriminate H.
  - intros (d & Hr & C). exists None.
    rewrite (Status_receives userAgent isPrintTables url_Parse_ok _ _ _ Hr).
    rewrite Status_validate_dispatch, C. reflexivity.
Qed.

(** X3: [Status] panics in two cases only: on an empty device list (index out
    of range), and when the URL does not parse: [http.NewRequest] then
    returns no request with an error that the test after it does not see,
    and the header of the nil request is written to. *)
Theorem Status_panics_iff (conn : Conn) (w : World) (p : panic) :
  Status conn w = Panics p
  <-> (Device (config conn) = [] /\ p = IndexOutOfRange 0 0)
      \/ (Device (config conn) <> []
          /\ url_Parse_ok (URLBase w ++ str "hes-gateway/terminal/sendMqtt") = false
          /\ p = NilDereference).
Proof.
  split.
  - intros H.
    destruct (Status_cases conn w)
      as [[D E]|[(q & D & U & E)|[(q & e & _ & _ & _ & E)|[(q & e & _ & _ & _ & E)
          |(d & _ & E)]]]]; rewrite E in H; try discriminate H.
    + injection H as <-. left. now split.
    + injection H as <-. right. splits; [|exact U|reflexivity].
      intros Hnil. rewrite Hnil in D. discriminate D.
    + destruct (Status_validate_returns isPrintTables d) as (x & err & V).
      rewrite V in H. discriminate H.
  - intros [[D ->]|(D & U & ->)].
    + unfold benwh.Status. rewrite D. reflexivity.
    + unfold benwh.Status.
      destruct (Device (config conn)) as [|equipNo rest]; [contradiction|].
      cbn [nth_error]. unfold http_NewRequest. rewrite U. reflexivity.
Qed.

(** X4: The checksum travels both ways in one form: what [Status] writes for
    a checksum with [%08X] is eight characters that [strconv.ParseUint]
    reads back as that checksum, in upper case as written and in lower
    case; so a response of code 200 that declares the CRC-32 of its
    quoted payload in this form is accepted. *)
Theorem Status_accepts_formatted_checksum (d : bytes) :
  let want :=
    crc32.ChecksumIEEE (Quote isPrintTables (DataArea_of (envelope d))) in
  List.length (fmt_08X want) = 8%nat
  /\ strconv.ParseUint (fmt_08X want) 16 32 = (want, None)
  /\ strconv.ParseUint (ToLower (fmt_08X want)) 16 32 = (want, None)
  /\ (Code_of (envelope d) = 200 ->
      CRC_of (envelope d) = fmt_08X want
      \/ CRC_of (envelope d) = ToLower (fmt_08X want) ->
      Status_validate d
      = Return (Some (telemetry (DataArea_of (envelope d)))) None).
Proof.
  intros want.
  pose proof (ChecksumIEEE_range
                (Quote isPrintTables (DataArea_of (envelope d)))) as Hr.
  fold want in Hr.
  assert (Hup : strconv.ParseUint (fmt_08X want) 16 32 = (want, None))
    by now apply ParseUint_fmt_08X.
  assert (Hlo : strconv.ParseUint (ToLower (fmt_08X want)) 16 32 = (want, None))
    by now rewrite (proj2 (ParseUint_case _ 16 32)).
  splits; [|exact Hup|exact Hlo|].
  - rewrite fmt_08X_hex8 by exact Hr. apply hex8_length.
  - intros C Hcrc.
    rewrite Status_validate_dispatch, C. cbn [Z.eqb Pos.eqb negb].
    apply verified_match. fold want.
    destruct Hcrc as [-> | ->]; [now rewrite Hup | now rewrite Hlo].
Qed.

End StatusCases.

(** ** The polling loop, run after run *)

Lemma wrap64_small (n : Z) : - 2 ^ 63 <= n < 2 ^ 63 -> status.wrap64 n = n.
Proof.
  intros H. unfold status.wrap64. rewrite Z.mod_small by lia. lia.
Qed.

Lemma loop_cons (f : status.Flags) (v : status.Vars)
    (call : outcome reflect.Value) (calls : list (outcome reflect.Value)) :
  status.loop f v (call :: calls)
  = match status.turn f v call with
    | (out, status.Again v') =>
        (out ++ fst (status.loop f v' calls), snd (status.loop f v' calls))
    | r => r
    end.
Proof.
  cbn [status.loop]. destruct (status.turn f v call) as [out [v'| | |p]];
    try reflexivity.
  destruct (status.loop f v' calls); reflexivity.
Qed.

Lemma samples_shown_app (a b : list status.event) :
  samples_shown (a ++ b) = (samples_shown a + samples_shown b)%nat.
Proof. unfold samples_shown. now rewrite filter_app, length_app. Qed.

(** A retried turn: the samples stay, nothing is shown. *)
Lemma turn_retry (f : status.Flags) (v : status.Vars)
    (call : outcome reflect.Value) :
  is_retry call = true ->
  exists out v',
    status.turn f v call = (out, status.Again v')
    /\ status.samples v' = status.samples v
    /\ status.first v' = false
    /\ samples_shown out = 0%nat
    /\ ~ In status.LogHeader out.
Proof.
  destruct call as [x [[]|]|p]; try discriminate. intros _.
  cbn [status.turn]. do 2 eexists. splits; try reflexivity.
  cbn [In]. intros [H|[H|[]]]; discriminate H.
Qed.

(** What a turn shows on a sample: the sample, under the header when the
    turn is the first and [debug] is not set. *)
Lemma turn_sample_shown (f : status.Flags) (v : status.Vars)
    (call : outcome reflect.Value) :
  is_sample call = true ->
  exists shown,
    samples_shown shown = 1%nat
    /\ (In status.LogHeader shown
        <-> status.debug f = false /\ status.first v = true)
    /\ status.turn f v call
       = if status.delay f =? 0 then (shown, status.Break)
         else
           let samples :=
             if 0 <=? status.samples v
             then status.wrap64 (status.samples v + 1) else status.samples v in
           if samples =? status.poll f then (shown, status.Break)
           else (shown ++ [status.Sleep (status.delay f)],
                 status.Again {| status.samples := samples;
                                 status.backoff := 5 * status.Second;
                                 status.first := false |}).
Proof.
  destruct call as [[r|] [e|]|p]; try discriminate. intros _.
  cbn [status.turn].
  destruct (status.debug f) eqn:Hd.
  - exists [status.LogResp (Some r)]. splits; [reflexivity| |reflexivity].
    cbn [In]. split; [intros [H|[]]; discriminate H | intros [H _]; discriminate H].
  - destruct (status.first v) eqn:Hf.
    + exists [status.LogHeader; status.LogSample r].
      splits; [reflexivity| |reflexivity].
      cbn [In]. split; [now split | now left].
    + exists [status.LogSample r]. splits; [reflexivity| |reflexivity].
      cbn [In]. split; [intros [H|[]]; discriminate H | intros [_ H]; discriminate H].
Qed.

(** With a delay between the calls and a count of [poll] samples from 1
    on, the loop ends at sample number [poll] and not before, the retried
    calls not counted, over a loop that has taken [samples] so far. *)
Lemma loop_counts (f : status.Flags) (final : outcome reflect.Value) :
  status.delay f <> 0 ->
  status.poll f < 2 ^ 63 ->
  is_sample final = true ->
  forall calls v,
    forallb (fun c => is_sample c || is_retry c) calls = true ->
    0 <= status.samples v ->
    status.samples v + Z.of_nat (samples_among calls) + 1 = status.poll f ->
    snd (status.loop f v (calls ++ [final])) = status.Break
    /\ samples_shown (fst (status.loop f v (calls ++ [final])))
       = S (samples_among calls).
Proof.
  intros Hdelay Hpoll Hfinal. apply Z.eqb_neq in Hdelay.
  induction calls as [|c calls IH]; intros v Hall Hs Hcount.
  - cbn [app]. rewrite loop_cons.
    destruct (turn_sample_shown f v final Hfinal) as (shown & H1 & _ & ->).
    rewrite Hdelay. cbv zeta.
    replace (0 <=? status.samples v) with true by (symmetry; now apply Z.leb_le).
    unfold samples_among in Hcount. cbn [filter List.length Z.of_nat] in Hcount.
    rewrite wrap64_small by lia.
    replace (status.samples v + 1 =? status.poll f) with true
      by (symmetry; apply Z.eqb_eq; lia).
    now split.
  - cbn [forallb] in Hall. apply andb_true_iff in Hall as [Hc Hall].
    cbn [app]. rewrite loop_cons.
    destruct (is_sample c) eqn:Hsample.
    + destruct (turn_sample_shown f v c Hsample) as (shown & H1 & _ & ->).
      rewrite Hdelay. cbv zeta.
      replace (0 <=? status.samples v) with true by (symmetry; now apply Z.leb_le).
      unfold samples_among in Hcount |- *. cbn [filter] in Hcount |- *.
      rewrite Hsample in Hcount |- *.
      cbn [List.length] in Hcount |- *. rewrite Nat2Z.inj_succ in Hcount.
      rewrite wrap64_small by lia.
      replace (status.samples v + 1 =? status.poll f) with false
        by (symmetry; apply Z.eqb_neq; lia).
      cbn [fst snd].
      specialize (IH {| status.samples := status.samples v + 1;
                        status.backoff := 5 * status.Second;
                        status.first := false |} Hall).
      cbn [status.samples] in IH.
      unfold samples_among in IH.
      destruct IH as [IH1 IH2]; [lia | lia |].
      split; [exact IH1|].
      rewrite !samples_shown_app, H1, IH2. cbn. reflexivity.
    + cbn [orb] in Hc.
      destruct (turn_retry f v c Hc) as (out & v' & -> & Hv' & _ & Hout & _).
      cbn [fst snd].
      unfold samples_among in Hcount |- *. cbn [filter] in Hcount |- *.
      rewrite Hsample in Hcount |- *.
      specialize (IH v' Hall). rewrite Hv' in IH.
      destruct IH as [IH1 IH2]; [lia | exact Hcount |].
      split; [exact IH1|].
      rewrite samples_shown_app, Hout, IH2. reflexivity.
Qed.

(** X7: With [-delay] set and [-poll] at [n >= 1], the program takes [n]
    samples and leaves the loop at the last: the loop, fed with samples
    and retryable errors of which the samples are [n] and the last outcome
    a sample, breaks there and has shown [n] samples.  Retried calls are
    not counted. *)
Theorem loop_takes_poll_samples (f : status.Flags)
    (calls : list (outcome reflect.Value)) (final : outcome reflect.Value) :
  status.delay f <> 0 ->
  1 <= status.poll f < 2 ^ 63 ->
  forallb (fun c => is_sample c || is_retry c) calls = true ->
  is_sample final = true ->
  Z.of_nat (samples_among (calls ++ [final])) = status.poll f ->
  snd (status.loop f status.init (calls ++ [final])) = status.Break
  /\ Z.of_nat (samples_shown (fst (status.loop f status.init (calls ++ [final]))))
     = status.poll f.
Proof.
  intros Hdelay Hpoll Hall Hfinal Hcount.
  unfold samples_among in Hcount.
  rewrite filter_app, length_app in Hcount. cbn [filter] in Hcount.
  rewrite Hfinal in Hcount. cbn [List.length] in Hcount.
  destruct (loop_counts f final Hdelay (proj2 Hpoll) Hfinal calls status.init Hall)
    as [H1 H2].
  - cbn. lia.
  - unfold samples_among. cbn [status.init status.samples]. lia.
  - split; [exact H1|]. rewrite H2. unfold samples_among. lia.
Qed.

(** X8: Without [-delay] the loop is left at the first sample, whatever
    [-poll] says: after any number of retried calls, the first sample is
    shown and the loop breaks; what would follow is not asked for. *)
Theorem loop_single_sample_without_delay (f : status.Flags) (v : status.Vars)
    (retried rest : list (outcome reflect.Value))
    (call : outcome reflect.Value) :
  status.delay f = 0 ->
  forallb is_retry retried = true ->
  is_sample call = true ->
  snd (status.loop f v (retried ++ call :: rest)) = status.Break
  /\ samples_shown (fst (status.loop f v (retried ++ call :: rest))) = 1%nat.
Proof.
  intros Hdelay Hall Hcall. revert v.
  induction retried as [|c retried IH]; intros v.
  - cbn [app]. rewrite loop_cons.
    destruct (turn_sample_shown f v call Hcall) as (shown & H1 & _ & ->).
    rewrite Hdelay. cbn [Z.eqb]. now split.
  - cbn [forallb] in Hall. apply andb_true_iff in Hall as [Hc Hall].
    cbn [app]. rewrite loop_cons.
    destruct (turn_retry f v c Hc) as (out & v' & -> & _ & _ & Hout & _).
    cbn [fst snd]. destruct (IH Hall v') as [IH1 IH2].
    split; [exact IH1|]. now rewrite samples_shown_app, Hout, IH2.
Qed.

(** The header is printed by a first turn without [debug] and after a
    call that returned no error, and by no other turn. *)
Lemma turn_header (f : status.Flags) (v : status.Vars)
    (call : outcome reflect.Value) :
  In status.LogHeader (fst (status.turn f v call))
  <-> status.debug f = false /\ status.first v = true
      /\ exists x, call = Return x None.
Proof.
  split.
  - destruct call as [x [e|]|p]; cbn [status.turn].
    + destruct e; cbn [fst In]; intros H;
        repeat (destruct H as [H|H]; try discriminate H); contradiction.
    + destruct x as [r|]; destruct (status.debug f), (status.first v);
        try destruct (status.delay f =? 0);
        try destruct (_ =? status.poll f);
        cbn [fst In app]; intros H;
        repeat (destruct H as [H|H]; try discriminate H);
        try contradiction; splits; eauto.
    + cbn [fst In]. contradiction.
  - intros (Hd & Hf & x & ->). cbn [status.turn]. rewrite Hd, Hf.
    destruct x as [r|]; [|now left].
    destruct (status.delay f =? 0); [now left|].
    destruct (_ =? status.poll f); now left.
Qed.

Lemma turn_first (f : status.Flags) (v v' : status.Vars)
    (call : outcome reflect.Value) (out : list status.event) :
  status.turn f v call = (out, status.Again v') -> status.first v' = false.
Proof.
  destruct call as [x [e|]|p]; cbn [status.turn]; [destruct e| |];
    try discriminate.
  - intros H. injection H as _ <-. reflexivity.
  - destruct (if status.debug f then _ else _); [|discriminate].
    destruct (status.delay f =? 0); [discriminate|].
    destruct (_ =? status.poll f); [discriminate|].
    intros H. injection H as _ <-. reflexivity.
Qed.

Lemma loop_no_header (f : status.Flags)
    (calls : list (outcome reflect.Value)) :
  forall v, status.first v = false ->
    ~ In status.LogHeader (fst (status.loop f v calls)).
Proof.
  induction calls as [|c calls IH]; intros v Hv; [intros []|].
  rewrite loop_cons.
  destruct (status.turn f v c) as [out n] eqn:Ht.
  assert (Hout : ~ In status.LogHeader out).
  { intros H. pose proof (proj1 (turn_header f v c)) as Hh. rewrite Ht in Hh.
    destruct (Hh H) as (_ & Hf & _). congruence. }
  destruct n as [v'| | |p]; try exact Hout.
  cbn [fst]. intros H. apply in_app_or in H as [H|H]; [now apply Hout|].
  now apply (IH v' (turn_first _ _ _ _ _ Ht)).
Qed.

(** Over the outcomes of the calls, whatever they are: the header line is
    printed when the first call returns no error and [debug] is not set,
    and in no other case.  [first] is cleared by the post statement of the
    loop also when the first call is retried. *)
Lemma loop_header_outcomes (f : status.Flags)
    (calls : list (outcome reflect.Value)) :
  In status.LogHeader (fst (status.loop f status.init calls))
  <-> status.debug f = false
      /\ exists x rest, calls = Return x None :: rest.
Proof.
  split.
  - destruct calls as [|c calls]; [intros []|].
    rewrite loop_cons.
    destruct (status.turn f status.init c) as [out n] eqn:Ht.
    assert (Hout : In status.LogHeader out ->
                   status.debug f = false
                   /\ exists x rest, c :: calls = Return x None :: rest).
    { intros H. pose proof (proj1 (turn_header f status.init c)) as Hh.
      rewrite Ht in Hh. destruct (Hh H) as (Hd & _ & x & ->). eauto. }
    destruct n as [v'| | |p]; try exact Hout.
    cbn [fst]. intros H. apply in_app_or in H as [H|H]; [now apply Hout|].
    exfalso. now apply (loop_no_header f calls v' (turn_first _ _ _ _ _ Ht)).
  - intros (Hd & x & rest & ->).
    rewrite loop_cons.
    assert (Hin : In status.LogHeader
                    (fst (status.turn f status.init (Return x None))))
      by (apply turn_header; splits; eauto).
    destruct (status.turn f status.init (Return x None)) as [out n].
    cbn [fst] in Hin. destruct n as [v'| | |p]; try exact Hin.
    cbn [fst]. apply in_or_app. now left.
Qed.

Lemma sleeps_app (a b : list status.event) :
  status.sleeps (a ++ b) = status.sleeps a ++ status.sleeps b.
Proof.
  induction a as [|e a IH]; [reflexivity|].
  destruct e; cbn [app status.sleeps]; rewrite IH; reflexivity.
Qed.

(** The turn of a sample, with [-delay] set. *)
Lemma turn_sample_delay (f : status.Flags) (v : status.Vars)
    (call : outcome reflect.Value) :
  is_sample call = true ->
  status.delay f <> 0 ->
  0 <= status.samples v < 2 ^ 63 - 1 ->
  exists shown,
    status.sleeps shown = []
    /\ status.turn f v call
       = if status.samples v + 1 =? status.poll f then (shown, status.Break)
         else (shown ++ [status.Sleep (status.delay f)],
               status.Again {| status.samples := status.samples v + 1;
                               status.backoff := 5 * status.Second;
                               status.first := false |}).
Proof.
  intros Hs Hd Hv. apply Z.eqb_neq in Hd.
  destruct call as [[r|] [e|]|p]; try discriminate Hs.
  cbn [status.turn]. rewrite Hd.
  replace (0 <=? status.samples v) with true by (symmetry; apply Z.leb_le; lia).
  rewrite wrap64_small by lia.
  destruct (status.debug f); [|destruct (status.first v)];
    eexists; (split; [|reflexivity]); reflexivity.
Qed.

(** X9: Between the samples the loop sleeps [-delay], and not after the
    last: fed with samples only, as many as [-poll] asks for, it sleeps
    one time less than it takes samples, each time for the delay. *)
Theorem loop_sleeps_between_samples (f : status.Flags)
    (calls : list (outcome reflect.Value)) :
  status.delay f <> 0 ->
  forallb is_sample calls = true ->
  calls <> [] ->
  Z.of_nat (List.length calls) = status.poll f ->
  status.poll f < 2 ^ 63 ->
  status.sleeps (fst (status.loop f status.init calls))
  = repeat (status.delay f) (List.length calls - 1)
  /\ snd (status.loop f status.init calls) = status.Break.
Proof.
  intros Hd Hall Hne Hlen Hpoll.
  assert (G : forall v,
             0 <= status.samples v ->
             status.samples v + Z.of_nat (List.length calls) = status.poll f ->
             status.sleeps (fst (status.loop f v calls))
             = repeat (status.delay f) (List.length calls - 1)
             /\ snd (status.loop f v calls) = status.Break).
  { clear Hlen. induction calls as [|c calls IH]; [contradiction|].
    intros v Hv Hcount.
    cbn [forallb] in Hall. apply andb_prop in Hall as [Hc Hall].
    cbn [List.length] in Hcount. rewrite Nat2Z.inj_succ in Hcount.
    rewrite loop_cons.
    destruct (turn_sample_delay f v c Hc Hd ltac:(lia)) as (shown & Hsh & ->).
    destruct calls as [|c' calls].
    - cbn [List.length] in Hcount. 
      replace (status.samples v + 1 =? status.poll f) with true
        by (symmetry; apply Z.eqb_eq; lia).
      cbn [fst snd List.length Nat.sub repeat]. now split.
    - replace (status.samples v + 1 =? status.poll f) with false
        by (symmetry; apply Z.eqb_neq; cbn [List.length] in Hcount; lia).
      cbn [fst snd].
      destruct (IH Hall ltac:(discriminate)
                  {| status.samples := status.samples v + 1;
                     status.backoff := 5 * status.Second;
                     status.first := false |}) as [IH1 IH2].
      + cbn [status.samples]. lia.
      + cbn [status.samples]. lia.
      + split; [|exact IH2].
        rewrite !sleeps_app, Hsh, IH1. cbn [status.sleeps app].
        cbn [List.length Nat.sub]. rewrite Nat.sub_0_r. reflexivity. }
  apply G; [cbn; lia | cbn [status.init status.samples]; lia].
Qed.

(** X11: No ceiling is put on the backoff: retry number [i] (from 0) of an
    unbroken run of retried calls waits [5s * 2 ^ (i + 1)] as an [int64].
    The first thirty waits are that product; the next wraps around to a
    negative duration, which [time.Sleep] does not wait for, and from
    retry 54 on the wait is zero. *)
Theorem backoff_doubles_without_ceiling (f : status.Flags) (k i : nat) :
  (i < k)%nat ->
  let wait :=
    nth i (status.sleeps (fst (status.loop f status.init (repeat sample.retry k))))
        0 in
  wait = status.wrap64 (5 * status.Second * 2 ^ (Z.of_nat i + 1))
  /\ ((i < 30)%nat -> wait = 5 * status.Second * 2 ^ (Z.of_nat i + 1))
  /\ (i = 30%nat -> wait < 0)
  /\ ((54 <= i)%nat -> wait = 0).
Proof.
  intros Hi wait.
  assert (Hw : wait = status.wrap64 (5 * status.Second * 2 ^ (Z.of_nat i + 1))).
  { unfold wait. rewrite loop_retries. now apply waits_nth. }
  splits; [exact Hw| | |].
  - intros H30. rewrite Hw. apply wrap64_small.
    assert (H1 : 0 < 2 ^ (Z.of_nat i + 1)) by (apply Z.pow_pos_nonneg; lia).
    assert (H2 : 2 ^ (Z.of_nat i + 1) <= 2 ^ 30)
      by (apply Z.pow_le_mono_r; lia).
    change (2 ^ 30) with 1073741824 in H2.
    unfold status.Second. change (2 ^ 63) with 9223372036854775808. lia.
  - intros ->. rewrite Hw. vm_compute. reflexivity.
  - intros H54. rewrite Hw. unfold status.wrap64, status.Second.
    replace (Z.of_nat i + 1) with (55 + (Z.of_nat i - 54)) by lia.
    rewrite Z.pow_add_r by lia.
    replace (5 * 1000000000 * (2 ^ 55 * 2 ^ (Z.of_nat i - 54)) + 2 ^ 63)
      with (2 ^ 63 + (9765625 * 2 ^ (Z.of_nat i - 54)) * 2 ^ 64).
    + rewrite Z.mod_add by discriminate. reflexivity.
    + change (2 ^ 55) with 36028797018963968.
      change (2 ^ 64) with 18446744073709551616. lia.
Qed.

(** X12: With [-delay] set and [-poll] at zero or below, the loop is never
    left at a sample: fed with samples and retryable errors only, it asks
    for the next call every time.  (The count stops at the least
    [int64] when it overflows, which [-poll] is taken not to be.) *)
Theorem loop_polls_without_end (f : status.Flags)
    (calls : list (outcome reflect.Value)) :
  status.delay f <> 0 ->
  - 2 ^ 63 < status.poll f <= 0 ->
  forallb (fun c => is_sample c || is_retry c) calls = true ->
  exists v, snd (status.loop f status.init calls) = status.Again v.
Proof.
  intros Hdelay Hpoll. apply Z.eqb_neq in Hdelay.
  assert (G : forall v,
             0 <= status.samples v < 2 ^ 63 \/ status.samples v = - 2 ^ 63 ->
             forallb (fun c => is_sample c || is_retry c) calls = true ->
             exists v', snd (status.loop f v calls) = status.Again v').
  { induction calls as [|c calls IH]; intros v Hv Hall.
    - exists v. reflexivity.
    - cbn [forallb] in Hall. apply andb_true_iff in Hall as [Hc Hall].
      rewrite loop_cons.
      destruct (is_sample c) eqn:Hsample.
      + destruct (turn_sample_shown f v c Hsample) as (shown & _ & _ & ->).
        rewrite Hdelay. cbv zeta.
        set (s' := if 0 <=? status.samples v
                   then status.wrap64 (status.samples v + 1)
                   else status.samples v).
        assert (Hs' : 1 <= s' < 2 ^ 63 \/ s' = - 2 ^ 63).
        { unfold s'. destruct (0 <=? status.samples v) eqn:E.
          - apply Z.leb_le in E.
            destruct (Z.eq_dec (status.samples v) (2 ^ 63 - 1)) as [->|Hne].
            + right. vm_compute. reflexivity.
            + left. rewrite wrap64_small by lia. lia.
          - apply Z.leb_gt in E. right. lia. }
        replace (s' =? status.poll f) with false
          by (symmetry; apply Z.eqb_neq; lia).
        cbn [snd]. apply IH; [cbn [status.samples]; lia | exact Hall].
      + cbn [orb] in Hc.
        destruct (turn_retry f v c Hc) as (out & v' & -> & Hv' & _).
        cbn [snd]. apply IH; [rewrite Hv'; exact Hv | exact Hall]. }
  apply G. left. cbn. lia.
Qed.

(** A turn crashes on a call that panicked, or when it reads the fields of
    a record that is not there. *)
Lemma turn_crash (f : status.Flags) (v : status.Vars)
    (call : outcome reflect.Value) (out : list status.event) (p : panic) :
  status.turn f v call = (out, status.Crash p) ->
  call = Panics p \/ call = Return None None.
Proof.
  destruct call as [x [e|]|q]; cbn [status.turn].
  - destruct e; discriminate.
  - destruct x as [r|]; [|now right].
    destruct (status.debug f);
      destruct (status.delay f =? 0); try discriminate;
      destruct (_ =? status.poll f); discriminate.
  - intros H. injection H as _ <-. now left.
Qed.

Section LoopOnStatus.

Variable userAgent : bytes.
Variable isPrintTables : Z -> bool.
Variable url_Parse_ok : bytes -> bool.

Local Abbreviation Status := (benwh.Status userAgent isPrintTables url_Parse_ok).

Lemma Status_some_or_error (conn : Conn) (w : World) :
  Status conn w <> Return None None.
Proof.
  intros H.
  destruct (Status_cases userAgent isPrintTables url_Parse_ok conn w)
    as [[_ E]|[(q & _ & _ & E)|[(q & e & _ & _ & _ & E)|[(q & e & _ & _ & _ & E)
        |(d & _ & E)]]]]; rewrite E in H; try discriminate H.
  destruct (Status_validate_cases isPrintTables d)
    as [[_ V]|[(_ & _ & V)|[(_ & got & want & V)|[_ V]]]];
    rewrite V in H; discriminate H.
Qed.

(** X6: The loop of [main] reads the fields of [resp] without a test for nil,
    and is right to: run on the calls of [Status] in a row of worlds, it
    crashes only where a call of [Status] itself panicked. *)
Theorem loop_crash_is_Status_panic (f : status.Flags) (conn : Conn)
    (ws : list World) :
  forall (v : status.Vars) (out : list status.event) (p : panic),
    status.loop f v (map (Status conn) ws) = (out, status.Crash p) ->
    exists w, In w ws /\ Status conn w = Panics p.
Proof.
  induction ws as [|w ws IH]; intros v out p H; [discriminate H|].
  cbn [map] in H. rewrite loop_cons in H.
  destruct (status.turn f v (Status conn w)) as [o n] eqn:Ht.
  destruct n as [v'| | |q]; try discriminate H.
  - injection H as _ H.
    destruct (status.loop f v' (map (Status conn) ws)) as [o' n'] eqn:Hl.
    cbn [snd] in H. subst n'.
    destruct (IH _ _ _ Hl) as (w' & Hin & Hp).
    exists w'. split; [now right | exact Hp].
  - injection H as _ <-.
    destruct (turn_crash _ _ _ _ _ Ht) as [Hp|Hn].
    + exists w. split; [now left | exact Hp].
    + now apply Status_some_or_error in Hn.
Qed.

(** X10: Run on the calls of [Status] in a row of worlds, the loop prints
    the header line when the first call gives a sample and [debug] is not
    set, and in no other case: [first] is cleared by the post statement of
    the loop also when the first call is retried, so that samples that
    come after a retried first call stand under no header. *)
Theorem loop_header_iff_first_call_samples (f : status.Flags) (conn : Conn)
    (ws : list World) :
  In status.LogHeader
     (fst (status.loop f status.init (map (Status conn) ws)))
  <-> status.debug f = false
      /\ exists w rest, ws = w :: rest /\ is_sample (Status conn w) = true.
Proof.
  rewrite loop_header_outcomes. split.
  - intros (Hd & x & rest & Heq). split; [exact Hd|].
    destruct ws as [|w ws']; [discriminate Heq|].
    cbn [map] in Heq. injection Heq as Hw _.
    exists w, ws'. split; [reflexivity|]. rewrite Hw.
    destruct x as [r|]; [reflexivity|].
    now apply Status_some_or_error in Hw.
  - intros (Hd & w & rest & -> & Hs). split; [exact Hd|].
    cbn [map]. destruct (Status conn w) as [[r|] [e|]|p]; try discriminate Hs.
    eauto.
Qed.

End LoopOnStatus.

(** ** The libraries of [createConfig] *)

Lemma beqb_true (a b : bytes) : beqb a b = true <-> a = b.
Proof.
  unfold beqb. destruct (list_eq_dec ascii_dec a b); split; congruence.
Qed.

Lemma Split_not_nil (s : bytes) (sep : ascii) : strings.Split s sep <> [].
Proof.
  destruct s as [|c s]; cbn [strings.Split]; [discriminate|].
  destruct (Ascii.eqb c sep); [discriminate|].
  destruct (strings.Split s sep); discriminate.
Qed.

(** The first piece is empty for the empty string and for one that
    begins with the separator, and for no other. *)
Lemma Split_first (s : bytes) (sep : ascii) :
  match strings.Split s sep with
  | [] => true
  | first :: _ => beqb first []
  end
  = match s with
    | [] => true
    | c :: _ => Ascii.eqb c sep
    end.
Proof.
  destruct s as [|c s]; cbn [strings.Split]; [reflexivity|].
  destruct (Ascii.eqb c sep); [reflexivity|].
  destruct (strings.Split s sep); reflexivity.
Qed.

Lemma Join_Split (s : bytes) (sep : ascii) :
  strings.Join (strings.Split s sep) [sep] = s.
Proof.
  induction s as [|c s IH]; [reflexivity|].
  cbn [strings.Split].
  destruct (Ascii.eqb c sep) eqn:E.
  - apply Ascii.eqb_eq in E. subst c.
    pose proof (Split_not_nil s sep) as Hne.
    destruct (strings.Split s sep) as [|p ps]; [contradiction|].
    cbn [strings.Join flat_map app] in *. now rewrite IH.
  - pose proof (Split_not_nil s sep) as Hne.
    destruct (strings.Split s sep) as [|p ps]; [contradiction|].
    cbn [strings.Join app] in *. now rewrite IH.
Qed.

Lemma Split_pieces (s : bytes) (sep : ascii) :
  Forall (fun piece => ~ In sep piece) (strings.Split s sep).
Proof.
  induction s as [|c s IH]; cbn [strings.Split].
  - constructor; [intros []|constructor].
  - destruct (Ascii.eqb c sep) eqn:E.
    + constructor; [intros []|exact IH].
    + apply Ascii.eqb_neq in E.
      destruct (strings.Split s sep) as [|p ps].
      * constructor; [|constructor]. intros [H|[]]. congruence.
      * inversion IH as [|? ? Hp Hps]; subst.
        constructor; [|exact Hps].
        intros [H|H]; [congruence | now apply Hp].
Qed.

Lemma Split_app (d rest : bytes) (sep : ascii) :
  ~ In sep d ->
  strings.Split (d ++ sep :: rest) sep = d :: strings.Split rest sep.
Proof.
  induction d as [|c d IH]; intros Hd.
  - cbn [app strings.Split]. now rewrite Ascii.eqb_refl.
  - cbn [app strings.Split].
    assert (Hc : Ascii.eqb c sep = false).
    { apply Ascii.eqb_neq. intros ->. apply Hd. now left. }
    rewrite Hc, IH; [reflexivity|]. intros H. apply Hd. now right.
Qed.

Lemma trimLeft_head (s cutset : bytes) (c : ascii) :
  hd_error (strings.trimLeftASCII s cutset) = Some c ->
  strings.contains cutset c = false.
Proof.
  induction s as [|x s IH]; cbn [strings.trimLeftASCII]; [discriminate|].
  destruct (strings.contains cutset x) eqn:E; [exact IH|].
  cbn [hd_error]. intros H. injection H as <-. exact E.
Qed.

Lemma trimLeft_suffix (s cutset : bytes) :
  exists cut, s = cut ++ strings.trimLeftASCII s cutset
              /\ forallb (strings.contains cutset) cut = true.
Proof.
  induction s as [|x s (cut & IH1 & IH2)]; cbn [strings.trimLeftASCII].
  - exists []. now split.
  - destruct (strings.contains cutset x) eqn:E.
    + exists (x :: cut). cbn [app forallb]. rewrite E, IH2. split; [|reflexivity].
      now rewrite <- IH1.
    + exists []. now split.
Qed.

(** What [strings.Trim] keeps is a stretch of the string with nothing of
    the cutset at either end; what it cuts is of the cutset. *)
Lemma Trim_spec (s cutset : bytes) :
  (exists l r, s = l ++ strings.Trim s cutset ++ r
               /\ forallb (strings.contains cutset) l = true
               /\ forallb (strings.contains cutset) r = true)
  /\ (forall c, hd_error (strings.Trim s cutset) = Some c ->
                strings.contains cutset c = false)
  /\ (forall c, hd_error (rev (strings.Trim s cutset)) = Some c ->
                strings.contains cutset c = false).
Proof.
  unfold strings.Trim, strings.trimRightASCII.
  destruct (trimLeft_suffix (rev s) cutset) as (r & Hr1 & Hr2).
  set (m := strings.trimLeftASCII (rev s) cutset) in *.
  destruct (trimLeft_suffix (rev m) cutset) as (l & Hl1 & Hl2).
  set (t := strings.trimLeftASCII (rev m) cutset) in *.
  assert (Hs : s = l ++ t ++ rev r).
  { rewrite <- (rev_involutive s), Hr1, rev_app_distr, Hl1.
    now rewrite <- app_assoc. }
  splits.
  - exists l, (rev r). splits; [exact Hs | exact Hl2 |].
    rewrite forallb_forall in Hr2 |- *. intros x Hx. apply Hr2.
    now apply in_rev.
  - intros c. apply trimLeft_head.
  - intros c Hc.
    destruct (rev t) as [|y ry] eqn:Ht; [discriminate Hc|].
    cbn [hd_error] in Hc. injection Hc as ->.
    assert (Hm : m = rev (rev m)) by now rewrite rev_involutive.
    rewrite Hl1, rev_app_distr, Ht in Hm. cbn [app] in Hm.
    apply (trimLeft_head (rev s) cutset c). fold m. rewrite Hm. reflexivity.
Qed.

(** The trim of a line that ends in a character of the cutset. *)
Lemma Trim_line (body cutset : bytes) (c : ascii) :
  strings.contains cutset c = true ->
  exists l r,
    body = l ++ strings.Trim (body ++ [c]) cutset ++ r
    /\ forallb (strings.contains cutset) l = true
    /\ forallb (strings.contains cutset) r = true.
Proof.
  intros Hc.
  destruct (Trim_spec (body ++ [c]) cutset)
    as ((l & r & Hlr & Hl & Hr) & _ & Ht).
  set (t := strings.Trim (body ++ [c]) cutset) in *.
  induction r as [|y r0 _] using rev_ind.
  - rewrite app_nil_r in Hlr.
    induction t as [|z t0 _] using rev_ind.
    + rewrite app_nil_r in Hlr. exists body, []. rewrite !app_nil_r.
      splits; [reflexivity| |reflexivity].
      rewrite <- Hlr, forallb_app in Hl. now apply andb_true_iff in Hl.
    + exfalso. rewrite app_assoc in Hlr. apply app_inj_tail in Hlr as [_ <-].
      specialize (Ht c). rewrite rev_app_distr in Ht. cbn in Ht.
      rewrite Ht in Hc; [discriminate Hc | reflexivity].
  - rewrite !app_assoc in Hlr. apply app_inj_tail in Hlr as [Hlr _].
    exists l, r0. rewrite app_assoc. splits; [exact Hlr | exact Hl |].
    rewrite forallb_app in Hr. now apply andb_true_iff in Hr.
Qed.

(** [until] cuts the stream behind the first delimiter. *)
Lemma until_spec (delim : ascii) (s line rest : bytes) :
  bufio.until delim s = Some (line, rest) ->
  exists body, line = body ++ [delim] /\ ~ In delim body /\ s = line ++ rest.
Proof.
  revert line rest. induction s as [|c s IH]; intros line rest;
    cbn [bufio.until]; [discriminate|].
  destruct (Ascii.eqb c delim) eqn:E.
  - apply Ascii.eqb_eq in E. subst c. intros H. injection H as <- <-.
    exists []. splits; [reflexivity | intros [] | reflexivity].
  - apply Ascii.eqb_neq in E.
    destruct (bufio.until delim s) as [[l r]|]; [|discriminate].
    intros H. injection H as <- <-.
    destruct (IH l r eq_refl) as (body & -> & Hb & ->).
    exists (c :: body). splits; [reflexivity| |reflexivity].
    intros [H|H]; [congruence | now apply Hb].
Qed.

(** The test suite of RFC 1321, and messages that end at the edges of a
    block. *)
Example md5_test_suite :
  hex.EncodeToString (md5.Sum []) = str "d41d8cd98f00b204e9800998ecf8427e"
  /\ hex.EncodeToString (md5.Sum (str "a"))
     = str "0cc175b9c0f1b6a831c399e269772661"
  /\ hex.EncodeToString (md5.Sum (str "abc"))
     = str "900150983cd24fb0d6963f7d28e17f72"
  /\ hex.EncodeToString (md5.Sum (str "message digest"))
     = str "f96b697d7cb7938d525a2f31aaf161d0"
  /\ hex.EncodeToString (md5.Sum (str "abcdefghijklmnopqrstuvwxyz"))
     = str "c3fcd3d76192e4007dfb496cca67e13b"
  /\ hex.EncodeToString (md5.Sum (repeat "a"%char 55))
     = str "ef1772b6dff9a122358552954ad0df65"
  /\ hex.EncodeToString (md5.Sum (repeat "a"%char 56))
     = str "3b0c8ac703f828b04c6c197006d17218"
  /\ hex.EncodeToString (md5.Sum (repeat "a"%char 64))
     = str "014842d480b571495a4a0363793f7367"
  /\ hex.EncodeToString (md5.Sum (repeat "a"%char 130))
     = str "e016e4ccc7fdaea56fc377600b58c4cb".
Proof. vm_compute. splits; reflexivity. Qed.

Lemma md5_Sum_length (data : bytes) : List.length (md5.Sum data) = 16%nat.
Proof.
  unfold md5.Sum.
  destruct (md5.blocks _ md5.init _) as [[[a b] c] d].
  reflexivity.
Qed.

Lemma lowerhex_digit (d : Z) :
  0 <= d < 16 -> In (digit_of lowerhex d) lowerhex.
Proof.
  intros H.
  assert (E : d = 0 \/ d = 1 \/ d = 2 \/ d = 3 \/ d = 4 \/ d = 5 \/ d = 6
              \/ d = 7 \/ d = 8 \/ d = 9 \/ d = 10 \/ d = 11 \/ d = 12
              \/ d = 13 \/ d = 14 \/ d = 15) by lia.
  repeat (destruct E as [->|E]; [vm_compute; auto 20|]).
  subst d. vm_compute. auto 20.
Qed.

Lemma code_range (c : ascii) : 0 <= code c < 256.
Proof.
  unfold code. pose proof (N_ascii_bounded c). lia.
Qed.

Lemma EncodeToString_shape (src : bytes) :
  List.length (hex.EncodeToString src) = (2 * List.length src)%nat
  /\ Forall (fun c => In c lowerhex) (hex.EncodeToString src).
Proof.
  induction src as [|v src [IH1 IH2]]; [split; [reflexivity|constructor]|].
  unfold hex.EncodeToString in *. cbn [flat_map app List.length].
  pose proof (code_range v) as Hv.
  split; [rewrite IH1; lia|].
  constructor; [|constructor; [|exact IH2]]; apply lowerhex_digit.
  - split; [apply Z.div_pos; lia | apply Z.div_lt_upper_bound; lia].
  - apply Z.mod_pos_bound; lia.
Qed.

(** ** [createConfig] *)

(** Whether [createConfig] asks for the device: the [devices] flag is
    empty or begins with a comma. *)
Lemma asks_device (a : program.Args) :
  match strings.Split (program.devices a) ","%char with
  | [] => true
  | first :: _ => beqb first []
  end = true
  <-> program.devices a = []
      \/ exists rest, program.devices a = ","%char :: rest.
Proof.
  rewrite Split_first.
  destruct (program.devices a) as [|c rest].
  - split; [now left | reflexivity].
  - split.
    + intros E. apply Ascii.eqb_eq in E. subst c. right. eauto.
    + intros [H|(r & H)]; [discriminate H|].
      injection H as -> _. reflexivity.
Qed.

(** A successful [createConfig], taken apart. *)
Lemma createConfig_ok (a : program.Args) (h : program.Host)
    (out : list program.effect) (conf : Config) :
  program.createConfig a h = (out, (conf, None)) ->
  exists pass rest,
    program.term_ReadPassword h = (pass, None)
    /\ Password conf = hex.EncodeToString (md5.Sum pass)
    /\ ((program.email a <> [] /\ Email conf = program.email a
         /\ rest = bufio.pending (program.stdin h)
         /\ ~ In (program.Print (str "Email: ")) out)
        \/ (program.email a = []
            /\ In (program.Print (str "Email: ")) out
            /\ exists line,
                 bufio.until program.newline (bufio.pending (program.stdin h))
                 = Some (line, rest)
                 /\ Email conf = strings.Trim line program.cutset))
    /\ ((exists c s, program.devices a = c :: s /\ c <> ","%char
                     /\ Device conf = strings.Split (program.devices a) ","%char
                     /\ ~ In (program.Print (str "Side Device ID: ")) out)
        \/ ((program.devices a = []
             \/ exists s, program.devices a = ","%char :: s)
            /\ In (program.Print (str "Side Device ID: ")) out
            /\ exists dev rest',
                 bufio.until program.newline rest = Some (dev, rest')
                 /\ Device conf = [strings.Trim dev program.cutset])).
Proof.
  unfold program.createConfig, bufio.ReadString.
  destruct (program.term_ReadPassword h) as [pass e3] eqn:Hpass.
  pose proof (asks_device a) as Hask.
  destruct (match strings.Split (program.devices a) ","%char with
            | [] => true | first :: _ => beqb first [] end) eqn:Hd.
  - (* the device is asked for *)
    assert (Hflag : program.devices a = []
                    \/ exists s, program.devices a = ","%char :: s)
      by now apply Hask.
    destruct (beqb (program.email a) []) eqn:He.
    + apply beqb_true in He.
      destruct (bufio.until program.newline (bufio.pending (program.stdin h)))
        as [[line rest]|] eqn:H1; [|discriminate].
      cbn [bufio.pending].
      destruct (bufio.until program.newline rest) as [[dev rest']|] eqn:H2;
        [|discriminate].
      destruct e3; [discriminate|].
      intros H. injection H as <- <-. cbn [Email Device Password app].
      exists pass, rest. splits; try reflexivity.
      * right. splits; [exact He | now left | eauto].
      * right. splits; [exact Hflag | right; now left | eauto].
    + assert (Hne : program.email a <> [])
        by (intros E; apply beqb_true in E; congruence).
      destruct (bufio.until program.newline (bufio.pending (program.stdin h)))
        as [[dev rest']|] eqn:H2; [|discriminate].
      destruct e3; [discriminate|].
      intros H. injection H as <- <-. cbn [Email Device Password app].
      exists pass, (bufio.pending (program.stdin h)). splits; try reflexivity.
      * left. splits; try reflexivity; [exact Hne|].
        cbn [In]. intros [H|[H|[]]]; discriminate H.
      * right. splits; [exact Hflag | now left | eauto].
  - (* the device list of the flag is taken *)
    assert (Hflag : exists c s, program.devices a = c :: s /\ c <> ","%char).
    { destruct (program.devices a) as [|c s] eqn:Hdev.
      - destruct Hask as [_ Hask]. discriminate Hask. now left.
      - exists c, s. split; [reflexivity|]. intros ->.
        destruct Hask as [_ Hask]. discriminate Hask. right. eauto. }
    destruct Hflag as (c & s & Hdev & Hc).
    destruct (beqb (program.email a) []) eqn:He.
    + apply beqb_true in He.
      destruct (bufio.until program.newline (bufio.pending (program.stdin h)))
        as [[line rest]|] eqn:H1; [|discriminate].
      destruct e3; [discriminate|].
      intros H. injection H as <- <-. cbn [Email Device Password app].
      exists pass, rest. splits; try reflexivity.
      * right. splits; [exact He | now left | eauto].
      * left. exists c, s. splits; try reflexivity; [exact Hdev | exact Hc|].
        cbn [In]. intros [H|[H|[]]]; discriminate H.
    + assert (Hne : program.email a <> [])
        by (intros E; apply beqb_true in E; congruence).
      destruct e3; [discriminate|].
      intros H. injection H as <- <-. cbn [Email Device Password app].
      exists pass, (bufio.pending (program.stdin h)). splits; try reflexivity.
      * left. splits; try reflexivity; [exact Hne|].
        cbn [In]. intros [H|[]]; discriminate H.
      * left. exists c, s. splits; try reflexivity; [exact Hdev | exact Hc|].
        cbn [In]. intros [H|[]]; discriminate H.
Qed.

(** X13: The password that [createConfig] stores is the MD5 checksum of
    what [term.ReadPassword] gave, untrimmed, written in hexadecimal:
    whatever was typed, 32 characters of [0123456789abcdef]. *)
Theorem createConfig_password_md5_hex (a : program.Args) (h : program.Host)
    (out : list program.effect) (conf : Config) :
  program.createConfig a h = (out, (conf, None)) ->
  Password conf
  = hex.EncodeToString (md5.Sum (fst (program.term_ReadPassword h)))
  /\ List.length (Password conf) = 32%nat
  /\ Forall (fun c => In c lowerhex) (Password conf).
Proof.
  intros H.
  destruct (createConfig_ok a h out conf H) as (pass & rest & Hp & -> & _).
  rewrite Hp. cbn [fst].
  destruct (EncodeToString_shape (md5.Sum pass)) as [Hl Hf].
  rewrite md5_Sum_length in Hl. now splits.
Qed.

(** X14: The device list of a configuration that [createConfig] made.  A
    [devices] flag that begins with a device is taken as it is: the list
    joined by commas is the flag, no piece holds a comma, and no device is
    asked for.  When the flag is empty or begins with a comma, the device
    is asked for and the list is one device: the next line of the standard
    input (the first line when the [email] flag is set, the line after the
    account otherwise), trimmed; whatever else the flag names is dropped.
    Either way the list is not empty. *)
Theorem createConfig_device_list (a : program.Args) (h : program.Host)
    (out : list program.effect) (conf : Config) :
  program.createConfig a h = (out, (conf, None)) ->
  Device conf <> []
  /\ (forall c s, program.devices a = c :: s -> c <> ","%char ->
        strings.Join (Device conf) (str ",") = program.devices a
        /\ Forall (fun d => ~ In ","%char d) (Device conf)
        /\ ~ In (program.Print (str "Side Device ID: ")) out)
  /\ (program.devices a = [] \/ (exists s, program.devices a = ","%char :: s) ->
        In (program.Print (str "Side Device ID: ")) out
        /\ exists rest dev after,
             (program.email a <> [] ->
              rest = bufio.pending (program.stdin h))
             /\ (program.email a = [] ->
                 exists line,
                   bufio.until program.newline
                     (bufio.pending (program.stdin h))
                   = Some (line, rest))
             /\ bufio.until program.newline rest = Some (dev, after)
             /\ Device conf = [strings.Trim dev program.cutset]).
Proof.
  intros H.
  destruct (createConfig_ok a h out conf H)
    as (pass & rest & _ & _ & Hemail
        & [(c & s & Hdev & Hc & HD & Hout)
          |(Hflag & Hout & dev & rest' & Hline & HD)]).
  - splits.
    + rewrite HD. apply Split_not_nil.
    + intros _ _ _ _. rewrite HD. splits; [apply Join_Split | apply Split_pieces
                                          | exact Hout].
    + intros [E|(s' & E)]; rewrite E in Hdev; [discriminate Hdev|].
      injection Hdev as <- _. contradiction.
  - splits.
    + rewrite HD. discriminate.
    + intros c s E Hc. exfalso.
      destruct Hflag as [E'|(s' & E')]; rewrite E' in E; [discriminate E|].
      injection E as <- _. contradiction.
    + intros _. split; [exact Hout|].
      exists rest, dev, rest'. splits; [| |exact Hline|exact HD].
      * intros Hne.
        destruct Hemail as [(_ & _ & Hrest & _)|(He & _)];
          [exact Hrest | contradiction].
      * intros He.
        destruct Hemail as [(Hne & _)|(_ & _ & line & Hl & _)];
          [contradiction | eauto].
Qed.

(** X15: The account name of a configuration that [createConfig] made.  An
    [email] flag is taken as it is and nothing is asked.  Without the
    flag the name is the first line of the standard input without the
    spaces, newlines and carriage returns at its two ends: it holds no
    newline, and neither begins nor ends with a character of the cutset. *)
Theorem createConfig_email (a : program.Args) (h : program.Host)
    (out : list program.effect) (conf : Config) :
  program.createConfig a h = (out, (conf, None)) ->
  (program.email a <> [] ->
     Email conf = program.email a
     /\ ~ In (program.Print (str "Email: ")) out)
  /\ (program.email a = [] ->
        In (program.Print (str "Email: ")) out
        /\ ~ In program.newline (Email conf)
        /\ (forall c, hd_error (Email conf) = Some c ->
                      strings.contains program.cutset c = false)
        /\ (forall c, hd_error (rev (Email conf)) = Some c ->
                      strings.contains program.cutset c = false)
        /\ exists l r after,
             bufio.pending (program.stdin h)
             = l ++ Email conf ++ r ++ program.newline :: after
             /\ forallb (strings.contains program.cutset) l = true
             /\ forallb (strings.contains program.cutset) r = true).
Proof.
  intros H.
  destruct (createConfig_ok a h out conf H)
    as (pass & rest & _ & _ & [(Hne & HE & _ & Hout)
                              |(He & Hout & line & Hline & HE)] & _).
  - split; [intros _; now split | intros E; contradiction].
  - split; [intros Hne; contradiction | intros _].
    destruct (until_spec _ _ _ _ Hline) as (body & -> & Hnl & Hs).
    destruct (Trim_spec (body ++ [program.newline]) program.cutset)
      as (_ & Hh & Ht).
    destruct (Trim_line body program.cutset program.newline eq_refl)
      as (l & r & Hb & Hl & Hr).
    rewrite <- HE in Hh, Ht, Hb.
    splits; [exact Hout| |exact Hh|exact Ht|].
    + intros Hin. apply Hnl. rewrite Hb.
      apply in_or_app. right. apply in_or_app. now left.
    + exists l, r, rest. splits; [|exact Hl|exact Hr].
      rewrite Hs. rewrite Hb at 1. now rewrite <- !app_assoc.
Qed.

Lemma until_count (delim : ascii) (s : bytes) :
  match bufio.until delim s with
  | Some (_, rest) =>
      count_occ ascii_dec s delim = S (count_occ ascii_dec rest delim)
  | None => count_occ ascii_dec s delim = 0%nat
  end.
Proof.
  induction s as [|c s IH]; cbn [bufio.until count_occ]; [reflexivity|].
  destruct (Ascii.eqb c delim) eqn:E.
  - apply Ascii.eqb_eq in E. subst c.
    destruct (ascii_dec delim delim); [reflexivity | contradiction].
  - apply Ascii.eqb_neq in E.
    destruct (ascii_dec c delim); [contradiction|].
    destruct (bufio.until delim s) as [[l r]|]; exact IH.
Qed.

Ltac settle_iff :=
  split;
  [ let H := fresh in
    intros H;
    first [ discriminate H
          | split; [cbn; lia | reflexivity] ]
  | let H1 := fresh in
    let H2 := fresh in
    intros [H1 H2];
    first [ reflexivity | discriminate H2 | exfalso; cbn in H1; lia ] ].

(** X16: [createConfig] succeeds exactly when the standard input holds a line,
    ended by a newline, for every question put to it, and the password
    could be read: a last line that the input ends without a newline is
    an error, though its text was read. *)
Theorem createConfig_succeeds_iff (a : program.Args) (h : program.Host) :
  snd (snd (program.createConfig a h)) = None
  <-> (questions a <= lines (program.stdin h))%nat
      /\ snd (program.term_ReadPassword h) = None.
Proof.
  unfold program.createConfig, bufio.ReadString, questions, lines.
  rewrite Split_first.
  destruct (program.term_ReadPassword h) as [pass e3].
  pose proof (until_count program.newline (bufio.pending (program.stdin h)))
    as C1.
  destruct (beqb (program.email a) []).
  - destruct (bufio.until program.newline (bufio.pending (program.stdin h)))
      as [[line rest]|].
    + cbn [bufio.pending].
      pose proof (until_count program.newline rest) as C2.
      destruct (program.devices a) as [|c s]; [|destruct (Ascii.eqb c ",")].
      1, 2: destruct (bufio.until program.newline rest) as [[dev rest']|];
        destruct e3; cbn [snd]; rewrite C1, ?C2; settle_iff.
      destruct e3; cbn [snd]; rewrite C1; settle_iff.
    + destruct (program.devices a) as [|c s]; [|destruct (Ascii.eqb c ",")];
        cbn [snd]; rewrite C1; settle_iff.
  - destruct (program.devices a) as [|c s]; [|destruct (Ascii.eqb c ",")].
    1, 2: destruct (bufio.until program.newline (bufio.pending (program.stdin h)))
        as [[dev rest']|];
      destruct e3; cbn [snd]; rewrite C1; settle_iff.
    destruct e3; cbn [snd]; settle_iff.
Qed.

(** ** [main] up to the loop *)

(** [NewConn] returns a connection that holds the configuration, or an
    error, and does not panic. *)
Lemma NewConn_cases (userAgent : bytes) (conf : Config) (w : World) :
  (exists conn, NewConn userAgent conf w = Return (Some conn) None
                /\ config conn = conf)
  \/ (exists e, NewConn userAgent conf w = Return None (Some e)).
Proof.
  unfold NewConn.
  destruct (client_PostForm w _ _); [right; eauto | right; eauto |].
  destruct (json.Unmarshal _ _ _) as [resp [e|]]; [right; eauto|].
  left. eexists. split; reflexivity.
Qed.

Section Setup.

Variable userAgent : bytes.
Variable isPrintTables : Z -> bool.
Variable url_Parse_ok : bytes -> bool.

Local Abbreviation Status := (benwh.Status userAgent isPrintTables url_Parse_ok).
Local Abbreviation setup := (program.setup userAgent).
Local Abbreviation main := (program.main userAgent isPrintTables url_Parse_ok).

(** The setup that reaches the loop, taken apart. *)
Lemma setup_polls (a : program.Args) (h : program.Host) (w : World)
    (out : list program.effect) (conf : Config) (conn : option Conn) :
  setup a h w = (out, program.Polls conf conn) ->
  (exists c, conn = Some c /\ config c = conf
             /\ NewConn userAgent conf w = Return (Some c) None)
  /\ (program.newLogin a = true ->
      exists asked,
        program.createConfig a h = (asked, (conf, None))
        /\ out = asked
                 ++ [program.WriteFile (program.config a)
                       (json.Marshal (program.value_of conf) program.ConfigType)
                       384]
        /\ program.os_WriteFile h (program.config a)
             (json.Marshal (program.value_of conf) program.ConfigType) 384
           = None)
  /\ (program.newLogin a = false ->
      out = []
      /\ exists d v,
           program.os_ReadFile h (program.config a) = (d, None)
           /\ json.Unmarshal d program.ConfigType
                (reflect.zero program.ConfigType) = (v, None)
           /\ conf = program.Config_of v).
Proof.
  unfold program.setup.
  destruct (program.newLogin a).
  - destruct (program.createConfig a h) as [asked [cf [e|]]] eqn:Hc;
      cbn [option_map]; [discriminate|].
    destruct (NewConn_cases userAgent cf w) as [(c & HN & Hcf)|(e & HN)];
      rewrite HN; [|discriminate].
    destruct (program.os_WriteFile h _ _ _) eqn:Hw; [discriminate|].
    intros H. injection H as <- <- <-.
    splits; [eauto | | discriminate].
    intros _. exists asked. now splits.
  - destruct (program.os_ReadFile h (program.config a)) as [d [e|]] eqn:Hr;
      [discriminate|].
    destruct (json.Unmarshal d _ _) as [v [e|]] eqn:Hu;
      cbn [option_map]; [discriminate|].
    destruct (NewConn_cases userAgent (program.Config_of v) w)
      as [(c & HN & Hcf)|(e & HN)]; rewrite HN; [|discriminate].
    intros H. injection H as <- <- <-.
    splits; [eauto | discriminate |].
    intros _. split; [reflexivity | eauto].
Qed.

(** X17: A connection that [main] opened after [-newlogin] has a device: no
    call of [Status] on it panics on the device index, whatever was typed
    or passed in the flags. *)
Theorem newlogin_connection_has_device (a : program.Args) (h : program.Host)
    (w : World) (out : list program.effect) (conf : Config) (conn : Conn) :
  program.newLogin a = true ->
  setup a h w = (out, program.Polls conf (Some conn)) ->
  Device (config conn) <> []
  /\ forall w' i n, Status conn w' <> Panics (IndexOutOfRange i n).
Proof.
  intros Hnew Hs.
  destruct (setup_polls _ _ _ _ _ _ Hs) as ((c & Hc & Hcf & _) & Hn & _).
  injection Hc as Hc. subst c.
  destruct (Hn Hnew) as (asked & Hcreate & _).
  assert (Hdev : Device (config conn) <> []).
  { rewrite Hcf.
    destruct (createConfig_ok _ _ _ _ Hcreate)
      as (? & ? & _ & _ & _ & [(? & ? & _ & _ & -> & _)|(_ & _ & ? & ? & _ & ->)]);
      [apply Split_not_nil | discriminate]. }
  split; [exact Hdev|].
  intros w' i n H.
  destruct (Status_cases userAgent isPrintTables url_Parse_ok conn w')
    as [[D _]|[(q & _ & _ & E)|[(q & e & _ & _ & _ & E)|[(q & e & _ & _ & _ & E)
        |(d & _ & E)]]]]; [contradiction| | | |]; rewrite E in H;
    try discriminate H.
  destruct (Status_validate_returns isPrintTables d) as (x & err & V).
  rewrite V in H. discriminate H.
Qed.

(** X18: The configuration is written in one case only: [-newlogin] is set,
    [createConfig] succeeded and [NewConn] returned no error.  The write
    is then the last thing the setup does, once, under the name of the
    [config] flag with the permission 0600, and what is written is
    [json.Marshal] of the configuration. *)
Theorem setup_writes_config_iff (a : program.Args) (h : program.Host)
    (w : World) (name data : bytes) (perm : Z) :
  In (program.WriteFile name data perm) (fst (setup a h w))
  <-> program.newLogin a = true
      /\ exists asked conf conn,
           program.createConfig a h = (asked, (conf, None))
           /\ NewConn userAgent conf w = Return conn None
           /\ name = program.config a
           /\ data = json.Marshal (program.value_of conf) program.ConfigType
           /\ perm = 384
           /\ fst (setup a h w) = asked ++ [program.WriteFile name data perm].
Proof.
  assert (Hasked : ~ In (program.WriteFile name data perm)
                      (fst (program.createConfig a h))).
  { unfold program.createConfig, bufio.ReadString.
    destruct (program.term_ReadPassword h) as [pass [e3|]];
      destruct (beqb (program.email a) []);
      destruct (match strings.Split _ _ with [] => true | _ => _ end);
      repeat match goal with
        | |- context [bufio.until ?d ?s] =>
            destruct (bufio.until d s) as [[? ?]|]; cbn [bufio.pending]
        end;
      cbn [fst app In];
      intros Hin; repeat (destruct Hin as [Hin|Hin]; try discriminate Hin);
      contradiction. }
  unfold program.setup.
  destruct (program.newLogin a).
  - destruct (program.createConfig a h) as [asked [cf [e|]]] eqn:Hc;
      cbn [option_map fst] in *.
    { split; [intros H; contradiction
             | intros (_ & ? & ? & ? & H & _); discriminate H]. }
    destruct (NewConn userAgent cf w) as [conn [e|]|p] eqn:HN; cbn [fst].
    + split; [intros H; contradiction|].
      intros (_ & ? & ? & ? & H & HN' & _). injection H as <- <-.
      rewrite HN in HN'. discriminate HN'.
    + assert (Hout : forall st : list program.effect * program.started,
                st = (match program.os_WriteFile h (program.config a)
                              (json.Marshal (program.value_of cf)
                                            program.ConfigType) 384 with
                      | Some e =>
                          (asked ++ [program.WriteFile (program.config a)
                                       (json.Marshal (program.value_of cf)
                                                     program.ConfigType) 384],
                           program.Fatal
                             (program.FailedToWrite (program.config a) e))
                      | None =>
                          (asked ++ [program.WriteFile (program.config a)
                                       (json.Marshal (program.value_of cf)
                                                     program.ConfigType) 384],
                           program.Polls cf conn)
                      end) ->
                fst st = asked ++ [program.WriteFile (program.config a)
                                     (json.Marshal (program.value_of cf)
                                                   program.ConfigType) 384])
        by (intros st ->; destruct (program.os_WriteFile h _ _ _); reflexivity).
      rewrite (Hout _ eq_refl).
      split.
      * intros H. apply in_app_or in H as [H|H]; [contradiction|].
        destruct H as [H|[]]. injection H as <- <- <-.
        split; [reflexivity|]. exists asked, cf, conn. now splits.
      * intros (_ & asked' & cf' & conn' & H & _ & -> & -> & -> & _).
        injection H as <- <-. apply in_or_app. right. now left.
    + destruct (NewConn_cases userAgent cf w) as [(c & E & _)|(e & E)];
        rewrite E in HN; discriminate HN.
  - split; [|intros [H _]; discriminate H].
    destruct (program.os_ReadFile h (program.config a)) as [d [e|]];
      [intros []|].
    destruct (json.Unmarshal d _ _) as [v [e|]]; cbn [option_map];
      [intros []|].
    destruct (NewConn userAgent _ w) as [conn [e|]|p]; intros [].
Qed.

(** [Status] reads of the connection the token and the first device,
    and nothing else. *)
Lemma Status_reads_first_device (conn conn' : Conn) (w : World) :
  token conn = token conn' ->
  hd_error (Device (config conn)) = hd_error (Device (config conn')) ->
  Status conn w = Status conn' w.
Proof.
  intros Ht Hd. unfold benwh.Status.
  destruct (Device (config conn)) as [|d ds];
    destruct (Device (config conn')) as [|d' ds']; try discriminate Hd.
  - reflexivity.
  - cbn [hd_error] in Hd. injection Hd as <-. cbn [nth_error].
    now rewrite Ht.
Qed.

(** X21: Of a device list given in the flag only the first device is ever
    queried: when [-newlogin] is run with the devices [d0,rest], the
    configuration keeps the whole list, and every call of [Status] on the
    connection is the call on a connection whose one device is [d0]. *)
Theorem devices_after_first_never_queried (a : program.Args)
    (h : program.Host) (w : World) (out : list program.effect)
    (conf : Config) (conn : Conn) (d0 rest : bytes) :
  program.newLogin a = true ->
  setup a h w = (out, program.Polls conf (Some conn)) ->
  program.devices a = d0 ++ ","%char :: rest ->
  d0 <> [] ->
  ~ In ","%char d0 ->
  Device (config conn) = d0 :: strings.Split rest ","%char
  /\ forall w',
       Status conn w'
       = Status {| config := {| Email := Email conf; Device := [d0];
                                Password := Password conf |};
                   token := token conn; client := tt |} w'.
Proof.
  intros Hnew Hs Hflag Hne Hd0.
  destruct (setup_polls _ _ _ _ _ _ Hs) as ((c & Hc & Hcf & _) & Hn & _).
  injection Hc as Hc. subst c.
  destruct (Hn Hnew) as (asked & Hcreate & _).
  assert (Hdev : Device (config conn) = d0 :: strings.Split rest ","%char).
  { rewrite Hcf.
    destruct (createConfig_ok _ _ _ _ Hcreate)
      as (? & ? & _ & _ & _ & [(? & ? & _ & _ & -> & _)|(Hask & _)]).
    - rewrite Hflag. now apply Split_app.
    - exfalso. rewrite Hflag in Hask.
      destruct d0 as [|c d0]; [contradiction|].
      destruct Hask as [E|(s' & E)]; [discriminate E|].
      injection E as -> _. apply Hd0. now left. }
  split; [exact Hdev|].
  intros w'. apply Status_reads_first_device; [reflexivity|].
  rewrite Hdev. reflexivity.
Qed.

End Setup.

(** ** The configuration file, written and read *)

Lemma Marshal_Config (conf : Config) :
  json.Marshal (program.value_of conf) program.ConfigType
  = "{"%char :: dquote :: json.string_loop true 0 (str "Email")
    ++ dquote :: ":"%char :: dquote :: json.string_loop true 0 (Email conf)
    ++ dquote :: ","%char :: dquote :: json.string_loop true 0 (str "Device")
    ++ dquote :: ":"%char :: devices_json (Device conf)
    ++ ","%char :: dquote :: json.string_loop true 0 (str "Password")
    ++ dquote :: ":"%char :: dquote :: json.string_loop true 0 (Password conf)
    ++ dquote :: ["}"%char].
Proof.
  unfold program.value_of, program.ConfigType.
  cbn [json.Marshal fv reflect.fld].
  assert (HD : json.Marshal
                 match Device conf with
                 | [] => reflect.VNil
                 | b :: l => reflect.VSlice (map reflect.VString (b :: l))
                 end (reflect.Slice reflect.String)
               = devices_json (Device conf)).
  { destruct (Device conf) as [|d ds]; [reflexivity|].
    unfold devices_json. cbn [json.Marshal]. rewrite map_map. reflexivity. }
  rewrite HD. clear HD.
  unfold json.join, json.appendString. cbn [flat_map].
  change (json.string_loop true 0 (str "Email")) with (str "Email").
  change (json.string_loop true 0 (str "Device")) with (str "Device").
  change (json.string_loop true 0 (str "Password")) with (str "Password").
  generalize (json.string_loop true 0 (Email conf)) as E.
  generalize (json.string_loop true 0 (Password conf)) as P.
  generalize (devices_json (Device conf)) as D.
  intros D P E. cbn. repeat (rewrite <- app_assoc; cbn [app]). reflexivity.
Qed.

Lemma string_body_json (c : ascii) (R : bytes) :
  ascii7 c = true ->
  json.string_body 0
    ((if json.htmlSafe c then [c] else json.escape_ascii c) ++ R)
  = json.cons_to [c] (json.string_body 0 R).
Proof.
  destruct c as [b0 b1 b2 b3 b4 b5 b6 b7].
  destruct b0, b1, b2, b3, b4, b5, b6, b7; intros H; vm_compute in H;
    try discriminate H; reflexivity.
Qed.

(** What [appendString] writes for a string of ASCII, the scanner reads
    back as that string. *)
Lemma string_literal (s rest : bytes) :
  forallb ascii7 s = true ->
  json.string_body 0 (json.string_loop true 0 s ++ dquote :: rest)
  = Some (s, rest).
Proof.
  induction s as [|c s IH]; intros H; [reflexivity|].
  cbn [forallb] in H. apply andb_prop in H as [Hc Hs].
  cbn [json.string_loop]. pose proof Hc as Hc'. unfold ascii7 in Hc'.
  rewrite Hc', <- app_assoc, (string_body_json c _ Hc), (IH Hs).
  reflexivity.
Qed.

Lemma value_string (f : nat) (depth : Z) (s rest : bytes) :
  forallb ascii7 s = true ->
  json.value (S f) depth (dquote :: json.string_loop true 0 s ++ dquote :: rest)
  = Some (json.String s, rest).
Proof.
  intros H. cbn [json.value].
  change (Ascii.eqb dquote "{") with false.
  change (Ascii.eqb dquote "[") with false.
  change (Ascii.eqb dquote dquote) with true. cbv iota.
  now rewrite string_literal.
Qed.

Lemma elements_S (f : nat) (depth : Z) (s : bytes) :
  json.elements (S f) depth s
  = match json.value f depth s with
    | None => None
    | Some (x, r) =>
        match json.skip_ws r with
        | c :: r' =>
            if Ascii.eqb c "]" then Some ([x], r')
            else if Ascii.eqb c "," then
              match json.elements f depth (json.skip_ws r') with
              | Some (xs, r2) => Some (x :: xs, r2)
              | None => None
              end
            else None
        | [] => None
        end
    end.
Proof. reflexivity. Qed.

(** The elements of an array of ASCII strings as [Marshal] writes them
    are read back, given fuel for each. *)
Lemma elements_strings (depth : Z) (rest : bytes) :
  forall (ds : list bytes) (d : bytes) (f : nat),
    Forall (fun x => forallb ascii7 x = true) (d :: ds) ->
    (List.length ds + 2 <= f)%nat ->
    json.elements f depth
      (json.join (str ",") (map json.appendString (d :: ds)) ++ "]"%char :: rest)
    = Some (map json.String (d :: ds), rest).
Proof.
  induction ds as [|d' ds IH]; intros d f Hall Hf.
  - destruct f as [|[|f]]; [cbn in Hf; lia | cbn in Hf; lia|].
    rewrite elements_S.
    inversion Hall as [|? ? Hd _]; subst.
    unfold json.join, json.appendString. cbn [map flat_map].
    rewrite app_nil_r. cbn [app]. rewrite <- app_assoc. cbn [app].
    rewrite (value_string f depth d _ Hd). reflexivity.
  - destruct f as [|[|f]]; [cbn in Hf; lia | cbn in Hf; lia|].
    rewrite elements_S.
    inversion Hall as [|? ? Hd Hrest]; subst.
    specialize (IH d' (S f) Hrest ltac:(cbn in Hf |- *; lia)).
    unfold json.join in IH |- *. cbn [map flat_map] in IH |- *.
    change (str ",") with [","%char] in IH |- *.
    unfold json.appendString at 1. cbn [app].
    rewrite <- !app_assoc. cbn [app].
    rewrite (value_string f depth d _ Hd).
    cbn [json.skip_ws]. change (json.isSpace ",") with false. cbv iota.
    change (Ascii.eqb "," "]") with false.
    change (Ascii.eqb "," ",") with true. cbv iota.
    unfold json.appendString at 1. cbn [app json.skip_ws].
    change (json.isSpace dquote) with false. cbv iota.
    unfold json.appendString at 1 in IH. cbn [app] in IH.
    rewrite <- !app_assoc in IH. cbn [app] in IH.
    rewrite <- !app_assoc. cbn [app].
    rewrite IH. reflexivity.
Qed.

(** The device list of a configuration, written and read. *)
Lemma value_devices (f : nat) (ds : list bytes) (rest : bytes) :
  Forall (fun x => forallb ascii7 x = true) ds ->
  (List.length ds + 3 <= f)%nat ->
  json.value f 1 (devices_json ds ++ rest) = Some (devices_parsed ds, rest).
Proof.
  intros Hall Hf. destruct f as [|f]; [lia|].
  destruct ds as [|d ds]; [reflexivity|].
  unfold devices_json, devices_parsed.
  cbn [app json.value].
  change (Ascii.eqb "[" "{") with false.
  change (Ascii.eqb "[" "[") with true. cbv iota.
  change (json.maxNestingDepth <? 1 + 1) with false. cbv iota.
  rewrite <- app_assoc. cbn [app].
  pose proof (elements_strings (1 + 1) rest ds d f Hall
                ltac:(cbn in Hf |- *; lia)) as He.
  unfold json.join in He |- *. cbn [map] in He |- *.
  unfold json.appendString at 1 in He. unfold json.appendString at 1.
  cbn [app] in He |- *. cbn [json.skip_ws].
  change (json.isSpace dquote) with false. cbv iota.
  change (Ascii.eqb dquote "]") with false. cbv iota.
  rewrite He. reflexivity.
Qed.

Lemma devices_json_length (ds : list bytes) :
  (List.length ds <= List.length (devices_json ds))%nat.
Proof.
  destruct ds as [|d ds]; [cbn; lia|].
  unfold devices_json, json.join. cbn [map List.length].
  rewrite !length_app.
  assert (H : forall xs : list bytes,
            (List.length xs
             <= List.length (flat_map (fun q => str "," ++ q)
                               (map json.appendString xs)))%nat).
  { induction xs as [|x xs IH]; [cbn; lia|].
    cbn [map flat_map]. rewrite !length_app.
    change (List.length (str ",")) with 1%nat. cbn [List.length]. lia. }
  specialize (H ds). cbn [List.length]. lia.
Qed.

(** The JSON of a configuration in ASCII parses to an object of its three
    fields. *)
Lemma parse_Config (conf : Config) :
  ascii_config conf ->
  json.parse (json.Marshal (program.value_of conf) program.ConfigType)
  = Some (json.Object
            [ (str "Email", json.String (Email conf));
              (str "Device", devices_parsed (Device conf));
              (str "Password", json.String (Password conf)) ]).
Proof.
  intros (HE & HD & HP). rewrite Marshal_Config.
  set (data := "{"%char :: _).
  assert (Hfuel : (List.length (Device conf) + 8 <= json.fuel_for data)%nat).
  { unfold json.fuel_for, data.
    repeat (progress (rewrite ?length_app; cbn [List.length])).
    pose proof (devices_json_length (Device conf)). lia. }
  unfold json.parse.
  destruct (json.fuel_for data) as [|[|[|[|[|f]]]]]; try lia.
  unfold data. clear data.
  cbn [json.skip_ws]. change (json.isSpace "{") with false. cbv iota.
  cbn [json.value].
  change (Ascii.eqb "{" "{") with true. cbv iota.
  change (json.maxNestingDepth <? 0 + 1) with false. cbv iota.
  cbn [json.skip_ws]. change (json.isSpace dquote) with false. cbv iota.
  change (Ascii.eqb dquote "}") with false. cbv iota.
  (* the member Email *)
  cbn [json.members].
  change (Ascii.eqb dquote dquote) with true. cbv iota.
  rewrite (string_literal (str "Email") _ eq_refl).
  cbn [json.skip_ws]. change (json.isSpace ":") with false. cbv iota.
  change (Ascii.eqb ":" ":") with true. cbv iota.
  cbn [json.skip_ws]. change (json.isSpace dquote) with false. cbv iota.
  rewrite (value_string _ _ _ _ HE).
  cbn [json.skip_ws]. change (json.isSpace ",") with false. cbv iota.
  change (Ascii.eqb "," "}") with false.
  change (Ascii.eqb "," ",") with true. cbv iota.
  cbn [json.skip_ws]. change (json.isSpace dquote) with false. cbv iota.
  (* the member Device *)
  cbn [json.members].
  change (Ascii.eqb dquote dquote) with true. cbv iota.
  rewrite (string_literal (str "Device") _ eq_refl).
  cbn [json.skip_ws]. change (json.isSpace ":") with false. cbv iota.
  change (Ascii.eqb ":" ":") with true. cbv iota.
  assert (Hsk : forall rest,
            json.skip_ws (devices_json (Device conf) ++ rest)
            = devices_json (Device conf) ++ rest)
    by (intros rest; destruct (Device conf); reflexivity).
  rewrite Hsk.
  rewrite (value_devices _ _ _ HD) by (cbn in Hfuel |- *; lia).
  cbn [json.skip_ws]. change (json.isSpace ",") with false. cbv iota.
  change (Ascii.eqb "," "}") with false.
  change (Ascii.eqb "," ",") with true. cbv iota.
  cbn [json.skip_ws]. change (json.isSpace dquote) with false. cbv iota.
  (* the member Password *)
  destruct f as [|[|f]]; [cbn in Hfuel; lia | cbn in Hfuel; lia|].
  cbn [json.members].
  change (Ascii.eqb dquote dquote) with true. cbv iota.
  rewrite (string_literal (str "Password") _ eq_refl).
  cbn [json.skip_ws]. change (json.isSpace ":") with false. cbv iota.
  change (Ascii.eqb ":" ":") with true. cbv iota.
  cbn [json.skip_ws]. change (json.isSpace dquote) with false. cbv iota.
  rewrite (value_string _ _ _ _ HP).
  reflexivity.
Qed.

(** An array of strings stored into a slice of strings. *)
Lemma store_strings (ds : list bytes) (old : reflect.Value) :
  json.store (json.Array (map json.String ds)) (reflect.Slice reflect.String) old
  = (reflect.VSlice (map reflect.VString ds), None).
Proof.
  cbn [json.store].
  generalize (match old with reflect.VSlice os => os | _ => [] end) as olds.
  match goal with
  | |- forall olds, (let (vs, e) := ?F _ olds in _) = _ => set (elems := F)
  end.
  assert (H : forall xs os,
            elems (map json.String xs) os = (map reflect.VString xs, None)).
  { induction xs as [|x xs IH]; intros os; [reflexivity|].
    cbn [map]. unfold elems at 1. fold elems. rewrite IH. reflexivity. }
  intros olds. now rewrite H.
Qed.

Lemma store_Config (conf : Config) :
  json.store
    (json.Object
       [ (str "Email", json.String (Email conf));
         (str "Device", devices_parsed (Device conf));
         (str "Password", json.String (Password conf)) ])
    program.ConfigType (reflect.zero program.ConfigType)
  = (program.value_of conf, None).
Proof.
  destruct conf as [e ds p]. unfold program.value_of.
  cbn [Email Device Password].
  destruct ds as [|d ds]; [reflexivity|].
  unfold devices_parsed.
  remember (json.Array (map json.String (d :: ds))) as A eqn:HA.
  cbn. subst A. rewrite store_strings. reflexivity.
Qed.

(** A configuration in ASCII that is written as JSON and read again is
    the same configuration. *)
Lemma Unmarshal_Marshal_Config (conf : Config) :
  ascii_config conf ->
  json.Unmarshal (json.Marshal (program.value_of conf) program.ConfigType)
    program.ConfigType (reflect.zero program.ConfigType)
  = (program.value_of conf, None)
  /\ program.Config_of (program.value_of conf) = conf.
Proof.
  intros H. split.
  - unfold json.Unmarshal. rewrite (parse_Config conf H). apply store_Config.
  - destruct conf as [e ds p]. unfold program.Config_of, program.value_of.
    cbn [Email Device Password]. destruct ds as [|d ds]; [reflexivity|].
    cbn -[map]. rewrite map_map. now rewrite map_id.
Qed.

Lemma lowerhex_ascii7 (s : bytes) :
  Forall (fun c => In c lowerhex) s -> forallb ascii7 s = true.
Proof.
  induction 1 as [|c s Hc _ IH]; [reflexivity|].
  cbn [forallb]. rewrite IH, andb_true_r.
  cbn in Hc. repeat (destruct Hc as [<-|Hc]; [reflexivity|]). contradiction.
Qed.

Section Saved.

Variable userAgent : bytes.
Variable isPrintTables : Z -> bool.
Variable url_Parse_ok : bytes -> bool.

Local Abbreviation setup := (program.setup userAgent).
Local Abbreviation main := (program.main userAgent isPrintTables url_Parse_ok).

(** X19: The configuration that a run with [-newlogin] saved is the one a
    later run reads: when the account and the devices are written in
    ASCII, what was written decodes without error to the configuration
    that was used, and a run without [-newlogin] that finds these bytes
    in its file asks [NewConn] for a connection with that configuration. *)
Theorem saved_config_reads_back (a : program.Args) (h : program.Host)
    (w : World) (out : list program.effect) (conf : Config)
    (conn : option Conn) :
  program.newLogin a = true ->
  setup a h w = (out, program.Polls conf conn) ->
  forallb ascii7 (Email conf) = true ->
  Forall (fun d => forallb ascii7 d = true) (Device conf) ->
  exists data,
    In (program.WriteFile (program.config a) data 384) out
    /\ json.Unmarshal data program.ConfigType (reflect.zero program.ConfigType)
       = (program.value_of conf, None)
    /\ forall a' h' w',
         program.newLogin a' = false ->
         program.os_ReadFile h' (program.config a') = (data, None) ->
         setup a' h' w'
         = ([], match NewConn userAgent conf w' with
                | Panics p => program.Crashed p
                | Return _ (Some e) =>
                    program.Fatal (program.UnableToAuthenticate e)
                | Return c None => program.Polls conf c
                end).
Proof.
  intros Hnew Hs HE HD.
  destruct (setup_polls userAgent _ _ _ _ _ _ Hs) as (_ & Hn & _).
  destruct (Hn Hnew) as (asked & Hcreate & -> & _).
  assert (Hascii : ascii_config conf).
  { unfold ascii_config. splits; [exact HE | exact HD |].
    apply lowerhex_ascii7.
    destruct (createConfig_ok _ _ _ _ Hcreate) as (pass & rest & _ & -> & _).
    apply EncodeToString_shape. }
  destruct (Unmarshal_Marshal_Config conf Hascii) as [Hu Hc].
  exists (json.Marshal (program.value_of conf) program.ConfigType).
  splits.
  - apply in_or_app. right. now left.
  - exact Hu.
  - intros a' h' w' Hnew' Hread.
    unfold program.setup. rewrite Hnew', Hread, Hu. cbn [option_map].
    rewrite Hc.
    destruct (NewConn userAgent conf w') as [c [e|]|p]; reflexivity.
Qed.

(** X20: A configuration file without a device lets the program log in and
    then crash: when the file decodes to a configuration whose device list
    is empty (the member is missing, null or an empty array) and [NewConn]
    returns a connection, the first call of [Status] panics on index 0 and
    [main] ends there, with nothing shown. *)
Theorem main_without_device_crashes (a : program.Args) (h : program.Host)
    (w w1 : World) (ws : list World) (d : bytes) (v : reflect.Value) :
  program.newLogin a = false ->
  program.os_ReadFile h (program.config a) = (d, None) ->
  json.Unmarshal d program.ConfigType (reflect.zero program.ConfigType)
  = (v, None) ->
  Device (program.Config_of v) = [] ->
  (exists c, NewConn userAgent (program.Config_of v) w = Return c None) ->
  main a h w (w1 :: ws)
  = ([], [], program.Looped (status.Crash (IndexOutOfRange 0 0))).
Proof.
  intros Hnew Hread Hu Hdev (c & HN).
  unfold program.main, program.setup. rewrite Hnew, Hread, Hu.
  cbn [option_map].
  destruct (NewConn_cases userAgent (program.Config_of v) w)
    as [(conn & E & Hcf)|(e & E)]; rewrite E in HN |- *; [|discriminate HN].
  cbn [map program.call]. rewrite loop_cons.
  unfold benwh.Status. rewrite Hcf, Hdev. reflexivity.
Qed.

End Saved.

(** ** The body that [Status] posts, read as JSON *)

Lemma digit_of_isDigit (d : Z) :
  0 <= d < 10 -> isDigit (digit_of lowerhex d) = true.
Proof.
  intros H.
  assert (E : d = 0 \/ d = 1 \/ d = 2 \/ d = 3 \/ d = 4 \/ d = 5 \/ d = 6
              \/ d = 7 \/ d = 8 \/ d = 9) by lia.
  repeat (destruct E as [->|E]; [reflexivity|]). now subst d.
Qed.

Lemma digit_of_leading (d : Z) :
  1 <= d < 10 -> in_range "1" "9" (digit_of lowerhex d) = true.
Proof.
  intros H.
  assert (E : d = 1 \/ d = 2 \/ d = 3 \/ d = 4 \/ d = 5 \/ d = 6
              \/ d = 7 \/ d = 8 \/ d = 9) by lia.
  repeat (destruct E as [->|E]; [reflexivity|]). now subst d.
Qed.

(** The digits of a positive number begin with a digit that is not zero. *)
Lemma digits_aux_leading (fuel : nat) :
  forall n acc,
    forallb isDigit acc = true ->
    1 <= n < 10 ^ Z.of_nat fuel ->
    exists d ds,
      digits_aux fuel lowerhex 10 n acc = d :: ds
      /\ in_range "1" "9" d = true
      /\ forallb isDigit ds = true.
Proof.
  induction fuel as [|fuel IH]; intros n acc Hacc Hn.
  - cbn in Hn. lia.
  - cbn [digits_aux].
    destruct (n <? 10) eqn:E.
    + apply Z.ltb_lt in E. rewrite Z.mod_small by lia.
      exists (digit_of lowerhex n), acc.
      splits; [reflexivity | apply digit_of_leading; lia | exact Hacc].
    + apply Z.ltb_ge in E. apply IH.
      * cbn [forallb]. rewrite Hacc, andb_true_r.
        apply digit_of_isDigit. apply Z.mod_pos_bound. lia.
      * rewrite Nat2Z.inj_succ, Z.pow_succ_r in Hn by lia.
        split; [apply Z.div_le_lower_bound; lia
               | apply Z.div_lt_upper_bound; lia].
Qed.

(** [%d] writes a decimal literal for every 64-bit integer. *)
Lemma fmt_d_literal (n : Z) :
  - 2 ^ 63 <= n < 2 ^ 63 -> decimal_literal (fmt_d n).
Proof.
  intros Hn. unfold fmt_d, digits, decimal_literal.
  assert (Hb : 2 ^ 63 < 10 ^ Z.of_nat 64) by (vm_compute; reflexivity).
  destruct (n <? 0) eqn:E.
  - apply Z.ltb_lt in E.
    assert (H1 : 1 <= - n < 10 ^ Z.of_nat 64) by lia.
    clear Hb Hn E.
    destruct (digits_aux_leading 64 (- n) [] eq_refl H1)
      as (d & ds & Heq & Hd & Hds).
    rewrite Heq. exists ["-"%char], d, ds.
    split; [reflexivity|]. split; [right; reflexivity|].
    right. split; assumption.
  - apply Z.ltb_ge in E.
    destruct (Z.eq_dec n 0) as [Hz|Hne].
    + subst n. exists [], "0"%char, [].
      split; [reflexivity|]. split; [left; reflexivity|].
      left. split; reflexivity.
    + assert (H1 : 1 <= n < 10 ^ Z.of_nat 64) by lia.
      clear Hb Hn E Hne.
      destruct (digits_aux_leading 64 n [] eq_refl H1)
        as (d & ds & Heq & Hd & Hds).
      rewrite Heq. exists [], d, ds.
      split; [reflexivity|]. split; [left; reflexivity|].
      right. split; assumption.
Qed.

Lemma span_digits_app (ds rest : bytes) (c : ascii) :
  forallb isDigit ds = true -> isDigit c = false ->
  span_digits (ds ++ c :: rest) = (ds, c :: rest).
Proof.
  intros Hds Hc. induction ds as [|x ds IH].
  - cbn [app span_digits]. now rewrite Hc.
  - cbn [forallb] in Hds. apply andb_prop in Hds as [Hx Hds].
    cbn [app span_digits]. now rewrite Hx, (IH Hds).
Qed.

Lemma leading_cases (d : ascii) :
  in_range "1" "9" d = true ->
  d = "1"%char \/ d = "2"%char \/ d = "3"%char \/ d = "4"%char \/ d = "5"%char
  \/ d = "6"%char \/ d = "7"%char \/ d = "8"%char \/ d = "9"%char.
Proof.
  destruct d as [b0 b1 b2 b3 b4 b5 b6 b7].
  destruct b0, b1, b2, b3, b4, b5, b6, b7; intros H; vm_compute in H;
    try discriminate H; auto 10.
Qed.

(** A decimal literal before a comma or a closing brace is read as a
    number. *)
Lemma value_number (f : nat) (depth : Z) (t rest : bytes) (c : ascii) :
  decimal_literal t ->
  c = ","%char \/ c = "}"%char ->
  json.value (S f) depth (t ++ c :: rest) = Some (json.Number t, c :: rest).
Proof.
  intros (sign & d & ds & -> & Hsign & Hd) Hc.
  assert (Hspan : forallb isDigit ds = true ->
                  span_digits (ds ++ c :: rest) = (ds, c :: rest))
    by (intros H; apply span_digits_app; [exact H | destruct Hc; subst c; reflexivity]).
  destruct Hd as [[-> ->]|[Hd Hds]].
  - destruct Hsign as [->| ->]; destruct Hc as [->| ->]; reflexivity.
  - specialize (Hspan Hds).
    destruct (leading_cases d Hd) as [->|[->|[->|[->|[->|[->|[->|[->| ->]]]]]]]];
      destruct Hsign as [->| ->]; destruct Hc as [->| ->];
      cbn [app json.value json.number]; cbn -[span_digits app];
      rewrite Hspan; cbn; rewrite ?app_nil_r; reflexivity.
Qed.

Lemma skip_ws_literal (t rest : bytes) :
  decimal_literal t -> json.skip_ws (t ++ rest) = t ++ rest.
Proof.
  intros (sign & d & ds & -> & Hsign & Hd).
  destruct Hsign as [->| ->]; [|reflexivity].
  destruct Hd as [[-> ->]|[Hd _]]; [reflexivity|].
  destruct (leading_cases d Hd) as [->|[->|[->|[->|[->|[->|[->|[->| ->]]]]]]]];
    reflexivity.
Qed.

Lemma htmlSafe_ascii7 (s : bytes) :
  forallb json.htmlSafe s = true -> forallb ascii7 s = true.
Proof.
  induction s as [|c s IH]; [reflexivity|].
  cbn [forallb]. intros H. apply andb_prop in H as [Hc Hs].
  rewrite (IH Hs), andb_true_r.
  unfold json.htmlSafe in Hc. apply andb_prop in Hc as [Hc _].
  apply andb_prop in Hc as [_ Hc]. exact Hc.
Qed.

Lemma skip_ws_cons (c : ascii) (rest : bytes) :
  json.isSpace c = false -> json.skip_ws (c :: rest) = c :: rest.
Proof. intros H. cbn [json.skip_ws]. now rewrite H. Qed.

Lemma string_plain (s rest : bytes) :
  forallb json.htmlSafe s = true ->
  json.string_body 0 (s ++ dquote :: rest) = Some (s, rest).
Proof.
  intros H. rewrite <- (string_loop_plain s H) at 1.
  apply string_literal. now apply htmlSafe_ascii7.
Qed.

Lemma value_plain (f : nat) (depth : Z) (s rest : bytes) :
  forallb json.htmlSafe s = true ->
  json.value (S f) depth (dquote :: s ++ dquote :: rest)
  = Some (json.String s, rest).
Proof.
  intros H. rewrite <- (string_loop_plain s H) at 1.
  apply value_string. now apply htmlSafe_ascii7.
Qed.

Lemma small_literals :
  decimal_literal (str "203") /\ decimal_literal (str "0")
  /\ decimal_literal (str "1") /\ decimal_literal (str "25").
Proof.
  splits.
  - exists [], "2"%char, (str "03").
    split; [reflexivity|]. split; [left; reflexivity|]. right. split; reflexivity.
  - exists [], "0"%char, [].
    split; [reflexivity|]. split; [left; reflexivity|]. left. split; reflexivity.
  - exists [], "1"%char, [].
    split; [reflexivity|]. split; [left; reflexivity|]. right. split; reflexivity.
  - exists [], "2"%char, (str "5").
    split; [reflexivity|]. split; [left; reflexivity|]. right. split; reflexivity.
Qed.

(** The steps of the scanner through an object written without space. *)
Ltac read_string H :=
  cbn [json.skip_ws]; change (json.isSpace dquote) with false; cbv iota;
  rewrite (value_plain _ _ _ _ H).

Ltac read_number H :=
  rewrite (skip_ws_literal _ _ H);
  first [ rewrite (value_number _ _ _ _ _ H (or_introl eq_refl))
        | rewrite (value_number _ _ _ _ _ H (or_intror eq_refl)) ].

Ltac next_member :=
  cbn [json.skip_ws]; change (json.isSpace ",") with false; cbv iota;
  change (Ascii.eqb "," "}") with false;
  change (Ascii.eqb "," ",") with true; cbv iota;
  cbn [json.skip_ws]; change (json.isSpace dquote) with false; cbv iota.

(** A member whose value is a string, and one whose value is a number,
    before the next member. *)
Lemma member_string (f : nat) (depth : Z) (key s rest : bytes) :
  forallb json.htmlSafe key = true ->
  forallb json.htmlSafe s = true ->
  json.members (S (S f)) depth
    (dquote :: key ++ dquote :: ":"%char :: dquote :: s ++ dquote
     :: ","%char :: dquote :: rest)
  = match json.members (S f) depth (dquote :: rest) with
    | Some (ms, r) => Some ((key, json.String s) :: ms, r)
    | None => None
    end.
Proof.
  intros Hk Hs.
  cbn [json.members]; change (Ascii.eqb dquote dquote) with true; cbv iota.
  rewrite (string_plain key _ Hk).
  cbn [json.skip_ws]; change (json.isSpace ":") with false; cbv iota.
  change (Ascii.eqb ":" ":") with true; cbv iota.
  read_string Hs. next_member. reflexivity.
Qed.

Lemma member_number (f : nat) (depth : Z) (key t rest : bytes) :
  forallb json.htmlSafe key = true ->
  decimal_literal t ->
  json.members (S (S f)) depth
    (dquote :: key ++ dquote :: ":"%char :: t ++ ","%char :: dquote :: rest)
  = match json.members (S f) depth (dquote :: rest) with
    | Some (ms, r) => Some ((key, json.Number t) :: ms, r)
    | None => None
    end.
Proof.
  intros Hk Ht.
  cbn [json.members]; change (Ascii.eqb dquote dquote) with true; cbv iota.
  rewrite (string_plain key _ Hk).
  cbn [json.skip_ws]; change (json.isSpace ":") with false; cbv iota.
  change (Ascii.eqb ":" ":") with true; cbv iota.
  read_number Ht. next_member. reflexivity.
Qed.

(** The last member of the body: the request, an object of its own. *)
Lemma member_dataArea (f : nat) (rest : bytes) :
  json.members (S (S (S (S (S f))))) 1
    (dquote :: str "dataArea" ++ dquote :: ":"%char :: req ++ "}"%char :: rest)
  = Some ([ (str "dataArea",
             json.Object [ (str "opt", json.Number (str "1"));
                           (str "refreshData", json.Number (str "1")) ]) ],
          rest).
Proof. reflexivity. Qed.

Lemma value_object (f : nat) (rest : bytes) :
  json.value (S f) 0 ("{"%char :: dquote :: rest)
  = match json.members f 1 (dquote :: rest) with
    | Some (ms, r) => Some (json.Object ms, r)
    | None => None
    end.
Proof. reflexivity. Qed.

(** X5: For a device identifier of characters that JSON writes as they are,
    other than the placeholder's text, and for every time of the clock,
    the body that [Status] posts is one JSON object of nine members in the
    order of the struct, in which [dataArea] holds the request as an
    object of its own (not as a string) and [len] and [crc] are its
    length and checksum. *)
Theorem posted_body_is_json (equipNo : bytes) (now : Z) :
  forallb json.htmlSafe equipNo = true ->
  equipNo <> str ":data-area:" ->
  - 2 ^ 63 <= now < 2 ^ 63 ->
  json.parse (body_of equipNo now)
  = Some (json.Object
            [ (str "lang", json.String (str "EN_US"));
              (str "cmdType", json.Number (str "203"));
              (str "equipNo", json.String equipNo);
              (str "type", json.Number (str "0"));
              (str "timeStamp", json.Number (fmt_d now));
              (str "snno", json.Number (str "1"));
              (str "len", json.Number (fmt_d (Z.of_nat (List.length req))));
              (str "crc", json.String (fmt_08X (crc32.ChecksumIEEE req)));
              (str "dataArea",
               json.Object [ (str "opt", json.Number (str "1"));
                             (str "refreshData", json.Number (str "1")) ]) ])
  /\ json.parse req
     = Some (json.Object [ (str "opt", json.Number (str "1"));
                           (str "refreshData", json.Number (str "1")) ]).
Proof.
  intros Hsafe Hne Hnow. split; [|vm_compute; reflexivity].
  rewrite (body_of_plain _ _ Hsafe Hne).
  change (fmt_d (Z.of_nat (List.length req))) with (str "25").
  change (fmt_08X (crc32.ChecksumIEEE req)) with (str "6FC3A6BF").
  pose proof (fmt_d_literal now Hnow) as HT. revert HT.
  generalize (fmt_d now) as T. intros T HT.
  destruct small_literals as (L203 & L0 & L1 & L25).
  unfold json.parse.
  match goal with
  | |- context [json.fuel_for ?d] => set (F := json.fuel_for d)
  end.
  assert (HF : (20 <= F)%nat).
  { unfold F, json.fuel_for. rewrite length_app.
    change (List.length (jstr "{'lang':'EN_US','cmdType':203,'equipNo':'"))
      with 41%nat. lia. }
  do 20 (destruct F as [|F]; [exfalso; lia|]). clear HF.
  change (jstr "{'lang':'EN_US','cmdType':203,'equipNo':'" ++ equipNo
          ++ jstr "','type':0,'timeStamp':" ++ T
          ++ jstr ",'snno':1,'len':25,'crc':'6FC3A6BF','dataArea':"
          ++ req ++ jstr "}")
    with ("{"%char :: dquote :: str "lang" ++ dquote :: ":"%char
          :: dquote :: str "EN_US" ++ dquote :: ","%char
          :: dquote :: str "cmdType" ++ dquote :: ":"%char
          :: str "203" ++ ","%char
          :: dquote :: str "equipNo" ++ dquote :: ":"%char
          :: dquote :: equipNo ++ dquote :: ","%char
          :: dquote :: str "type" ++ dquote :: ":"%char
          :: str "0" ++ ","%char
          :: dquote :: str "timeStamp" ++ dquote :: ":"%char
          :: T ++ ","%char
          :: dquote :: str "snno" ++ dquote :: ":"%char
          :: str "1" ++ ","%char
          :: dquote :: str "len" ++ dquote :: ":"%char
          :: str "25" ++ ","%char
          :: dquote :: str "crc" ++ dquote :: ":"%char
          :: dquote :: str "6FC3A6BF" ++ dquote :: ","%char
          :: dquote :: str "dataArea" ++ dquote :: ":"%char
          :: req ++ "}"%char :: []).
  rewrite (skip_ws_cons "{"%char _ eq_refl).
  rewrite value_object.
  rewrite (member_string _ 1 (str "lang") (str "EN_US") _ eq_refl eq_refl).
  rewrite (member_number _ 1 (str "cmdType") (str "203") _ eq_refl L203).
  rewrite (member_string _ 1 (str "equipNo") equipNo _ eq_refl Hsafe).
  rewrite (member_number _ 1 (str "type") (str "0") _ eq_refl L0).
  rewrite (member_number _ 1 (str "timeStamp") T _ eq_refl HT).
  rewrite (member_number _ 1 (str "snno") (str "1") _ eq_refl L1).
  rewrite (member_number _ 1 (str "len") (str "25") _ eq_refl L25).
  rewrite (member_string _ 1 (str "crc") (str "6FC3A6BF") _ eq_refl eq_refl).
  rewrite member_dataArea.
  reflexivity.
Qed.

(** ** Instances of the properties above *)

(** A retried answer: no record, an error. *)
Lemma Status_record_iff_no_error_witness :
  sample.Status (sample.conn [sample.device]) (sample.server bodies.retry_later)
  = Return None (Some ErrRetryLater)
  /\ ((exists r, @None reflect.Value = Some r /\ Some ErrRetryLater = None)
      \/ (@None reflect.Value = None /\ exists e, Some ErrRetryLater = Some e)).
Proof.
  split; [vm_compute; reflexivity|].
  apply (Status_record_iff_no_error sample.userAgent sample.isPrintTables
           sample.url_Parse_ok (sample.conn [sample.device])
           (sample.server bodies.retry_later)).
  vm_compute; reflexivity.
Defined.

(** The answer of code 102 is retried. *)
Lemma Status_retry_iff_code_102_witness :
  exists x,
    benwh.Status sample.userAgent sample.isPrintTables sample.url_Parse_ok
      (sample.conn [sample.device]) (sample.server bodies.retry_later)
    = Return x (Some ErrRetryLater).
Proof.
  apply (proj2 (Status_retry_iff_code_102 sample.userAgent sample.isPrintTables
                  sample.url_Parse_ok (sample.conn [sample.device])
                  (sample.server bodies.retry_later))).
  exists bodies.retry_later. split; [apply sample_receives|].
  vm_compute; reflexivity.
Defined.

(** A base URL that does not parse: the call panics. *)
Lemma Status_panics_iff_witness :
  benwh.Status sample.userAgent sample.isPrintTables (fun _ => false)
    (sample.conn [sample.device]) (sample.server bodies.good)
  = Panics NilDereference.
Proof.
  apply (proj2 (Status_panics_iff sample.userAgent sample.isPrintTables
                  (fun _ => false) (sample.conn [sample.device])
                  (sample.server bodies.good) NilDereference)).
  right. split; [discriminate|]. split; reflexivity.
Defined.

(** The good answer declares its checksum in lower case. *)
Lemma Status_accepts_formatted_checksum_witness :
  Code_of (envelope bodies.good) = 200
  /\ CRC_of (envelope bodies.good)
     = ToLower (fmt_08X (crc32.ChecksumIEEE
                           (Quote sample.isPrintTables
                              (DataArea_of (envelope bodies.good)))))
  /\ benwh.Status_validate sample.isPrintTables bodies.good
     = Return (Some (telemetry (DataArea_of (envelope bodies.good)))) None.
Proof.
  split; [vm_compute; reflexivity|]. split; [vm_compute; reflexivity|].
  apply (proj2 (proj2 (proj2
           (Status_accepts_formatted_checksum sample.isPrintTables bodies.good)))).
  - vm_compute; reflexivity.
  - right. vm_compute; reflexivity.
Defined.

(** Without a device the loop crashes where [Status] panicked. *)
Lemma loop_crash_is_Status_panic_witness :
  exists w,
    In w [sample.server bodies.good]
    /\ benwh.Status sample.userAgent sample.isPrintTables sample.url_Parse_ok
         (sample.conn []) w
       = Panics (IndexOutOfRange 0 0).
Proof.
  apply (loop_crash_is_Status_panic sample.userAgent sample.isPrintTables
           sample.url_Parse_ok sample.polling (sample.conn [])
           [sample.server bodies.good] status.init []).
  vm_compute; reflexivity.
Defined.

(** Two samples asked for: a retried call, then two samples. *)
Lemma loop_takes_poll_samples_witness :
  snd (status.loop run.twice status.init
         ([sample.retry; sample.success] ++ [sample.success]))
  = status.Break
  /\ Z.of_nat (samples_shown
                 (fst (status.loop run.twice status.init
                         ([sample.retry; sample.success] ++ [sample.success]))))
     = status.poll run.twice.
Proof.
  apply (loop_takes_poll_samples run.twice [sample.retry; sample.success]
           sample.success).
  - discriminate.
  - vm_compute. split; [discriminate | reflexivity].
  - reflexivity.
  - reflexivity.
  - reflexivity.
Defined.

(** Without a delay: a retried call, one sample, and the loop is left. *)
Lemma loop_single_sample_without_delay_witness :
  snd (status.loop run.flags status.init
         ([sample.retry] ++ sample.success :: [sample.success]))
  = status.Break
  /\ samples_shown
       (fst (status.loop run.flags status.init
               ([sample.retry] ++ sample.success :: [sample.success])))
     = 1%nat.
Proof.
  apply (loop_single_sample_without_delay run.flags status.init [sample.retry]
           [sample.success] sample.success); reflexivity.
Defined.

(** After a retried first call the samples stand under no header. *)
Lemma loop_header_iff_first_call_samples_witness :
  ~ In status.LogHeader
      (fst (status.loop sample.polling status.init
              (map (benwh.Status sample.userAgent sample.isPrintTables
                      sample.url_Parse_ok (sample.conn [sample.device]))
                   [sample.server bodies.retry_later;
                    sample.server bodies.good;
                    sample.server bodies.good]))).
Proof.
  intros H.
  apply (proj1 (loop_header_iff_first_call_samples sample.userAgent
                  sample.isPrintTables sample.url_Parse_ok sample.polling
                  (sample.conn [sample.device])
                  [sample.server bodies.retry_later;
                   sample.server bodies.good;
                   sample.server bodies.good])) in H.
  destruct H as (_ & w & rest & Heq & Hs).
  injection Heq as <- _. vm_compute in Hs. discriminate Hs.
Defined.

(** The wait of the retry number 30 has wrapped around. *)
Lemma backoff_doubles_without_ceiling_witness :
  (30 < 31)%nat
  /\ nth 30 (status.sleeps
               (fst (status.loop sample.polling status.init
                       (repeat sample.retry 31)))) 0 < 0.
Proof.
  split; [lia|].
  apply (proj1 (proj2 (proj2
           (backoff_doubles_without_ceiling sample.polling 31 30 ltac:(lia))))).
  reflexivity.
Defined.

(** Polling without end goes on after every sample. *)
Lemma loop_polls_without_end_witness :
  exists v,
    snd (status.loop sample.polling status.init
           [sample.success; sample.retry; sample.success])
    = status.Again v.
Proof.
  apply (loop_polls_without_end sample.polling
           [sample.success; sample.retry; sample.success]).
  - discriminate.
  - vm_compute. split; [reflexivity | discriminate].
  - reflexivity.
Defined.

(** The owner is asked for the account and the device, and types the
    password: the configuration is the sample one. *)
Lemma createConfig_owner :
  program.createConfig (run.newlogin [] []) run.owner
  = ([ program.Print (str "Email: ");
       program.Print (str "Side Device ID: ");
       program.Print (str "Password: ") ],
     (sample.conf [sample.device], None)).
Proof. vm_compute. reflexivity. Qed.

(** The password stored for the owner is the checksum of what was
    typed. *)
Lemma createConfig_password_md5_hex_witness :
  Password (sample.conf [sample.device])
  = hex.EncodeToString (md5.Sum (fst (program.term_ReadPassword run.owner)))
  /\ List.length (Password (sample.conf [sample.device])) = 32%nat
  /\ Forall (fun c => In c lowerhex) (Password (sample.conf [sample.device])).
Proof.
  exact (createConfig_password_md5_hex (run.newlogin [] []) run.owner _ _
           createConfig_owner).
Defined.

(** With the flag [a,b] the devices are [a] and [b], and none is asked
    for.  With the flag [,b] the device is asked for, and the list is the
    line typed, without the spaces around it. *)
Lemma createConfig_device_list_witness :
  strings.Join
    (Device (fst (snd (program.createConfig
                         (run.newlogin (str "me@example.com") (str "a,b"))
                         run.owner))))
    (str ",")
  = str "a,b"
  /\ In (program.Print (str "Side Device ID: "))
        (fst (program.createConfig
                (run.newlogin (str "me@example.com") (str ",b"))
                (run.host [str " 10060006A02F24150042 "] (str "password") [])))
  /\ Device (fst (snd (program.createConfig
                         (run.newlogin (str "me@example.com") (str ",b"))
                         (run.host [str " 10060006A02F24150042 "]
                                   (str "password") []))))
     = [sample.device].
Proof.
  split.
  - refine (proj1 (proj1 (proj2
              (createConfig_device_list
                 (run.newlogin (str "me@example.com") (str "a,b")) run.owner
                 (fst (program.createConfig
                         (run.newlogin (str "me@example.com") (str "a,b"))
                         run.owner))
                 (fst (snd (program.createConfig
                              (run.newlogin (str "me@example.com") (str "a,b"))
                              run.owner)))
                 _)) "a"%char (str ",b") _ _)).
    + vm_compute; reflexivity.
    + reflexivity.
    + discriminate.
  - destruct (proj2 (proj2
                (createConfig_device_list
                   (run.newlogin (str "me@example.com") (str ",b"))
                   (run.host [str " 10060006A02F24150042 "] (str "password") [])
                   (fst (program.createConfig
                           (run.newlogin (str "me@example.com") (str ",b"))
                           (run.host [str " 10060006A02F24150042 "]
                                     (str "password") [])))
                   (fst (snd (program.createConfig
                                (run.newlogin (str "me@example.com") (str ",b"))
                                (run.host [str " 10060006A02F24150042 "]
                                          (str "password") []))))
                   ltac:(vm_compute; reflexivity)))
              (or_intror (ex_intro _ (str "b") eq_refl)))
      as (Hin & rest & dev & after & Hrest & _ & Hline & HD).
    split; [exact Hin|].
    rewrite HD. rewrite (Hrest ltac:(discriminate)) in Hline.
    vm_compute in Hline. injection Hline as <- _.
    vm_compute. reflexivity.
Defined.

(** The account typed between spaces is stored without them. *)
Lemma createConfig_email_witness :
  program.email (run.newlogin [] []) = []
  /\ Email (sample.conf [sample.device]) = str "owner@example.com"
  /\ ~ In program.newline (Email (sample.conf [sample.device])).
Proof.
  split; [reflexivity|]. split; [reflexivity|].
  exact (proj1 (proj2 (proj2
           (createConfig_email (run.newlogin [] []) run.owner _ _
              createConfig_owner) eq_refl))).
Defined.

(** Two questions, two lines typed: [createConfig] succeeds. *)
Lemma createConfig_succeeds_iff_witness :
  questions (run.newlogin [] []) = 2%nat
  /\ lines (program.stdin run.owner) = 2%nat
  /\ snd (snd (program.createConfig (run.newlogin [] []) run.owner)) = None.
Proof.
  split; [reflexivity|]. split; [reflexivity|].
  apply (proj2 (createConfig_succeeds_iff (run.newlogin [] []) run.owner)).
  split; [vm_compute; lia | reflexivity].
Defined.

(** The setup of the owner's first run. *)
Lemma setup_owner :
  program.setup sample.userAgent (run.newlogin [] []) run.owner
    (sample.server bodies.login_good)
  = ([ program.Print (str "Email: ");
       program.Print (str "Side Device ID: ");
       program.Print (str "Password: ");
       program.WriteFile (str "./benwh.config")
         (json.Marshal (program.value_of (sample.conf [sample.device]))
                       program.ConfigType) 384 ],
     program.Polls (sample.conf [sample.device]) (Some run.conn)).
Proof. vm_compute. reflexivity. Qed.

(** The owner's connection has its device. *)
Lemma newlogin_connection_has_device_witness :
  Device (config run.conn) <> []
  /\ forall w' i n,
       benwh.Status sample.userAgent sample.isPrintTables sample.url_Parse_ok
         run.conn w'
       <> Panics (IndexOutOfRange i n).
Proof.
  exact (newlogin_connection_has_device sample.userAgent sample.isPrintTables
           sample.url_Parse_ok (run.newlogin [] []) run.owner
           (sample.server bodies.login_good) _ _ _ eq_refl setup_owner).
Defined.

(** The owner's first run writes the configuration, for the owner only. *)
Lemma setup_writes_config_iff_witness :
  In (program.WriteFile (str "./benwh.config")
        (json.Marshal (program.value_of (sample.conf [sample.device]))
                      program.ConfigType) 384)
     (fst (program.setup sample.userAgent (run.newlogin [] []) run.owner
             (sample.server bodies.login_good)))
  /\ program.newLogin (run.newlogin [] []) = true.
Proof.
  assert (H : In (program.WriteFile (str "./benwh.config")
                    (json.Marshal (program.value_of (sample.conf [sample.device]))
                                  program.ConfigType) 384)
                 (fst (program.setup sample.userAgent (run.newlogin [] [])
                         run.owner (sample.server bodies.login_good)))).
  { rewrite setup_owner. cbn [fst In]. do 3 right. left. reflexivity. }
  split; [exact H|].
  exact (proj1 (proj1 (setup_writes_config_iff sample.userAgent
                         (run.newlogin [] []) run.owner
                         (sample.server bodies.login_good) _ _ _) H)).
Defined.

(** What the owner's first run wrote, the next run reads. *)
Lemma saved_config_reads_back_witness :
  exists data,
    In (program.WriteFile (program.config (run.newlogin [] [])) data 384)
       [ program.Print (str "Email: ");
         program.Print (str "Side Device ID: ");
         program.Print (str "Password: ");
         program.WriteFile (str "./benwh.config")
           (json.Marshal (program.value_of (sample.conf [sample.device]))
                         program.ConfigType) 384 ]
    /\ json.Unmarshal data program.ConfigType (reflect.zero program.ConfigType)
       = (program.value_of (sample.conf [sample.device]), None)
    /\ forall a' h' w',
         program.newLogin a' = false ->
         program.os_ReadFile h' (program.config a') = (data, None) ->
         program.setup sample.userAgent a' h' w'
         = ([], match NewConn sample.userAgent (sample.conf [sample.device]) w' with
                | Panics p => program.Crashed p
                | Return _ (Some e) =>
                    program.Fatal (program.UnableToAuthenticate e)
                | Return c None =>
                    program.Polls (sample.conf [sample.device]) c
                end).
Proof.
  apply (saved_config_reads_back sample.userAgent (run.newlogin [] [])
           run.owner (sample.server bodies.login_good) _ _ _ eq_refl
           setup_owner).
  - reflexivity.
  - repeat constructor.
Defined.

(** A configuration file without the member [Device]: the program logs
    in and crashes at the first query. *)
Lemma main_without_device_crashes_witness :
  Device (program.Config_of
            (fst (json.Unmarshal run.no_device program.ConfigType
                    (reflect.zero program.ConfigType))))
  = []
  /\ program.main sample.userAgent sample.isPrintTables sample.url_Parse_ok
       run.saved (run.host [] [] run.no_device)
       (sample.server bodies.login_good) [sample.server bodies.good]
     = ([], [], program.Looped (status.Crash (IndexOutOfRange 0 0))).
Proof.
  split; [vm_compute; reflexivity|].
  apply (main_without_device_crashes sample.userAgent sample.isPrintTables
           sample.url_Parse_ok run.saved (run.host [] [] run.no_device)
           (sample.server bodies.login_good) (sample.server bodies.good) []
           run.no_device
           (fst (json.Unmarshal run.no_device program.ConfigType
                   (reflect.zero program.ConfigType)))).
  - reflexivity.
  - reflexivity.
  - vm_compute; reflexivity.
  - vm_compute; reflexivity.
  - eexists. vm_compute. reflexivity.
Defined.

(** The body for the sample device at a time of the clock. *)
Lemma posted_body_is_json_witness :
  forallb json.htmlSafe sample.device = true
  /\ exists members,
       json.parse (body_of sample.device 1731886671)
       = Some (json.Object members)
       /\ List.length members = 9%nat.
Proof.
  split; [reflexivity|].
  eexists. split.
  - refine (proj1 (posted_body_is_json sample.device 1731886671 _ _ _)).
    + reflexivity.
    + discriminate.
    + vm_compute. split; [discriminate | reflexivity].
  - reflexivity.
Defined.

(** Three samples a second apart: two sleeps of a second. *)
Lemma loop_sleeps_between_samples_witness :
  status.sleeps
    (fst (status.loop
            {| status.debug := false; status.poll := 3;
               status.delay := status.Second |}
            status.init [sample.success; sample.success; sample.success]))
  = [status.Second; status.Second].
Proof.
  refine (proj1 (loop_sleeps_between_samples
                   {| status.debug := false; status.poll := 3;
                      status.delay := status.Second |}
                   [sample.success; sample.success; sample.success]
                   _ _ _ _ _)).
  - discriminate.
  - reflexivity.
  - discriminate.
  - reflexivity.
  - reflexivity.
Defined.

(** With the flag [a,b] the device [b] is never asked about. *)
Lemma devices_after_first_never_queried_witness :
  Device (config {| config := {| Email := str "me@example.com";
                                 Device := [str "a"; str "b"];
                                 Password := Password (sample.conf []) |};
                    token := str "APP_ACCOUNT:7:abc"; client := tt |})
  = str "a" :: strings.Split (str "b") ","%char
  /\ forall w',
       benwh.Status sample.userAgent sample.isPrintTables sample.url_Parse_ok
         {| config := {| Email := str "me@example.com";
                         Device := [str "a"; str "b"];
                         Password := Password (sample.conf []) |};
            token := str "APP_ACCOUNT:7:abc"; client := tt |} w'
       = benwh.Status sample.userAgent sample.isPrintTables sample.url_Parse_ok
           {| config := {| Email := str "me@example.com"; Device := [str "a"];
                           Password := Password (sample.conf []) |};
              token := str "APP_ACCOUNT:7:abc"; client := tt |} w'.
Proof.
  refine (devices_after_first_never_queried sample.userAgent
            sample.isPrintTables sample.url_Parse_ok
            (run.newlogin (str "me@example.com") (str "a,b")) run.owner
            (sample.server bodies.login_good)
            (fst (program.setup sample.userAgent
                    (run.newlogin (str "me@example.com") (str "a,b"))
                    run.owner (sample.server bodies.login_good)))
            {| Email := str "me@example.com"; Device := [str "a"; str "b"];
               Password := Password (sample.conf []) |}
            {| config := {| Email := str "me@example.com";
                            Device := [str "a"; str "b"];
                            Password := Password (sample.conf []) |};
               token := str "APP_ACCOUNT:7:abc"; client := tt |}
            (str "a") (str "b") _ _ _ _ _).
  - reflexivity.
  - vm_compute. reflexivity.
  - reflexivity.
  - discriminate.
  - intros [H|[]]. discriminate H.
Defined.
